(** * IBVRD record management: data-access and validation layer

    A shallow embedding of the validation helpers ([Utils] in [main.py]),
    the SQLite-backed [DatabaseManager] ([main.py], [models/database.py]),
    the service layer ([services/pessoa_service.py],
    [services/evento_service.py]), the controller of [main.py] and the
    ledger of [finaiceiro.py], followed by the properties of the
    specification that concern them.

    Conventions of the embedding.
    - A Python [str] is a [string]; each [ascii] stands for one code point
      in the range U+0000..U+00FF.
    - A dictionary filled from the entry widgets is a [gmap string string]:
      [d.get(k)] is [d !! k], with [None] for Python's [None].
    - A nullable TEXT column is an [option string].
    - Every method takes the state it reads and returns the state it leaves,
      together with either its return value or the exception it raises.
    - [datetime.now()] is an argument of the method that reads the clock.
    - [strftime] prints [%Y] as the C library of the platform does, padded
      to four digits or not; the library is a parameter of what prints a
      year ([Datetime.year_padding]).
    - [Validators] ([V]) and [Config], which [models/database.py] and the
      services import from [utils.validators] and [config.settings], are
      [Utils] and [Config] of [main.py]; the methods the services call on
      [self.db] and [models/database.py] leaves out ([update_pessoa],
      [delete_pessoa], [add_evento]) are those of [DatabaseManager] in
      [main.py]. *)

From Stdlib Require Import ZArith Lia Ascii String Floats.
From stdpp Require Import gmap strings list.

Local Open Scope string_scope.
Local Open Scope Z_scope.

(* ================================================================== *)
(** * Python and SQLite primitives used by the code *)
(* ================================================================== *)

Module Py.

Definition code (c : ascii) : N := N_of_ascii c.

(** [\d] of the [re] module and [str.isdecimal]: below U+0100 these are
    the ten ASCII digits. *)
Definition isdecimal (c : ascii) : bool :=
  (48 <=? code c)%N && (code c <=? 57)%N.

(** [str.isdigit]: below U+0100 the ASCII digits and the superscripts
    U+00B2, U+00B3 and U+00B9. *)
Definition isdigit (c : ascii) : bool :=
  isdecimal c || (code c =? 178)%N || (code c =? 179)%N || (code c =? 185)%N.

(** [str.isspace] below U+0100. *)
Definition isspace (c : ascii) : bool :=
  ((9 <=? code c)%N && (code c <=? 13)%N)
  || ((28 <=? code c)%N && (code c <=? 32)%N)
  || (code c =? 133)%N || (code c =? 160)%N.

(** Truth value of a string: empty strings are false. *)
Definition truthy (s : string) : bool :=
  match s with EmptyString => false | String _ _ => true end.

(** Truth value of [d.get(k)]: [None] and the empty string are false. *)
Definition truthy_opt (o : option string) : bool :=
  match o with None => false | Some s => truthy s end.

(** [''.join(filter(p, s))] *)
Fixpoint filter_chars (p : ascii -> bool) (s : string) : string :=
  match s with
  | EmptyString => EmptyString
  | String c s' => if p c then String c (filter_chars p s') else filter_chars p s'
  end.

Fixpoint all_chars (p : ascii -> bool) (s : string) : bool :=
  match s with
  | EmptyString => true
  | String c s' => p c && all_chars p s'
  end.

(** [c * n] for a one-character string [c]. *)
Fixpoint repeat_char (c : ascii) (n : nat) : string :=
  match n with O => EmptyString | S n' => String c (repeat_char c n') end.

(** [s[i:j]] for [0 <= i <= j]. *)
Definition slice (i j : nat) (s : string) : string :=
  String.substring i (j - i) s.

(** [int(c)] for a one-character decimal string. *)
Definition int_of_char (c : ascii) : Z := Z.of_N (code c) - 48.

(** [int(s)] for a string of decimal digits. *)
Fixpoint int_of_digits_acc (acc : Z) (s : string) : Z :=
  match s with
  | EmptyString => acc
  | String c s' => int_of_digits_acc (10 * acc + int_of_char c) s'
  end.

Definition int_of_digits (s : string) : Z := int_of_digits_acc 0 s.

(** [range(start, stop, -1)] *)
Fixpoint range_down_from (start : Z) (n : nat) : list Z :=
  match n with
  | O => []
  | S n' => start :: range_down_from (start - 1) n'
  end.

Definition range_down (start stop : Z) : list Z :=
  range_down_from start (Z.to_nat (start - stop)).

(** [zip(xs, ys)] *)
Fixpoint zip {A B} (xs : list A) (ys : list B) : list (A * B) :=
  match xs, ys with
  | x :: xs', y :: ys' => (x, y) :: zip xs' ys'
  | _, _ => []
  end.

(** [sum(...)] *)
Definition sum (l : list Z) : Z := fold_right Z.add 0 l.

(** [s.lstrip()], [s.rstrip()], [s.strip()] *)
Fixpoint lstrip (s : string) : string :=
  match s with
  | EmptyString => EmptyString
  | String c s' => if isspace c then lstrip s' else s
  end.

Fixpoint rstrip (s : string) : string :=
  match s with
  | EmptyString => EmptyString
  | String c s' =>
      match rstrip s' with
      | EmptyString => if isspace c then EmptyString else String c EmptyString
      | r => String c r
      end
  end.

Definition strip (s : string) : string := rstrip (lstrip s).

(** The digit of a value in [0, 9] as a character. *)
Definition char_of_digit (n : Z) : ascii := ascii_of_N (Z.to_N (48 + n)).

(** Exceptions raised by the modelled code. *)
Inductive message :=
  | NomeObrigatorio          (* "O nome e obrigatorio." *)
  | CpfInvalido              (* "CPF invalido." *)
  | CpfJaCadastrado          (* "CPF ja cadastrado." *)
  | CpfJaCadastradoOutra     (* "CPF ja cadastrado para outra pessoa." *)
  | TituloObrigatorio        (* "O titulo do evento e obrigatorio." *)
  | DataEventoInvalida       (* "Data do evento invalida. Use o formato DD/MM/AAAA." *)
  | FalhaAtualizar.          (* "Falha ao atualizar a pessoa no banco de dados." *)

Inductive constraint :=
  | NotNull (column : string)
  | Unique (column : string).

Inductive exn :=
  | ValueError (m : message)
  | TypeError                          (* unhashable type: 'dict' *)
  | IntegrityError (c : constraint)    (* sqlite3.IntegrityError *)
  | Exception (m : message).

Inductive result (A : Type) :=
  | Return (a : A)
  | Raise (e : exn).

Arguments Return {A} a.
Arguments Raise {A} e.

End Py.

(* ================================================================== *)
(** * [datetime]: parsing and printing of dates *)
(* ================================================================== *)

Module Datetime.

(** The date fields of a [datetime]; dates compare as the tuples
    [(year, month, day)]. *)
Record date := mkDate { year : Z; month : Z; day : Z }.

Definition date_compare (a b : date) : comparison :=
  match year a ?= year b with
  | Eq => match month a ?= month b with
          | Eq => day a ?= day b
          | c => c
          end
  | c => c
  end.

Definition is_leap (y : Z) : bool :=
  (y mod 4 =? 0) && (negb (y mod 100 =? 0) || (y mod 400 =? 0)).

Definition days_in_month (y m : Z) : Z :=
  if m =? 2 then (if is_leap y then 29 else 28)
  else if (m =? 4) || (m =? 6) || (m =? 9) || (m =? 11) then 30
  else 31.

(** The checks of the [date(year, month, day)] constructor. *)
Definition valid_fields (y m d : Z) : bool :=
  (1 <=? y) && (y <=? 9999) && (1 <=? m) && (m <=? 12)
  && (1 <=? d) && (d <=? days_in_month y m).

(** A character class of a regular expression. *)
Definition cls := ascii -> bool.

Definition chr (c : ascii) : cls := fun x => Ascii.eqb x c.

Definition rng (lo hi : ascii) : cls :=
  fun x => (Py.code lo <=? Py.code x)%N && (Py.code x <=? Py.code hi)%N.

(** Match a sequence of character classes at the head of [s]: the matched
    text and what follows it. *)
Fixpoint match_prefix (pat : list cls) (s : string) : option (string * string) :=
  match pat with
  | [] => Some (EmptyString, s)
  | p :: pat' =>
      match s with
      | EmptyString => None
      | String c s' =>
          if p c then
            match match_prefix pat' s' with
            | Some (tok, rest) => Some (String c tok, rest)
            | None => None
            end
          else None
      end
  end.

(** Match a sequence of groups, each an ordered alternation, with
    backtracking: the first alternative for which the remaining groups
    match wins. *)
Fixpoint match_groups (groups : list (list (list cls))) (s : string)
  : option (list string * string) :=
  match groups with
  | [] => Some ([], s)
  | alts :: groups' =>
      (fix try_alts (l : list (list cls)) : option (list string * string) :=
         match l with
         | [] => None
         | a :: l' =>
             match match_prefix a s with
             | Some (tok, s') =>
                 match match_groups groups' s' with
                 | Some (toks, rest) => Some (tok :: toks, rest)
                 | None => try_alts l'
                 end
             | None => try_alts l'
             end
         end) alts
  end.

(** The regular expressions [_strptime] substitutes for the directives:
    [%d] is [3[0-1]|[1-2]\d|0[1-9]|[1-9]| [1-9]], [%m] is
    [1[0-2]|0[1-9]|[1-9]] and [%Y] is [\d\d\d\d]. *)
Definition directive_d : list (list cls) :=
  [ [chr "3"; rng "0" "1"]; [rng "1" "2"; Py.isdecimal]; [chr "0"; rng "1" "9"];
    [rng "1" "9"]; [chr " "; rng "1" "9"] ].

Definition directive_m : list (list cls) :=
  [ [chr "1"; rng "0" "2"]; [chr "0"; rng "1" "9"]; [rng "1" "9"] ].

Definition directive_Y : list (list cls) :=
  [ [Py.isdecimal; Py.isdecimal; Py.isdecimal; Py.isdecimal] ].

Definition literal (c : ascii) : list (list cls) := [ [chr c] ].

(** [datetime.strptime(s, '%d/%m/%Y')]; [None] stands for [ValueError]
    (no match, unconverted data, or field values that are no date). *)
Definition strptime (s : string) : option date :=
  match match_groups
          [directive_d; literal "/"; directive_m; literal "/"; directive_Y] s with
  | Some ([d; _; m; _; y], rest) =>
      if Py.truthy rest then None
      else
        let yv := Py.int_of_digits y in
        let mv := Py.int_of_digits m in
        let dv := Py.int_of_digits (Py.strip d) in
        if valid_fields yv mv dv then Some (mkDate yv mv dv) else None
  | _ => None
  end.

(** Zero-padded decimal of [width] digits. *)
Fixpoint zero_padded (width : nat) (n : Z) : string :=
  match width with
  | O => EmptyString
  | S w => zero_padded w (n / 10) +:+ String (Py.char_of_digit (n mod 10)) EmptyString
  end.

(** How the C library behind [strftime] prints [%Y]: glibc prints the
    year as it is ('999'), other libraries pad it with zeros to four
    digits ('0999'). *)
Inductive year_padding :=
  | Unpadded
  | Padded.

(** [%Y] of [strftime], for the years 1 to 9999 a date can have. *)
Definition strftime_Y (pad : year_padding) (y : Z) : string :=
  match pad with
  | Padded => zero_padded 4 y
  | Unpadded =>
      if y <? 10 then zero_padded 1 y
      else if y <? 100 then zero_padded 2 y
      else if y <? 1000 then zero_padded 3 y
      else zero_padded 4 y
  end.

(** [dt.strftime('%m/%Y')] *)
Definition strftime_mY (pad : year_padding) (dt : date) : string :=
  zero_padded 2 (month dt) +:+ "/" +:+ strftime_Y pad (year dt).

End Datetime.

(* ================================================================== *)
(** * [class Config] of [main.py] *)
(* ================================================================== *)

Module Config.

Definition MAX_BACKUPS : nat := 10.

(** hours *)
Definition AUTO_BACKUP_INTERVAL : Z := 24.

(** [CPF_PATTERN = re.compile(r'^\d{11}$')], used through [.match(d)]:
    eleven decimal digits, then the end of the string or one final
    newline. *)
Definition CPF_PATTERN_match (d : string) : bool :=
  Py.all_chars Py.isdecimal (Py.slice 0 11 d)
  && (String.length (Py.slice 0 11 d) =? 11)%nat
  && (String.eqb (String.substring 11 (String.length d) d) ""
      || String.eqb (String.substring 11 (String.length d) d) (String "010" "")).

End Config.

(* ================================================================== *)
(** * [class Utils] of [main.py]: normalisation and validation *)
(* ================================================================== *)

Module Utils.

(** [normalize_cpf] ([main.py], 127-131) *)
Definition normalize_cpf (cpf : string) : string :=
  if negb (Py.truthy cpf) then ""
  else Py.filter_chars Py.isdigit cpf.

(** [normalize_phone] ([main.py], 134-138) *)
Definition normalize_phone (phone : string) : string :=
  if negb (Py.truthy phone) then ""
  else Py.filter_chars Py.isdigit phone.

(** [format_cpf] ([main.py], 141-146) *)
Definition format_cpf (cpf : string) : string :=
  let d := normalize_cpf cpf in
  if negb (String.length d =? 11)%nat then cpf
  else Py.slice 0 3 d +:+ "." +:+ Py.slice 3 6 d +:+ "."
       +:+ Py.slice 6 9 d +:+ "-" +:+ Py.slice 9 11 d.

(** [nums = [int(x) for x in d]] *)
Fixpoint nums_of (d : string) : list Z :=
  match d with
  | EmptyString => []
  | String c d' => Py.int_of_char c :: nums_of d'
  end.

(** The inner function [calc_digit] of [validate_cpf]. *)
Definition calc_digit (nums weights : list Z) : Z :=
  let s := Py.sum (map (fun ab => fst ab * snd ab) (Py.zip nums weights)) in
  let r := 11 - (s mod 11) in
  if 10 <=? r then 0 else r.

(** [validate_cpf] ([main.py], 159-179).  [int(x)] is reached only after
    [CPF_PATTERN] has matched, hence only on decimal digits. *)
Definition validate_cpf (cpf : string) : bool :=
  let d := normalize_cpf cpf in
  if negb (Config.CPF_PATTERN_match d) then false
  else
    match d with
    | EmptyString => false
    | String d0 _ =>
        if String.eqb d (Py.repeat_char d0 11) then false
        else
          let nums := nums_of d in
          let d1 := calc_digit (take 9 nums) (Py.range_down 10 1) in
          let d2 := calc_digit (take 10 nums) (Py.range_down 11 1) in
          (nth 9 nums 0 =? d1) && (nth 10 nums 0 =? d2)
    end.

(** [Utils.validate_date] ([main.py], 189-197) *)
Definition validate_date (date_str : string) : bool :=
  if negb (Py.truthy date_str) then true
  else match Datetime.strptime date_str with
       | Some _ => true
       | None => false
       end.

End Utils.

(* ================================================================== *)
(** * The SQLite database file: schema of [_ensure_db] and the
      statements the code executes *)
(* ================================================================== *)

Module Sqlite.

(** A row of [pessoas] ([models/database.py], 46-62): [nome] and
    [data_cadastro] are NOT NULL, [cpf] is UNIQUE, [ativo] holds 0 or 1. *)
Record pessoa_row := mkPessoa {
  id : Z;
  nome : string;
  cpf : option string;
  telefone : option string;
  cidade : option string;
  bairro : option string;
  data_nascimento : option string;
  email : option string;
  rede_social : option string;
  observacoes : option string;
  ativo : bool;
  data_cadastro : string;
  data_atualizacao : option string
}.

(** A row of [eventos]: [titulo], [data_evento] and [criado_em] are
    NOT NULL. *)
Record evento_row := mkEvento {
  ev_id : Z;
  titulo : string;
  descricao : option string;
  data_evento : string;
  tipo : option string;
  local_ : option string;
  responsavel : option string;
  ev_ativo : bool;
  criado_em : string;
  atualizado_em : option string
}.

(** The parsed value of an ISO-8601 timestamp kept in [config.valor], in
    microseconds; [datetime.fromisoformat] inverts [isoformat]. *)
Definition timestamp := Z.

(** The database file.  [pessoas_seq] and [eventos_seq] are the
    [sqlite_sequence] counters of the AUTOINCREMENT keys; [config] maps
    [chave] to [(valor, atualizado_em)]. *)
Record tables := mkTables {
  pessoas : list pessoa_row;
  pessoas_seq : Z;
  eventos : list evento_row;
  eventos_seq : Z;
  config : gmap string (timestamp * timestamp)
}.

(** The file right after [_ensure_db] ran on a new database. *)
Definition empty_schema : tables := mkTables [] 0 [] 0 ∅.

Definition set_pessoas (t : tables) (rows : list pessoa_row) (seq : Z) : tables :=
  mkTables rows seq (eventos t) (eventos_seq t) (config t).

Definition set_eventos (t : tables) (rows : list evento_row) (seq : Z) : tables :=
  mkTables (pessoas t) (pessoas_seq t) rows seq (config t).

Definition set_config (t : tables) (c : gmap string (timestamp * timestamp)) : tables :=
  mkTables (pessoas t) (pessoas_seq t) (eventos t) (eventos_seq t) c.

Definition opt_eqb (a b : option string) : bool :=
  match a, b with
  | Some x, Some y => String.eqb x y
  | _, _ => false
  end.

(** The UNIQUE constraint on [pessoas.cpf]: a non-NULL value (the empty
    string included) may not occur on another row; NULLs never clash. *)
Definition cpf_clashes (rows : list pessoa_row) (self : option Z) (c : option string) : bool :=
  existsb (fun r =>
             opt_eqb (cpf r) c
             && match self with Some i => negb (id r =? i) | None => true end)
          rows.

(** [INSERT INTO pessoas (nome, cpf, telefone, cidade, bairro,
    data_nascimento, email, rede_social, observacoes, data_cadastro)
    VALUES (...)]: the new key, or the constraint that failed. *)
Definition insert_pessoa (t : tables)
  (v_nome v_cpf v_telefone v_cidade v_bairro v_nasc v_email v_rede v_obs v_cad
     : option string) : Py.result Z * tables :=
  match v_nome, v_cad with
  | None, _ => (Py.Raise (Py.IntegrityError (Py.NotNull "pessoas.nome")), t)
  | Some _, None =>
      (Py.Raise (Py.IntegrityError (Py.NotNull "pessoas.data_cadastro")), t)
  | Some n, Some dc =>
      if cpf_clashes (pessoas t) None v_cpf
      then (Py.Raise (Py.IntegrityError (Py.Unique "pessoas.cpf")), t)
      else
        let new_id := pessoas_seq t + 1 in
        let row := mkPessoa new_id n v_cpf v_telefone v_cidade v_bairro v_nasc
                            v_email v_rede v_obs true dc None in
        (Py.Return new_id, set_pessoas t (pessoas t ++ [row])%list new_id)
  end.

(** [UPDATE pessoas SET nome=?, cpf=?, ..., data_atualizacao=? WHERE id=?]:
    the number of rows changed, or the constraint that failed. *)
Definition update_pessoa_stmt (t : tables) (pessoa_id : Z)
  (v_nome v_cpf v_telefone v_cidade v_bairro v_nasc v_email v_rede v_obs v_upd
     : option string) : Py.result Z * tables :=
  let hit := List.filter (fun r => id r =? pessoa_id) (pessoas t) in
  match hit with
  | [] => (Py.Return 0, t)
  | _ :: _ =>
      match v_nome with
      | None => (Py.Raise (Py.IntegrityError (Py.NotNull "pessoas.nome")), t)
      | Some n =>
          if cpf_clashes (pessoas t) (Some pessoa_id) v_cpf
          then (Py.Raise (Py.IntegrityError (Py.Unique "pessoas.cpf")), t)
          else
            let upd r :=
              if id r =? pessoa_id
              then mkPessoa (id r) n v_cpf v_telefone v_cidade v_bairro v_nasc
                            v_email v_rede v_obs (ativo r) (data_cadastro r) v_upd
              else r in
            (Py.Return (Z.of_nat (length hit)),
             set_pessoas t (map upd (pessoas t)) (pessoas_seq t))
      end
  end.

(** [UPDATE pessoas SET ativo=0 WHERE id=?] *)
Definition deactivate_pessoa_stmt (t : tables) (pessoa_id : Z) : Z * tables :=
  let hit := List.filter (fun r => id r =? pessoa_id) (pessoas t) in
  let upd r :=
    if id r =? pessoa_id
    then mkPessoa (id r) (nome r) (cpf r) (telefone r) (cidade r) (bairro r)
                  (data_nascimento r) (email r) (rede_social r) (observacoes r)
                  false (data_cadastro r) (data_atualizacao r)
    else r in
  (Z.of_nat (length hit), set_pessoas t (map upd (pessoas t)) (pessoas_seq t)).

(** [DELETE FROM pessoas WHERE id=?] *)
Definition delete_pessoa_stmt (t : tables) (pessoa_id : Z) : Z * tables :=
  let hit := List.filter (fun r => id r =? pessoa_id) (pessoas t) in
  (Z.of_nat (length hit),
   set_pessoas t (List.filter (fun r => negb (id r =? pessoa_id)) (pessoas t)) (pessoas_seq t)).

(** [SELECT id FROM pessoas WHERE cpf=?] and, with an excluded key,
    [... AND id!=?]; the result of [fetchone() is not None]. *)
Definition select_id_by_cpf (t : tables) (c : string) (exclude_id : option Z) : bool :=
  cpf_clashes (pessoas t) exclude_id (Some c).

(** [SELECT cpf FROM pessoas WHERE cpf IS NOT NULL AND cpf != '' AND
    ativo=1 GROUP BY cpf HAVING COUNT( * ) > 1] *)
Definition active_cpfs (t : tables) : list string :=
  omap (fun r => match cpf r with
                 | Some c => if ativo r && Py.truthy c then Some c else None
                 | None => None
                 end) (pessoas t).

Fixpoint count_occ_str (l : list string) (x : string) : nat :=
  match l with
  | [] => O
  | y :: l' => (if String.eqb y x then 1 else 0)%nat + count_occ_str l' x
  end.

Fixpoint dedup_str (l : list string) : list string :=
  match l with
  | [] => []
  | x :: l' => x :: List.filter (fun y => negb (String.eqb y x)) (dedup_str l')
  end.

Definition select_duplicate_cpfs (t : tables) : list string :=
  List.filter (fun c => (1 <? count_occ_str (active_cpfs t) c)%nat) (dedup_str (active_cpfs t)).

(** [INSERT INTO eventos (titulo, descricao, data_evento, tipo, local,
    responsavel, criado_em) VALUES (...)] *)
Definition insert_evento (t : tables)
  (v_titulo v_desc v_data v_tipo v_local v_resp v_criado : option string)
  : Py.result Z * tables :=
  match v_titulo, v_data, v_criado with
  | None, _, _ => (Py.Raise (Py.IntegrityError (Py.NotNull "eventos.titulo")), t)
  | Some _, None, _ =>
      (Py.Raise (Py.IntegrityError (Py.NotNull "eventos.data_evento")), t)
  | Some _, Some _, None =>
      (Py.Raise (Py.IntegrityError (Py.NotNull "eventos.criado_em")), t)
  | Some ti, Some da, Some cr =>
      let new_id := eventos_seq t + 1 in
      let row := mkEvento new_id ti v_desc da v_tipo v_local v_resp true cr None in
      (Py.Return new_id, set_eventos t (eventos t ++ [row])%list new_id)
  end.

(** [substr(X, start, len)] for [start >= 1]. *)
Definition substr (x : string) (start len : nat) : string :=
  String.substring (start - 1) len x.

(** Stable insertion sort; [before a b] says that [a] sorts strictly
    before [b].  Rows with equal keys keep their table order. *)
Fixpoint insert_sorted {A} (before : A -> A -> bool) (x : A) (l : list A) : list A :=
  match l with
  | [] => [x]
  | y :: l' => if before y x then y :: insert_sorted before x l' else x :: l
  end.

Definition order_by {A} (before : A -> A -> bool) (l : list A) : list A :=
  fold_right (insert_sorted before) [] l.

(** Comparison of TEXT values under the BINARY collation. *)
Definition text_compare (a b : string) : comparison := String.compare a b.

(** The lower-case form the LIKE operator compares ASCII letters in. *)
Definition lower (c : ascii) : ascii :=
  if (65 <=? Py.code c)%N && (Py.code c <=? 90)%N
  then ascii_of_N (Py.code c + 32) else c.

(** [text LIKE pat]: [%] matches any run of characters, [_] any one
    character, letters of ASCII match without regard to case. *)
Fixpoint like (pat text : string) : bool :=
  match pat with
  | EmptyString => negb (Py.truthy text)
  | String p pat' =>
      if Ascii.eqb p "%" then
        (fix any (s : string) : bool :=
           like pat' s || match s with
                          | EmptyString => false
                          | String _ s' => any s'
                          end) text
      else
        match text with
        | EmptyString => false
        | String c text' =>
            (Ascii.eqb p "_" || Ascii.eqb (lower p) (lower c)) && like pat' text'
        end
  end.

Definition like_opt (column : option string) (pat : string) : bool :=
  match column with Some v => like pat v | None => false end.

End Sqlite.

(* ================================================================== *)
(** * [class DatabaseManager] *)
(* ================================================================== *)

Module DatabaseManager.

Import Sqlite.

(** A [DatabaseManager] instance with the files it works on: the database
    file, the attributes [_cache] and [_last_backup] set by [__init__], the
    [lru_cache] of [get_cidades], and the names of the files in
    [Config.BACKUP_DIR] (the second each [backup_YYYYMMDD_HHMMSS.db] is
    named after, in ascending order). *)
Record manager := mkManager {
  file : tables;
  _cache : gmap string string;
  _last_backup : option timestamp;
  get_cidades_cache : option (list string);
  backup_dir : list Z
}.

Definition with_file (m : manager) (t : tables) : manager :=
  mkManager t (_cache m) (_last_backup m) (get_cidades_cache m) (backup_dir m).

(** [_get_config] ([main.py], 620-626) *)
Definition _get_config (m : manager) (key : string) : option timestamp :=
  fst <$> config (file m) !! key.

(** [_get_last_backup_time] ([main.py], 592-600) *)
Definition _get_last_backup_time (m : manager) : option timestamp :=
  _get_config m "last_backup".

(** [__init__] ([main.py], 236-241) on the database file [t] and the
    backup directory [dir]. *)
Definition init (t : tables) (dir : list Z) : manager :=
  let m := mkManager t ∅ None None dir in
  mkManager t ∅ (_get_last_backup_time m) None dir.

(** [clear_cache] of [main.py] (340-344): resets the cache of
    [get_cidades]. *)
Definition clear_cache (m : manager) : manager :=
  mkManager (file m) (_cache m) (_last_backup m) None (backup_dir m).

(** [clear_cache] of [models/database.py] (105-107): empties [_cache]. *)
Definition clear_cache_models (m : manager) : manager :=
  mkManager (file m) ∅ (_last_backup m) (get_cidades_cache m) (backup_dir m).

(** [add_pessoa] of [main.py] (347-368): the values are stored as given. *)
Definition add_pessoa (m : manager) (pessoa : gmap string string)
  : Py.result Z * manager :=
  let '(r, t) :=
    insert_pessoa (file m)
      (pessoa !! "nome") (pessoa !! "cpf") (pessoa !! "telefone")
      (pessoa !! "cidade") (pessoa !! "bairro") (pessoa !! "data_nascimento")
      (pessoa !! "email") (pessoa !! "rede_social") (pessoa !! "observacoes")
      (pessoa !! "data_cadastro") in
  (r, with_file m t).

(** [add_pessoa] of [models/database.py] (131-156): normalises [cpf] and
    [telefone] in a copy, stamps [data_cadastro], inserts and clears
    [_cache]. *)
Definition add_pessoa_models (m : manager) (pessoa : gmap string string)
  (now : string) : Py.result Z * manager :=
  let pessoa := <["cpf" := Utils.normalize_cpf (default "" (pessoa !! "cpf"))]> pessoa in
  let pessoa :=
    <["telefone" := Utils.normalize_phone (default "" (pessoa !! "telefone"))]> pessoa in
  let pessoa := <["data_cadastro" := now]> pessoa in
  match add_pessoa m pessoa with
  | (Py.Return pessoa_id, m') => (Py.Return pessoa_id, clear_cache_models m')
  | (Py.Raise e, m') => (Py.Raise e, m')
  end.

(** [update_pessoa] ([main.py], 370-392) *)
Definition update_pessoa (m : manager) (pessoa_id : Z) (pessoa : gmap string string)
  : Py.result bool * manager :=
  let '(r, t) :=
    update_pessoa_stmt (file m) pessoa_id
      (pessoa !! "nome") (pessoa !! "cpf") (pessoa !! "telefone")
      (pessoa !! "cidade") (pessoa !! "bairro") (pessoa !! "data_nascimento")
      (pessoa !! "email") (pessoa !! "rede_social") (pessoa !! "observacoes")
      (pessoa !! "data_atualizacao") in
  match r with
  | Py.Return affected => (Py.Return (0 <? affected), with_file m t)
  | Py.Raise e => (Py.Raise e, with_file m t)
  end.

(** [delete_pessoa] ([main.py], 394-407) *)
Definition delete_pessoa (m : manager) (pessoa_id : Z) (soft : bool)
  : Py.result bool * manager :=
  let '(affected, t) :=
    if soft then deactivate_pessoa_stmt (file m) pessoa_id
    else delete_pessoa_stmt (file m) pessoa_id in
  (Py.Return (0 <? affected), with_file m t).

(** [if exclude_id:] — [None] and [0] are false. *)
Definition truthy_id (exclude_id : option Z) : option Z :=
  match exclude_id with
  | Some i => if i =? 0 then None else Some i
  | None => None
  end.

(** [cpf_exists] ([main.py], 447-458) *)
Definition cpf_exists (m : manager) (cpf : string) (exclude_id : option Z) : bool :=
  if negb (Py.truthy cpf) then false
  else select_id_by_cpf (file m) cpf (truthy_id exclude_id).

(** [get_duplicate_cpfs] ([main.py], 498-507) *)
Definition get_duplicate_cpfs (m : manager) : list string :=
  select_duplicate_cpfs (file m).

(** [add_evento] ([main.py], 510-533) *)
Definition add_evento (m : manager) (evento : gmap string string)
  : Py.result Z * manager :=
  let '(r, t) :=
    insert_evento (file m)
      (evento !! "titulo") (evento !! "descricao") (evento !! "data_evento")
      (Some (default "geral" (evento !! "tipo"))) (evento !! "local")
      (evento !! "responsavel") (evento !! "criado_em") in
  (r, with_file m t).

(** The ORDER BY clause of [search_eventos] ([main.py], 559-563;
    [services/evento_service.py], 49-53): [substr(data_evento,7,4) DESC,
    substr(data_evento,4,2) DESC, substr(data_evento,1,2) DESC]. *)
Definition order_key_compare (a b : string) : comparison :=
  match text_compare (substr a 7 4) (substr b 7 4) with
  | Eq => match text_compare (substr a 4 2) (substr b 4 2) with
          | Eq => text_compare (substr a 1 2) (substr b 1 2)
          | c => c
          end
  | c => c
  end.

(** [a] comes before [b] in the descending order of the keys. *)
Definition evento_before (a b : evento_row) : bool :=
  match order_key_compare (data_evento a) (data_evento b) with
  | Gt => true
  | _ => false
  end.

(** [search_eventos] without filters ([main.py], 535-566). *)
Definition search_eventos (m : manager) (only_active : bool) : list evento_row :=
  order_by evento_before
    (List.filter (fun e => if only_active then ev_ativo e else true)
                 (eventos (file m))).

(** [_cleanup_old_backups] ([main.py], 584-590) *)
Fixpoint drop_oldest (fuel : nat) (backups : list Z) : list Z :=
  match fuel with
  | O => backups
  | S fuel' =>
      if (Config.MAX_BACKUPS <? length backups)%nat
      then drop_oldest fuel' (tail backups)
      else backups
  end.

Definition _cleanup_old_backups (backups : list Z) : list Z :=
  drop_oldest (length backups) backups.

(** Writing [backup_<second>.db] into the directory: a file of the same
    second is overwritten; the listing stays sorted. *)
Fixpoint add_backup_file (second : Z) (backups : list Z) : list Z :=
  match backups with
  | [] => [second]
  | b :: backups' =>
      if second <? b then second :: backups
      else if second =? b then backups
      else b :: add_backup_file second backups'
  end.

(** [_set_config] ([main.py], 610-618) *)
Definition _set_config (m : manager) (key : string) (value now : timestamp) : manager :=
  with_file m (set_config (file m) (<[key := (value, now)]> (config (file m)))).

(** [create_backup] ([main.py], 569-582; [models/database.py], 208-221);
    [now] is the clock in microseconds.  The result is the second the
    backup file is named after. *)
Definition create_backup (m : manager) (now : timestamp) : Z * manager :=
  let second := now / 1000000 in
  let m1 := mkManager (file m) (_cache m) (_last_backup m) (get_cidades_cache m)
                      (_cleanup_old_backups (add_backup_file second (backup_dir m))) in
  let m2 := _set_config m1 "last_backup" now now in
  (second, m2).

(** [should_backup] ([main.py], 602-608).  [hours_since >= 24] is decided
    on the exact quotient of the elapsed microseconds. *)
Definition should_backup (m : manager) (now : timestamp) : bool :=
  match _last_backup m with
  | None => true
  | Some t => Config.AUTO_BACKUP_INTERVAL * 3600 * 1000000 <=? now - t
  end.

End DatabaseManager.

(* ================================================================== *)
(** * [functools.lru_cache] *)
(* ================================================================== *)

Module Functools.

Section LruCache.

Context {K V : Type} `{EqDecision K}.

(** The cached calls, most recently used first. *)
Definition lru := list (K * V).

Fixpoint cache_get (k : K) (c : lru) : option V :=
  match c with
  | [] => None
  | (k', v) :: c' => if decide (k = k') then Some v else cache_get k c'
  end.

Fixpoint cache_remove (k : K) (c : lru) : lru :=
  match c with
  | [] => []
  | (k', v) :: c' => if decide (k = k') then c' else (k', v) :: cache_remove k c'
  end.

(** A call through the wrapper: the key is hashed first, which raises
    [TypeError] on an unhashable argument; a hit returns the stored result
    and refreshes the entry; a miss runs the wrapped function, stores its
    result and evicts the least recently used entry beyond [maxsize]. *)
Definition cached_call (maxsize : nat) (hashable : K -> bool) (body : K -> V)
  (c : lru) (k : K) : Py.result V * lru :=
  if negb (hashable k) then (Py.Raise Py.TypeError, c)
  else
    match cache_get k c with
    | Some v => (Py.Return v, (k, v) :: cache_remove k c)
    | None => let v := body k in (Py.Return v, take maxsize ((k, v) :: c))
    end.

End LruCache.

End Functools.

(* ================================================================== *)
(** * [class PessoaService] ([services/pessoa_service.py]) *)
(* ================================================================== *)

Module PessoaService.

Import Sqlite.

(** The values the parameter [filters: Dict = None] is called with. *)
Inductive filters_arg :=
  | FNone
  | FDict (d : gmap string string).

#[global] Instance filters_arg_eq_dec : EqDecision filters_arg.
Proof. solve_decision. Defined.

(** [None] is hashable, a [dict] is not. *)
Definition hashable (a : filters_arg * bool) : bool :=
  match fst a with
  | FNone => true
  | FDict _ => false
  end.

(** The service: its [DatabaseManager] ([self.db]) and the cache that
    [@lru_cache(maxsize=128)] attaches to [search_pessoas]. *)
Record service := mkService {
  db : DatabaseManager.manager;
  search_pessoas_cache : @Functools.lru (filters_arg * bool) (list pessoa_row)
}.

Definition with_db (s : service) (m : DatabaseManager.manager) : service :=
  mkService m (search_pessoas_cache s).

(** [cpf_exists] (82-95) *)
Definition cpf_exists (s : service) (cpf : string) (exclude_id : option Z) : bool :=
  let cpf := Utils.normalize_cpf cpf in
  if negb (Py.truthy cpf) then false
  else select_id_by_cpf (DatabaseManager.file (db s)) cpf
                        (DatabaseManager.truthy_id exclude_id).

(** [add_pessoa] (16-27); [self.db.add_pessoa] is the method of
    [models/database.py]. *)
Definition add_pessoa (s : service) (pessoa : gmap string string) (now : string)
  : Py.result Z * service :=
  if negb (Py.truthy_opt (pessoa !! "nome"))
  then (Py.Raise (Py.ValueError Py.NomeObrigatorio), s)
  else
    let cpf := Utils.normalize_cpf (default "" (pessoa !! "cpf")) in
    if Py.truthy cpf && negb (Utils.validate_cpf cpf)
    then (Py.Raise (Py.ValueError Py.CpfInvalido), s)
    else if Py.truthy cpf && cpf_exists s cpf None
    then (Py.Raise (Py.ValueError Py.CpfJaCadastrado), s)
    else
      let '(r, m) := DatabaseManager.add_pessoa_models (db s) pessoa now in
      (r, with_db s m).

(** [update_pessoa] (29-40); [self.db.update_pessoa] is the method of
    [DatabaseManager] in [main.py], the one definition the repository
    has. *)
Definition update_pessoa (s : service) (pessoa_id : Z) (pessoa : gmap string string)
  : Py.result bool * service :=
  if negb (Py.truthy_opt (pessoa !! "nome"))
  then (Py.Raise (Py.ValueError Py.NomeObrigatorio), s)
  else
    let cpf := Utils.normalize_cpf (default "" (pessoa !! "cpf")) in
    if Py.truthy cpf && negb (Utils.validate_cpf cpf)
    then (Py.Raise (Py.ValueError Py.CpfInvalido), s)
    else if Py.truthy cpf && cpf_exists s cpf (Some pessoa_id)
    then (Py.Raise (Py.ValueError Py.CpfJaCadastradoOutra), s)
    else
      let '(r, m) := DatabaseManager.update_pessoa (db s) pessoa_id pessoa in
      (r, with_db s m).

(** [delete_pessoa] (42-44) *)
Definition delete_pessoa (s : service) (pessoa_id : Z) (soft : bool)
  : Py.result bool * service :=
  let '(r, m) := DatabaseManager.delete_pessoa (db s) pessoa_id soft in
  (r, with_db s m).

(** [s.zfill(2)] *)
Definition zfill2 (s : string) : string :=
  match s with
  | EmptyString => "00"
  | String c EmptyString =>
      if Ascii.eqb c "+" || Ascii.eqb c "-"
      then String c "0" else String "0" s
  | _ => s
  end.

(** The WHERE clause [search_pessoas] builds (50-71). *)
Definition where_clause (filters : filters_arg) (only_active : bool)
  (r : pessoa_row) : bool :=
  (if only_active then ativo r else true)
  && match filters with
     | FNone => true
     | FDict d =>
         if decide (d = ∅) then true
         else
           (if Py.truthy_opt (d !! "nome")
            then like_opt (Some (nome r)) ("%" +:+ default "" (d !! "nome") +:+ "%")
            else true)
           && (if Py.truthy_opt (d !! "cpf")
               then like_opt (cpf r)
                      ("%" +:+ Utils.normalize_cpf (default "" (d !! "cpf")) +:+ "%")
               else true)
           && (if Py.truthy_opt (d !! "cidade")
               then like_opt (cidade r) ("%" +:+ default "" (d !! "cidade") +:+ "%")
               else true)
           && (if Py.truthy_opt (d !! "mes_aniversario")
               then opt_eqb ((fun v => substr v 4 2) <$> data_nascimento r)
                            (Some (zfill2 (default "" (d !! "mes_aniversario"))))
               else true)
     end.

(** [ORDER BY nome] *)
Definition nome_before (a b : pessoa_row) : bool :=
  match text_compare (nome a) (nome b) with
  | Lt => true
  | _ => false
  end.

(** The body of [search_pessoas] (50-76): the query it runs on the
    database as it is at the time of the call. *)
Definition search_pessoas_body (m : DatabaseManager.manager)
  (args : filters_arg * bool) : list pessoa_row :=
  order_by nome_before
    (List.filter (where_clause (fst args) (snd args))
                 (pessoas (DatabaseManager.file m))).

(** [search_pessoas] as callers see it, through [@lru_cache(maxsize=128)]
    (46-47). *)
Definition search_pessoas (s : service) (filters : filters_arg) (only_active : bool)
  : Py.result (list pessoa_row) * service :=
  let '(r, c) :=
    Functools.cached_call 128 hashable (search_pessoas_body (db s))
                          (search_pessoas_cache s) (filters, only_active) in
  (r, mkService (db s) c).

(** [get_duplicate_cpfs] (125-132) *)
Definition get_duplicate_cpfs (s : service) : list string :=
  select_duplicate_cpfs (DatabaseManager.file (db s)).

End PessoaService.

(* ================================================================== *)
(** * [class EventoService] ([services/evento_service.py]) *)
(* ================================================================== *)

Module EventoService.

(** [add_evento] (15-24); [V.validate_date] is [validate_date] of
    [main.py]. *)
Definition add_evento (m : DatabaseManager.manager) (evento : gmap string string)
  : Py.result Z * DatabaseManager.manager :=
  if negb (Py.truthy_opt (evento !! "titulo"))
  then (Py.Raise (Py.ValueError Py.TituloObrigatorio), m)
  else
    let data := default "" (evento !! "data_evento") in
    if negb (Py.truthy data) || negb (Utils.validate_date data)
    then (Py.Raise (Py.ValueError Py.DataEventoInvalida), m)
    else DatabaseManager.add_evento m evento.

(** [search_eventos] (26-56) without filters: same query and ORDER BY as
    [DatabaseManager.search_eventos]. *)
Definition search_eventos (m : DatabaseManager.manager) (only_active : bool)
  : list Sqlite.evento_row :=
  DatabaseManager.search_eventos m only_active.

End EventoService.

(* ================================================================== *)
(** * [class AppController] ([main.py]) *)
(* ================================================================== *)

Module AppController.

(** [salvar_pessoa] ([main.py], 708-734) *)
Definition salvar_pessoa (m : DatabaseManager.manager) (pessoa : gmap string string)
  (pessoa_id : option Z) (now : string) : Py.result Z * DatabaseManager.manager :=
  let pessoa := <["cpf" := Utils.normalize_cpf (default "" (pessoa !! "cpf"))]> pessoa in
  let pessoa :=
    <["telefone" := Utils.normalize_phone (default "" (pessoa !! "telefone"))]> pessoa in
  if Py.truthy_opt (pessoa !! "cpf")
     && DatabaseManager.cpf_exists m (default "" (pessoa !! "cpf")) pessoa_id
  then (Py.Raise (Py.ValueError Py.CpfJaCadastradoOutra), m)
  else
    match DatabaseManager.truthy_id pessoa_id with
    | Some pid =>
        let pessoa := <["data_atualizacao" := now]> pessoa in
        match DatabaseManager.update_pessoa m pid pessoa with
        | (Py.Return true, m') => (Py.Return pid, DatabaseManager.clear_cache m')
        | (Py.Return false, m') => (Py.Raise (Py.Exception Py.FalhaAtualizar), m')
        | (Py.Raise e, m') => (Py.Raise e, m')
        end
    | None =>
        let pessoa := <["data_cadastro" := now]> pessoa in
        match DatabaseManager.add_pessoa m pessoa with
        | (Py.Return new_id, m') => (Py.Return new_id, DatabaseManager.clear_cache m')
        | (Py.Raise e, m') => (Py.Raise e, m')
        end
    end.

(** [excluir_pessoa] ([main.py], 736-741) *)
Definition excluir_pessoa (m : DatabaseManager.manager) (pessoa_id : Z)
  : Py.result bool * DatabaseManager.manager :=
  match DatabaseManager.delete_pessoa m pessoa_id true with
  | (Py.Return true, m') => (Py.Return true, DatabaseManager.clear_cache m')
  | other => other
  end.

End AppController.

(* ================================================================== *)
(** * The ledger ([finaiceiro.py]) *)
(* ================================================================== *)

Module Finance.

(** A row of [expenses] (and, with [type] and [contributor] for
    [category] and [description], of [contributions]); [amount] is REAL
    NOT NULL. *)
Record entry_row := mkEntry {
  id : Z;
  date : string;
  category : string;
  description : string;
  amount : float;
  month_year : string;
  created_at : string
}.

Record ledger := mkLedger {
  expenses : list entry_row;
  expenses_seq : Z;
  contributions : list entry_row;
  contributions_seq : Z
}.

(** The file right after [init_database] ran on a new database. *)
Definition empty_ledger : ledger := mkLedger [] 0 [] 0.

(** What the method reports to the user, or the exception that escapes. *)
Inductive outcome :=
  | ShowError (field : string)
  | ShowInfo
  | Cancelled
  | Raised (e : Py.exn).

(** [DateValidator.validate_date] (61-67) *)
Definition validate_date (date_str : string) : bool :=
  match Datetime.strptime date_str with
  | Some _ => true
  | None => false
  end.

(** [DateValidator.get_month_year] (83-86); [None] stands for the
    [ValueError] of [strptime]. *)
Definition get_month_year (pad : Datetime.year_padding) (date_str : string)
  : option string :=
  Datetime.strftime_mY pad <$> Datetime.strptime date_str.

(** [s.replace(c, new)] for a one-character [c]. *)
Fixpoint replace_char (c : ascii) (new : string) (s : string) : string :=
  match s with
  | EmptyString => EmptyString
  | String x s' =>
      if Ascii.eqb x c then new +:+ replace_char c new s'
      else String x (replace_char c new s')
  end.

(** [s.replace(ab, "")] for a two-character [ab]. *)
Fixpoint remove_pair (a b : ascii) (s : string) : string :=
  match s with
  | EmptyString => EmptyString
  | String x s' =>
      match s' with
      | EmptyString => s
      | String y s'' =>
          if Ascii.eqb x a && Ascii.eqb y b then remove_pair a b s''
          else String x (remove_pair a b s')
      end
  end.

Section Ledger.

(** The builtin [float(s)]: the binary64 value of the text, or [None]
    for [ValueError]. *)
Variable py_float : string -> option float.

(** The C library the interpreter runs on. *)
Variable pad : Datetime.year_padding.

(** [CurrencyFormatter.parse_value] (98-105) *)
Definition parse_value (value_str : string) : option float :=
  let cleaned := Py.strip (replace_char " " "" (remove_pair "R" "$" value_str)) in
  let cleaned := replace_char "." "" cleaned in
  let cleaned := replace_char "," "." cleaned in
  py_float cleaned.

(** [INSERT INTO expenses (date, category, description, amount,
    month_year) VALUES (...)]: a NaN is bound as NULL and fails NOT NULL. *)
Definition insert_entry (rows : list entry_row) (seq : Z)
  (v_date v_category v_description : string) (v_amount : float)
  (v_month_year now : string) : Py.result Z * (list entry_row * Z) :=
  if PrimFloat.is_nan v_amount
  then (Py.Raise (Py.IntegrityError (Py.NotNull "amount")), (rows, seq))
  else
    let new_id := seq + 1 in
    (Py.Return new_id,
     ((rows ++ [mkEntry new_id v_date v_category v_description v_amount
                        v_month_year now])%list, new_id)).

(** The checks [add_expense] (1052-1082) and [add_contribution]
    (1128-1158) share: the values to insert, or the error shown. *)
Definition checked_entry (category amount_entry date_entry description_entry : string)
  : outcome + (string * string * string * float * string) :=
  let amount_str := Py.strip amount_entry in
  let date_str := Py.strip date_entry in
  let description := Py.strip description_entry in
  if negb (Py.truthy category) then inl (ShowError "category")
  else if negb (Py.truthy amount_str) then inl (ShowError "amount")
  else if negb (Py.truthy date_str) then inl (ShowError "date")
  else if negb (validate_date date_str) then inl (ShowError "date format")
  else
    match parse_value amount_str with
    | None => inl (ShowError "amount value")
    | Some amount =>
        if PrimFloat.leb amount 0%float then inl (ShowError "amount value")
        else
          match get_month_year pad date_str with
          | None => inl (Raised (Py.ValueError Py.DataEventoInvalida))
          | Some month_year =>
              inr (date_str, category, description, amount, month_year)
          end
    end.

(** [add_expense] (1049-1099) *)
Definition add_expense (l : ledger)
  (category amount_entry date_entry description_entry now : string)
  : outcome * ledger :=
  match checked_entry category amount_entry date_entry description_entry with
  | inl o => (o, l)
  | inr (date_str, category, description, amount, month_year) =>
      match insert_entry (expenses l) (expenses_seq l)
                         date_str category description amount month_year now with
      | (Py.Return _, (rows, seq)) =>
          (ShowInfo, mkLedger rows seq (contributions l) (contributions_seq l))
      | (Py.Raise e, _) => (Raised e, l)
      end
  end.

(** [add_contribution] (1125-1175) *)
Definition add_contribution (l : ledger)
  (contribution_type amount_entry date_entry name_entry now : string)
  : outcome * ledger :=
  match checked_entry contribution_type amount_entry date_entry name_entry with
  | inl o => (o, l)
  | inr (date_str, contribution_type, contributor, amount, month_year) =>
      match insert_entry (contributions l) (contributions_seq l)
                         date_str contribution_type contributor amount
                         month_year now with
      | (Py.Return _, (rows, seq)) =>
          (ShowInfo, mkLedger (expenses l) (expenses_seq l) rows seq)
      | (Py.Raise e, _) => (Raised e, l)
      end
  end.

(** [delete_expense] (1101-1123): [selection] is the key of the selected
    row of the tree, [confirmed] the answer to the confirmation box. *)
Definition delete_expense (l : ledger) (selection : option Z) (confirmed : bool)
  : outcome * ledger :=
  match selection with
  | None => (ShowError "selection", l)
  | Some expense_id =>
      if negb confirmed then (Cancelled, l)
      else
        (ShowInfo,
         mkLedger (List.filter (fun r => negb (id r =? expense_id)) (expenses l))
                  (expenses_seq l) (contributions l) (contributions_seq l))
  end.

(** [delete_contribution] (1177-1199) *)
Definition delete_contribution (l : ledger) (selection : option Z) (confirmed : bool)
  : outcome * ledger :=
  match selection with
  | None => (ShowError "selection", l)
  | Some contribution_id =>
      if negb confirmed then (Cancelled, l)
      else
        (ShowInfo,
         mkLedger (expenses l) (expenses_seq l)
                  (List.filter (fun r => negb (id r =? contribution_id))
                               (contributions l))
                  (contributions_seq l))
  end.

(** The calls the user interface makes on the ledger. *)
Inductive action :=
  | AddExpense (category amount_entry date_entry description_entry now : string)
  | AddContribution (contribution_type amount_entry date_entry name_entry now : string)
  | DeleteExpense (selection : option Z) (confirmed : bool)
  | DeleteContribution (selection : option Z) (confirmed : bool).

Definition perform (l : ledger) (a : action) : ledger :=
  match a with
  | AddExpense c a d n now => snd (add_expense l c a d n now)
  | AddContribution c a d n now => snd (add_contribution l c a d n now)
  | DeleteExpense sel ok => snd (delete_expense l sel ok)
  | DeleteContribution sel ok => snd (delete_contribution l sel ok)
  end.

Definition run (actions : list action) : ledger :=
  fold_left perform actions empty_ledger.

End Ledger.

End Finance.

(* ================================================================== *)
(** * Sequences of writes to the person records *)
(* ================================================================== *)

Module Writes.

Import Sqlite.

(** A write to [pessoas], through the service
    ([services/pessoa_service.py]), through the controller of [main.py], or
    directly on the [DatabaseManager]. *)
Inductive op :=
  | ServiceAdd (pessoa : gmap string string) (now : string)
  | ServiceUpdate (pessoa_id : Z) (pessoa : gmap string string)
  | ServiceDelete (pessoa_id : Z) (soft : bool)
  | ControllerSave (pessoa : gmap string string) (pessoa_id : option Z) (now : string)
  | ControllerDelete (pessoa_id : Z)
  | ManagerAdd (pessoa : gmap string string)
  | ManagerUpdate (pessoa_id : Z) (pessoa : gmap string string)
  | ManagerDelete (pessoa_id : Z) (soft : bool).

(** The state a call leaves, whether it returns or raises. *)
Definition step (s : PessoaService.service) (o : op) : PessoaService.service :=
  match o with
  | ServiceAdd pessoa now => snd (PessoaService.add_pessoa s pessoa now)
  | ServiceUpdate pessoa_id pessoa => snd (PessoaService.update_pessoa s pessoa_id pessoa)
  | ServiceDelete pessoa_id soft => snd (PessoaService.delete_pessoa s pessoa_id soft)
  | ControllerSave pessoa pessoa_id now =>
      PessoaService.with_db s
        (snd (AppController.salvar_pessoa (PessoaService.db s) pessoa pessoa_id now))
  | ControllerDelete pessoa_id =>
      PessoaService.with_db s
        (snd (AppController.excluir_pessoa (PessoaService.db s) pessoa_id))
  | ManagerAdd pessoa =>
      PessoaService.with_db s
        (snd (DatabaseManager.add_pessoa (PessoaService.db s) pessoa))
  | ManagerUpdate pessoa_id pessoa =>
      PessoaService.with_db s
        (snd (DatabaseManager.update_pessoa (PessoaService.db s) pessoa_id pessoa))
  | ManagerDelete pessoa_id soft =>
      PessoaService.with_db s
        (snd (DatabaseManager.delete_pessoa (PessoaService.db s) pessoa_id soft))
  end.

(** A new service on a new database: the empty schema, no backups, an
    empty cache. *)
Definition initial : PessoaService.service :=
  PessoaService.mkService (DatabaseManager.init empty_schema []) [].

Inductive reachable : PessoaService.service -> Prop :=
  | reachable_initial : reachable initial
  | reachable_step s o : reachable s -> reachable (step s o).

(** The table of person records of a service. *)
Definition rows (s : PessoaService.service) : list pessoa_row :=
  pessoas (DatabaseManager.file (PessoaService.db s)).

(** What the UNIQUE column and the AUTOINCREMENT key maintain: no two
    rows hold the same non-NULL [cpf], no two rows the same [id], and no
    [id] exceeds the sequence counter. *)
Definition table_ok (t : tables) : Prop :=
  NoDup (omap cpf (pessoas t))
  /\ NoDup (id <$> pessoas t)
  /\ Forall (fun r => id r <= pessoas_seq t) (pessoas t).

(** A document number in normalised form. *)
Definition normal (c : string) : Prop := Utils.normalize_cpf c = c.

(** The stored document numbers are in normalised form. *)
Definition stored_normalised (s : PessoaService.service) : Prop :=
  Forall normal (omap cpf (rows s)).

(** The writes that normalise the document number before it is stored, or
    store none: the add of the service, the save of the controller and the
    deletes. *)
Definition normalises (o : op) : bool :=
  match o with
  | ServiceAdd _ _ | ServiceDelete _ _ | ControllerSave _ _ _
  | ControllerDelete _ | ManagerDelete _ _ => true
  | ServiceUpdate _ _ | ManagerAdd _ | ManagerUpdate _ _ => false
  end.

End Writes.

(* ================================================================== *)
(** * Reference definitions: the wording of the specification *)
(* ================================================================== *)

Module Spec.

(** The digit at position [i] (from 0) of a string of decimal digits. *)
Definition digit_at (d : string) (i : nat) : Z :=
  match String.get i d with
  | Some c => Py.int_of_char c
  | None => 0
  end.

(** The check digit as the specification words it: weights [top], [top-1],
    ..., 2 over the first [top-1] digits, the sum taken modulo 11, and
    [11 - r] mapped to 0 when it is 10 or more. *)
Definition spec_check_digit (d : string) (top : Z) : Z :=
  let weighted := map (fun i => digit_at d i * (top - Z.of_nat i))
                      (seq 0 (Z.to_nat (top - 1))) in
  let r := Py.sum weighted mod 11 in
  if 10 <=? 11 - r then 0 else 11 - r.

(** All characters of the string are the same one. *)
Definition all_identical (d : string) : Prop :=
  exists c, d = Py.repeat_char c (String.length d).


(** A text of the form DD/MM/YYYY: two decimal digits, a slash, two decimal
    digits, a slash and four decimal digits. *)
Definition is_DDMMYYYY (s : string) : bool :=
  match Datetime.match_prefix
          [Py.isdecimal; Py.isdecimal; Datetime.chr "/"; Py.isdecimal; Py.isdecimal;
           Datetime.chr "/"; Py.isdecimal; Py.isdecimal; Py.isdecimal; Py.isdecimal] s with
  | Some (_, rest) => negb (Py.truthy rest)
  | None => false
  end.

(** A valid DD/MM/YYYY date string: of that form, and a date of the
    calendar. *)
Definition valid_date_string (s : string) : bool :=
  is_DDMMYYYY s
  && match Datetime.strptime s with Some _ => true | None => false end.

(** The reference ordering: parse both texts, compare the dates. *)
Definition parse_then_compare (a b : string) : option comparison :=
  match Datetime.strptime a, Datetime.strptime b with
  | Some x, Some y => Some (Datetime.date_compare x y)
  | _, _ => None
  end.

(** The day count of a date, as [date.toordinal()] has it: 1 for
    01/01/0001, one more for each day after. *)
Definition days_before_year (y : Z) : Z :=
  (y - 1) * 365 + (y - 1) / 4 - (y - 1) / 100 + (y - 1) / 400.

Definition days_before_month (y m : Z) : Z :=
  Py.sum (map (fun k => Datetime.days_in_month y (Z.of_nat k))
              (seq 1 (Z.to_nat (m - 1)))).

Definition toordinal (dt : Datetime.date) : Z :=
  days_before_year (Datetime.year dt)
  + days_before_month (Datetime.year dt) (Datetime.month dt)
  + Datetime.day dt.

(** [a] comes before [b] when its date is the later one. *)
Definition evento_before_by_date (a b : Sqlite.evento_row) : bool :=
  match parse_then_compare (Sqlite.data_evento a) (Sqlite.data_evento b) with
  | Some Gt => true
  | _ => false
  end.

(** The MM/YYYY component of a text of the form DD/MM/YYYY: its
    characters 4 to 10. *)
Definition month_year_component (date : string) : string :=
  String.substring 3 7 date.

(** What the specification asks of a ledger row: a positive amount, and a
    [month_year] equal to the MM/YYYY component of its DD/MM/YYYY date. *)
Definition entry_ok (r : Finance.entry_row) : Prop :=
  PrimFloat.ltb 0%float (Finance.amount r) = true
  /\ (is_DDMMYYYY (Finance.date r) = true ->
      Finance.month_year r = month_year_component (Finance.date r)).

End Spec.

(* ================================================================== *)
(** * Further methods of [Utils], [DatabaseManager] and [AppController]
      ([main.py]) and of [DateValidator] ([finaiceiro.py]) *)
(* ================================================================== *)

From Stdlib Require Import Sorting.Sorted.

Module UtilsFormat.

(** [format_phone] ([main.py], 149-156); [d[6:]] and [d[7:]] run to the
    end of the text. *)
Definition format_phone (phone : string) : string :=
  let d := Utils.normalize_phone phone in
  if (String.length d =? 10)%nat then
    "(" +:+ Py.slice 0 2 d +:+ ") " +:+ Py.slice 2 6 d +:+ "-"
    +:+ Py.slice 6 (String.length d) d
  else if (String.length d =? 11)%nat then
    "(" +:+ Py.slice 0 2 d +:+ ") " +:+ Py.slice 2 7 d +:+ "-"
    +:+ Py.slice 7 (String.length d) d
  else phone.

(** [calculate_age] ([main.py], 200-210); [today] is the date of
    [datetime.now()].  Any exception gives [None]. *)
Definition calculate_age (birth_date : string) (today : Datetime.date) : option Z :=
  match Datetime.strptime birth_date with
  | Some dt =>
      let age := Datetime.year today - Datetime.year dt in
      let before_birthday :=
        match Datetime.month today ?= Datetime.month dt with
        | Lt => true
        | Eq => Datetime.day today <? Datetime.day dt
        | Gt => false
        end in
      Some (if before_birthday then age - 1 else age)
  | None => None
  end.

End UtilsFormat.

Module FinanceDates.

(** What the adds of the ledger keep of every row, on every platform: a
    positive amount, a date that [strptime] parses, and the [month_year]
    that [strftime] prints for that date. *)
Definition row_kept (pad : Datetime.year_padding) (r : Finance.entry_row) : Prop :=
  PrimFloat.ltb 0%float (Finance.amount r) = true
  /\ exists dt, Datetime.strptime (Finance.date r) = Some dt
                /\ Finance.month_year r = Datetime.strftime_mY pad dt.

(** No two rows of a table of the ledger have the same key, and no key
    exceeds the sequence counter of its table. *)
Definition keys_ok (rows : list Finance.entry_row) (seq : Z) : Prop :=
  NoDup (map Finance.id rows) /\ Forall (fun r => Finance.id r <= seq) rows.


(** [DateValidator.parse_date] ([finaiceiro.py], 70-75) *)
Definition parse_date (date_str : string) : option Datetime.date :=
  Datetime.strptime date_str.

(** [DateValidator.format_date] ([finaiceiro.py], 78-80):
    [date_obj.strftime("%d/%m/%Y")]. *)
Definition format_date (pad : Datetime.year_padding) (date_obj : Datetime.date)
  : string :=
  Datetime.zero_padded 2 (Datetime.day date_obj) +:+ "/"
  +:+ Datetime.zero_padded 2 (Datetime.month date_obj) +:+ "/"
  +:+ Datetime.strftime_Y pad (Datetime.year date_obj).

End FinanceDates.

Module Queries.

Import Sqlite DatabaseManager.

(** [get_pessoa_by_id] ([main.py], 479-484): the first row of
    [SELECT * FROM pessoas WHERE id=?]. *)
Definition get_pessoa_by_id (m : manager) (pessoa_id : Z) : option pessoa_row :=
  List.find (fun r => id r =? pessoa_id) (pessoas (file m)).

(** [search_pessoas] of [DatabaseManager] ([main.py], 409-445): the query
    of the service, run on every call. *)
Definition search_pessoas (m : manager) (filters : PessoaService.filters_arg)
  (only_active : bool) : list pessoa_row :=
  order_by PessoaService.nome_before
    (List.filter (PessoaService.where_clause filters only_active) (pessoas (file m))).

(** The WHERE clause of [get_aniversariantes]: [ativo=1 AND
    data_nascimento IS NOT NULL AND data_nascimento != '' AND
    substr(data_nascimento, 4, 2) = ?]. *)
Definition born_in_month (mes : string) (r : pessoa_row) : bool :=
  ativo r
  && match data_nascimento r with
     | Some dn => Py.truthy dn && String.eqb (substr dn 4 2) mes
     | None => false
     end.

(** [ORDER BY substr(data_nascimento, 1, 2), nome] *)
Definition birthday_before (a b : pessoa_row) : bool :=
  match text_compare (substr (default "" (data_nascimento a)) 1 2)
                     (substr (default "" (data_nascimento b)) 1 2) with
  | Lt => true
  | Eq => match text_compare (nome a) (nome b) with Lt => true | _ => false end
  | Gt => false
  end.

(** [get_aniversariantes] ([main.py], 460-477); [now_month] is
    [datetime.now().strftime('%m')]. *)
Definition get_aniversariantes (m : manager) (mes : option string) (now_month : string)
  : list pessoa_row :=
  let mes := if Py.truthy_opt mes then default "" mes else now_month in
  let mes := PessoaService.zfill2 mes in
  order_by birthday_before (List.filter (born_in_month mes) (pessoas (file m))).

(** [SELECT DISTINCT cidade FROM pessoas WHERE ativo=1 AND cidade IS NOT
    NULL AND cidade != '' ORDER BY cidade] *)
Definition select_cidades (t : tables) : list string :=
  order_by (fun a b => match text_compare a b with Lt => true | _ => false end)
    (dedup_str
       (omap (fun r => match cidade r with
                       | Some c => if ativo r && Py.truthy c then Some c else None
                       | None => None
                       end) (pessoas t))).

(** [get_cidades] ([main.py], 486-496) through [@lru_cache(maxsize=32)]:
    the method takes no argument besides [self], so the cache of an
    instance holds one result. *)
Definition get_cidades (m : manager) : list string * manager :=
  match get_cidades_cache m with
  | Some cached => (cached, m)
  | None =>
      let found := select_cidades (file m) in
      (found, mkManager (file m) (_cache m) (_last_backup m) (Some found) (backup_dir m))
  end.

End Queries.

Module AppControllerEvents.

(** [salvar_evento] ([main.py], 744-747) *)
Definition salvar_evento (m : DatabaseManager.manager) (evento : gmap string string)
  (now : string) : Py.result Z * DatabaseManager.manager :=
  DatabaseManager.add_evento m (<["criado_em" := now]> evento).

(** [verificar_integridade] ([main.py], 750-763): [pessoas_total],
    [eventos_total] and [cpfs_duplicados]. *)
Definition verificar_integridade (m : DatabaseManager.manager)
  : nat * nat * list string :=
  let cpf_duplicados := DatabaseManager.get_duplicate_cpfs m in
  let pessoas_total := length (Queries.search_pessoas m PessoaService.FNone false) in
  let eventos_total := length (DatabaseManager.search_eventos m false) in
  (pessoas_total, eventos_total, cpf_duplicados).

End AppControllerEvents.

(* ================================================================== *)
(** * The calls of the window of [main.py] on the controller and the
      manager *)
(* ================================================================== *)

Module Session.

Import Sqlite.

(** A call made through [AppController] ([salvar_pessoa],
    [excluir_pessoa], [salvar_evento]) or on the manager ([get_cidades],
    [clear_cache], [create_backup]). *)
Inductive call :=
  | SalvarPessoa (pessoa : gmap string string) (pessoa_id : option Z) (now : string)
  | ExcluirPessoa (pessoa_id : Z)
  | SalvarEvento (evento : gmap string string) (now : string)
  | GetCidades
  | ClearCache
  | CreateBackup (now : timestamp).

(** The manager a call leaves, whether it returns or raises. *)
Definition step (m : DatabaseManager.manager) (c : call) : DatabaseManager.manager :=
  match c with
  | SalvarPessoa pessoa pessoa_id now =>
      snd (AppController.salvar_pessoa m pessoa pessoa_id now)
  | ExcluirPessoa pessoa_id => snd (AppController.excluir_pessoa m pessoa_id)
  | SalvarEvento evento now => snd (AppControllerEvents.salvar_evento m evento now)
  | GetCidades => snd (Queries.get_cidades m)
  | ClearCache => DatabaseManager.clear_cache m
  | CreateBackup now => snd (DatabaseManager.create_backup m now)
  end.

Definition run (calls : list call) (m : DatabaseManager.manager)
  : DatabaseManager.manager :=
  fold_left step calls m.

(** The cache of [get_cidades] is empty or holds what the query returns
    on the table as it is. *)
Definition cidades_current (m : DatabaseManager.manager) : Prop :=
  DatabaseManager.get_cidades_cache m = None
  \/ DatabaseManager.get_cidades_cache m
     = Some (Queries.select_cidades (DatabaseManager.file m)).

End Session.

(* ================================================================== *)
(** * Properties of the validation helpers *)
(* ================================================================== *)

Section ValidatorFacts.

Import Py Utils Spec.

Lemma filter_chars_all p s : all_chars p (filter_chars p s) = true.
Proof.
  induction s as [|c s IH]; simpl; [reflexivity|].
  destruct (p c) eqn:E; simpl; [rewrite E|]; assumption.
Qed.

Lemma filter_chars_id p s : all_chars p s = true -> filter_chars p s = s.
Proof.
  induction s as [|c s IH]; simpl; [reflexivity|].
  intros [Hc Hs]%andb_prop. rewrite Hc, IH; auto.
Qed.

Lemma normalize_cpf_filter s : normalize_cpf s = filter_chars isdigit s.
Proof. destruct s; reflexivity. Qed.

Lemma normalize_cpf_digits s : all_chars isdigit (normalize_cpf s) = true.
Proof. rewrite normalize_cpf_filter. apply filter_chars_all. Qed.

Lemma normalize_cpf_idempotent s : normalize_cpf (normalize_cpf s) = normalize_cpf s.
Proof.
  rewrite (normalize_cpf_filter (normalize_cpf s)).
  apply filter_chars_id, normalize_cpf_digits.
Qed.

(** A string of eleven characters, spelled out. *)
Lemma length_11_inv (d : string) :
  String.length d = 11%nat ->
  exists c0 c1 c2 c3 c4 c5 c6 c7 c8 c9 c10,
    d = String c0 (String c1 (String c2 (String c3 (String c4 (String c5
       (String c6 (String c7 (String c8 (String c9 (String c10 ""))))))))))%string.
Proof.
  intros H.
  do 11 (destruct d as [|? d]; [discriminate H|]).
  destruct d; [|discriminate H].
  repeat eexists.
Qed.

Lemma format_then_normalize d :
  all_chars isdigit d = true -> String.length d = 11%nat ->
  normalize_cpf (format_cpf d) = d.
Proof.
  intros Hd Hlen.
  unfold format_cpf.
  rewrite (normalize_cpf_filter d), (filter_chars_id _ _ Hd), Hlen. simpl negb. cbv iota.
  destruct (length_11_inv d Hlen)
    as (c0 & c1 & c2 & c3 & c4 & c5 & c6 & c7 & c8 & c9 & c10 & ->).
  rewrite normalize_cpf_filter.
  cbn in Hd.
  repeat (apply andb_prop in Hd; destruct Hd as [?H Hd]).
  cbv -[isdigit].
  repeat match goal with H : isdigit _ = true |- _ => rewrite H; clear H end.
  reflexivity.
Qed.

(** C7.  Normalising, formatting and normalising again gives the digits of
    a single normalisation, for every input string. *)
Theorem normalize_format_normalize (x : string) :
  normalize_cpf (format_cpf (normalize_cpf x)) = normalize_cpf x.
Proof.
  destruct (Nat.eq_dec (String.length (normalize_cpf x)) 11%nat) as [Hlen|Hlen].
  - apply format_then_normalize; [apply normalize_cpf_digits | exact Hlen].
  - unfold format_cpf. rewrite normalize_cpf_idempotent.
    apply Nat.eqb_neq in Hlen. rewrite Hlen. simpl.
    apply normalize_cpf_idempotent.
Qed.

Lemma substring_all s n : (String.length s <= n)%nat -> String.substring 0 n s = s.
Proof.
  revert n. induction s as [|c s IH]; intros [|n] H; simpl in *; try reflexivity; try lia.
  rewrite IH; [reflexivity | lia].
Qed.

Lemma isdecimal_isdigit c : isdecimal c = true -> isdigit c = true.
Proof. unfold isdigit. intros ->. reflexivity. Qed.

Lemma newline_not_digit : isdigit "010"%char = false.
Proof. reflexivity. Qed.

(** On a string of digits the pattern matches exactly the strings of
    eleven decimal digits. *)
Lemma CPF_PATTERN_match_length d :
  all_chars isdigit d = true ->
  Config.CPF_PATTERN_match d = true -> String.length d = 11%nat.
Proof.
  intros Hd. unfold Config.CPF_PATTERN_match, slice.
  intros [[_ Hlen]%andb_prop Hrest]%andb_prop.
  apply Nat.eqb_eq in Hlen.
  do 11 (destruct d as [|? d]; [discriminate Hlen|]).
  destruct d as [|c d]; [reflexivity|exfalso].
  cbn [String.length String.substring] in Hrest.
  rewrite substring_all in Hrest by lia.
  cbn in Hd. repeat (apply andb_prop in Hd; destruct Hd as [?H Hd]).
  apply orb_prop in Hrest as [Hrest|Hrest]; [discriminate Hrest|].
  apply String.eqb_eq in Hrest. injection Hrest as -> _.
  match goal with H : isdigit "010"%char = true |- _ => discriminate H end.
Qed.

Lemma CPF_PATTERN_match_decimal d :
  Config.CPF_PATTERN_match d = true -> String.length d = 11%nat ->
  all_chars isdecimal d = true.
Proof.
  unfold Config.CPF_PATTERN_match, slice.
  intros [[Hdec _]%andb_prop _]%andb_prop Hlen.
  rewrite substring_all in Hdec by lia. exact Hdec.
Qed.

Lemma repeat_char_length c n : String.length (repeat_char c n) = n.
Proof. induction n; simpl; congruence. Qed.

(** C5.  With [d] the normalised input: [validate_cpf] is false when [d]
    has not eleven characters, false when all characters of [d] are the
    same, and on eleven decimal digits that are not all the same it is true
    exactly when the tenth digit is the first check digit (weights 10..2
    over nine digits) and the eleventh is the second check digit (weights
    11..2 over ten digits). *)
Theorem validate_cpf_check_digits (s : string) :
  let d := normalize_cpf s in
  (String.length d <> 11%nat -> validate_cpf s = false)
  /\ (all_identical d -> validate_cpf s = false)
  /\ (String.length d = 11%nat -> all_chars isdecimal d = true ->
      ~ all_identical d ->
      (validate_cpf s = true <->
       digit_at d 9 = spec_check_digit d 10 /\ digit_at d 10 = spec_check_digit d 11)).
Proof.
  intros d.
  pose proof (normalize_cpf_digits s) as Hdig. fold d in Hdig.
  assert (Hshort : String.length d <> 11%nat -> validate_cpf s = false).
  { intros Hlen. unfold validate_cpf. fold d.
    destruct (Config.CPF_PATTERN_match d) eqn:Hpat; [|reflexivity].
    exfalso. apply Hlen. apply CPF_PATTERN_match_length; assumption. }
  split; [exact Hshort|]. split.
  - intros [c Hc].
    destruct (Nat.eq_dec (String.length d) 11%nat) as [Hlen|Hlen]; [|auto].
    unfold validate_cpf. fold d.
    destruct (Config.CPF_PATTERN_match d); [|reflexivity].
    rewrite Hlen in Hc. rewrite Hc. cbn [repeat_char negb].
    rewrite String.eqb_refl. reflexivity.
  - intros Hlen Hdec Hnot.
    unfold validate_cpf. fold d.
    assert (Hpat : Config.CPF_PATTERN_match d = true).
    { unfold Config.CPF_PATTERN_match, slice.
      rewrite !substring_all by lia.
      rewrite Hdec, Hlen.
      destruct (length_11_inv d Hlen)
        as (c0 & c1 & c2 & c3 & c4 & c5 & c6 & c7 & c8 & c9 & c10 & ->).
      reflexivity. }
    rewrite Hpat. cbn [negb].
    destruct (length_11_inv d Hlen)
      as (c0 & c1 & c2 & c3 & c4 & c5 & c6 & c7 & c8 & c9 & c10 & Hd).
    rewrite Hd.
    destruct (String.eqb _ (repeat_char c0 11)) eqn:Hsame.
    { exfalso. apply Hnot. exists c0. rewrite Hlen, Hd.
      apply String.eqb_eq. exact Hsame. }
    rewrite andb_true_iff, !Z.eqb_eq.
    unfold spec_check_digit, calc_digit, digit_at.
    reflexivity.
Qed.

(** The check digits of 111.444.777-35 match. *)
Lemma validate_cpf_check_digits_witness : validate_cpf "111.444.777-35" = true.
Proof.
  apply (proj2 (proj2 (validate_cpf_check_digits "111.444.777-35"))).
  - reflexivity.
  - reflexivity.
  - intros [c Hc]. vm_compute in Hc. inversion Hc; subst; discriminate.
  - split; reflexivity.
Defined.

End ValidatorFacts.

(* ================================================================== *)
(** * Dates: the calendar *)
(* ================================================================== *)

Section Ordinals.

Import Py Datetime Spec.

Lemma days_before_year_succ y :
  days_before_year (y + 1)
  = days_before_year y + 365 + (if is_leap y then 1 else 0).
Proof.
  unfold days_before_year, is_leap.
  replace (y + 1 - 1) with y by lia.
  destruct (Z.eqb_spec (y mod 4) 0), (Z.eqb_spec (y mod 100) 0),
    (Z.eqb_spec (y mod 400) 0); cbn;
    Z.to_euclidean_division_equations; lia.
Qed.

Lemma days_before_year_mono y1 y2 :
  y1 <= y2 -> days_before_year y1 <= days_before_year y2.
Proof.
  unfold days_before_year. intros H.
  Z.to_euclidean_division_equations. lia.
Qed.

Lemma month_cases m :
  1 <= m <= 12 ->
  m = 1 \/ m = 2 \/ m = 3 \/ m = 4 \/ m = 5 \/ m = 6
  \/ m = 7 \/ m = 8 \/ m = 9 \/ m = 10 \/ m = 11 \/ m = 12.
Proof. lia. Qed.

Lemma valid_fields_inv y m d :
  valid_fields y m d = true ->
  1 <= y <= 9999 /\ 1 <= m <= 12 /\ 1 <= d <= days_in_month y m.
Proof.
  unfold valid_fields. intros H.
  repeat (apply andb_prop in H; destruct H as [H ?H]).
  repeat match goal with
    | E : (_ <=? _) = true |- _ => apply Z.leb_le in E
    end.
  lia.
Qed.

Ltac split_months :=
  repeat match goal with
    | H : 1 <= ?m <= 12 |- _ =>
        apply month_cases in H;
        destruct H as [->|[->|[->|[->|[->|[->|[->|[->|[->|[->|[->| ->]]]]]]]]]]]
    end.

Ltac compute_sums :=
  repeat match goal with
    | |- context [Py.sum ?l] =>
        let v := eval vm_compute in (Py.sum l) in change (Py.sum l) with v
    end.

(** A date lies within its year. *)
Lemma toordinal_in_year y m d :
  valid_fields y m d = true ->
  days_before_year y < toordinal (mkDate y m d) <= days_before_year (y + 1).
Proof.
  intros (_ & Hm & Hd)%valid_fields_inv.
  rewrite days_before_year_succ. unfold toordinal. cbn [year month day].
  unfold days_before_month, days_in_month in *.
  revert Hd. generalize (days_before_year y), (is_leap y). intros D L Hd.
  split_months; destruct L; cbn in Hd; compute_sums; lia.
Qed.

(** Within a year, the dates are counted month by month. *)
Lemma toordinal_same_year y m1 d1 m2 d2 :
  valid_fields y m1 d1 = true -> valid_fields y m2 d2 = true ->
  match m1 ?= m2 with Eq => d1 ?= d2 | c => c end
  = (toordinal (mkDate y m1 d1) ?= toordinal (mkDate y m2 d2)).
Proof.
  intros (_ & Hm1 & Hd1)%valid_fields_inv (_ & Hm2 & Hd2)%valid_fields_inv.
  unfold toordinal. cbn [year month day].
  unfold days_before_month, days_in_month in *.
  revert Hd1 Hd2. generalize (days_before_year y), (is_leap y). intros D L Hd1 Hd2.
  split_months; destruct L; cbn in Hd1, Hd2; compute_sums;
    match goal with
    | |- match ?a ?= ?b with _ => _ end = _ =>
        let c := eval vm_compute in (a ?= b) in change (a ?= b) with c; cbv iota
    end;
    first [ symmetry; apply Z.compare_lt_iff; lia
          | symmetry; apply Z.compare_gt_iff; lia
          | rewrite !Z.add_compare_mono_l; reflexivity ].
Qed.

(** Dates compare as their day counts. *)
Lemma date_compare_toordinal a b :
  valid_fields (year a) (month a) (day a) = true ->
  valid_fields (year b) (month b) (day b) = true ->
  date_compare a b = (toordinal a ?= toordinal b).
Proof.
  destruct a as [ya ma da], b as [yb mb db]. cbn [year month day].
  intros Ha Hb. unfold date_compare. cbn [year month day].
  pose proof (toordinal_in_year ya ma da Ha) as Ia.
  pose proof (toordinal_in_year yb mb db Hb) as Ib.
  destruct (Z.compare_spec ya yb) as [->|Hlt|Hgt].
  - apply toordinal_same_year; assumption.
  - symmetry. apply Z.compare_lt_iff.
    pose proof (days_before_year_mono (ya + 1) yb). lia.
  - symmetry. apply Z.compare_gt_iff.
    pose proof (days_before_year_mono (yb + 1) ya). lia.
Qed.

Lemma strptime_valid s dt :
  strptime s = Some dt -> valid_fields (year dt) (month dt) (day dt) = true.
Proof.
  unfold strptime.
  destruct (match_groups _ s) as [[toks rest]|]; [|discriminate].
  destruct toks as [|d [|x1 [|m [|x2 [|y [|z toks]]]]]]; try discriminate.
  destruct (truthy rest); [discriminate|].
  destruct (valid_fields _ _ _) eqn:E; [|discriminate].
  intros [= <-]. exact E.
Qed.

End Ordinals.

(* ================================================================== *)
(** * Dates: the ORDER BY of [search_eventos] *)
(* ================================================================== *)

Section DateOrder.

Import Py Datetime Spec.

Lemma isdecimal_cases c :
  isdecimal c = true ->
  c = "0"%char \/ c = "1"%char \/ c = "2"%char \/ c = "3"%char \/ c = "4"%char
  \/ c = "5"%char \/ c = "6"%char \/ c = "7"%char \/ c = "8"%char \/ c = "9"%char.
Proof.
  destruct c as [[] [] [] [] [] [] [] []]; intros H; try discriminate H; tauto.
Qed.

Lemma isdecimal_range c : isdecimal c = true -> 0 <= int_of_char c <= 9.
Proof.
  intros H. destruct (isdecimal_cases c H) as [->|[->|[->|[->|[->|[->|[->|[->|[->| ->]]]]]]]]];
    vm_compute; split; congruence.
Qed.

Lemma ascii_compare_digits x y :
  Ascii.compare x y = (int_of_char x ?= int_of_char y).
Proof.
  unfold Ascii.compare, int_of_char, code.
  rewrite <- (N2Z.inj_compare (N_of_ascii x) (N_of_ascii y)).
  rewrite <- (Z.add_compare_mono_l (-48)).
  f_equal; lia.
Qed.

(** A text of the form DD/MM/YYYY, spelled out. *)
Lemma is_DDMMYYYY_inv s :
  is_DDMMYYYY s = true ->
  exists d1 d2 m1 m2 y1 y2 y3 y4,
    s = String d1 (String d2 (String "/" (String m1 (String m2 (String "/"
          (String y1 (String y2 (String y3 (String y4 "")))))))))
    /\ isdecimal d1 = true /\ isdecimal d2 = true
    /\ isdecimal m1 = true /\ isdecimal m2 = true
    /\ isdecimal y1 = true /\ isdecimal y2 = true
    /\ isdecimal y3 = true /\ isdecimal y4 = true.
Proof.
  unfold is_DDMMYYYY. intros H.
  destruct s as [|d1 [|d2 [|s1 [|m1 [|m2 [|s2 [|y1 [|y2 [|y3 [|y4 r]]]]]]]]]];
    cbn [match_prefix] in H;
    repeat match type of H with
      | context [if ?b then _ else _] => destruct b eqn:?; [|discriminate H]
      end; try discriminate H.
  destruct r; [|discriminate H].
  repeat match goal with
    | E : chr _ _ = true |- _ => apply Ascii.eqb_eq in E; subst
    end.
  exists d1, d2, m1, m2, y1, y2, y3, y4. auto 10.
Qed.

(** The [%d] group followed by the slash, on two digits. *)
Lemma match_day_group G d1 d2 rest :
  isdecimal d1 = true -> isdecimal d2 = true ->
  match_groups (directive_d :: literal "/" :: G)
               (String d1 (String d2 (String "/" rest)))
  = if (1 <=? 10 * int_of_char d1 + int_of_char d2)
       && (10 * int_of_char d1 + int_of_char d2 <=? 31)
    then match match_groups G rest with
         | Some (toks, r) =>
             Some (String d1 (String d2 "") :: String "/" "" :: toks, r)
         | None => None
         end
    else None.
Proof.
  intros H1 H2.
  destruct (isdecimal_cases d1 H1) as [->|[->|[->|[->|[->|[->|[->|[->|[->| ->]]]]]]]]];
  destruct (isdecimal_cases d2 H2) as [->|[->|[->|[->|[->|[->|[->|[->|[->| ->]]]]]]]]];
    cbv;
    try match goal with
        | |- context [?f G rest] => destruct (f G rest) as [[? ?]|]
        end; reflexivity.
Qed.

(** The [%m] group followed by the slash, on two digits. *)
Lemma match_month_group G m1 m2 rest :
  isdecimal m1 = true -> isdecimal m2 = true ->
  match_groups (directive_m :: literal "/" :: G)
               (String m1 (String m2 (String "/" rest)))
  = if (1 <=? 10 * int_of_char m1 + int_of_char m2)
       && (10 * int_of_char m1 + int_of_char m2 <=? 12)
    then match match_groups G rest with
         | Some (toks, r) =>
             Some (String m1 (String m2 "") :: String "/" "" :: toks, r)
         | None => None
         end
    else None.
Proof.
  intros H1 H2.
  destruct (isdecimal_cases m1 H1) as [->|[->|[->|[->|[->|[->|[->|[->|[->| ->]]]]]]]]];
  destruct (isdecimal_cases m2 H2) as [->|[->|[->|[->|[->|[->|[->|[->|[->| ->]]]]]]]]];
    cbv;
    try match goal with
        | |- context [?f G rest] => destruct (f G rest) as [[? ?]|]
        end; reflexivity.
Qed.

Lemma match_year_group y1 y2 y3 y4 :
  isdecimal y1 = true -> isdecimal y2 = true ->
  isdecimal y3 = true -> isdecimal y4 = true ->
  match_groups [directive_Y] (String y1 (String y2 (String y3 (String y4 ""))))
  = Some ([String y1 (String y2 (String y3 (String y4 "")))], ""%string).
Proof.
  intros H1 H2 H3 H4. cbn. rewrite H1, H2, H3, H4. reflexivity.
Qed.

Lemma strip_two_digits d1 d2 :
  isdecimal d1 = true -> isdecimal d2 = true ->
  strip (String d1 (String d2 "")) = String d1 (String d2 "").
Proof.
  intros H1 H2.
  destruct (isdecimal_cases d1 H1) as [->|[->|[->|[->|[->|[->|[->|[->|[->| ->]]]]]]]]];
  destruct (isdecimal_cases d2 H2) as [->|[->|[->|[->|[->|[->|[->|[->|[->| ->]]]]]]]]];
    reflexivity.
Qed.

Lemma valid_fields_bounds y m d :
  valid_fields y m d = true ->
  1 <= y <= 9999 /\ 1 <= m <= 12 /\ 1 <= d <= 31.
Proof.
  unfold valid_fields, days_in_month. intros H.
  repeat (apply andb_prop in H; destruct H as [H ?H]).
  repeat match goal with
    | E : (_ <=? _) = true |- _ => apply Z.leb_le in E
    end.
  repeat match goal with
    | E : context [if ?b then _ else _] |- _ => destruct b
    end; lia.
Qed.

(** On a text of the form DD/MM/YYYY, [strptime] succeeds exactly on the
    dates of the calendar, and reads the fields off the three groups of
    digits. *)
Lemma strptime_DDMMYYYY d1 d2 m1 m2 y1 y2 y3 y4 :
  isdecimal d1 = true -> isdecimal d2 = true ->
  isdecimal m1 = true -> isdecimal m2 = true ->
  isdecimal y1 = true -> isdecimal y2 = true ->
  isdecimal y3 = true -> isdecimal y4 = true ->
  let yv := int_of_digits (String y1 (String y2 (String y3 (String y4 "")))) in
  let mv := int_of_digits (String m1 (String m2 "")) in
  let dv := int_of_digits (String d1 (String d2 "")) in
  strptime (String d1 (String d2 (String "/" (String m1 (String m2 (String "/"
              (String y1 (String y2 (String y3 (String y4 ""))))))))))
  = if valid_fields yv mv dv then Some (mkDate yv mv dv) else None.
Proof.
  intros Hd1 Hd2 Hm1 Hm2 Hy1 Hy2 Hy3 Hy4 yv mv dv.
  unfold strptime.
  rewrite match_day_group by assumption.
  rewrite match_month_group by assumption.
  rewrite match_year_group by assumption.
  assert (Hdv : dv = 10 * int_of_char d1 + int_of_char d2)
    by (unfold dv, int_of_digits; cbn [int_of_digits_acc]; lia).
  assert (Hmv : mv = 10 * int_of_char m1 + int_of_char m2)
    by (unfold mv, int_of_digits; cbn [int_of_digits_acc]; lia).
  rewrite <- Hdv, <- Hmv.
  destruct ((1 <=? mv) && (mv <=? 12)) eqn:Em;
  destruct ((1 <=? dv) && (dv <=? 31)) eqn:Ed; cbn [truthy].
  1: rewrite strip_two_digits by assumption; fold dv; reflexivity.
  all: destruct (valid_fields yv mv dv) eqn:Ev; [exfalso|reflexivity].
  all: apply valid_fields_bounds in Ev.
  all: first [apply andb_false_iff in Em as [Em|Em]; apply Z.leb_gt in Em; lia
             |apply andb_false_iff in Ed as [Ed|Ed]; apply Z.leb_gt in Ed; lia].
Qed.

Ltac decide_compare :=
  repeat match goal with
    | |- context [match (?x ?= ?y) with _ => _ end] =>
        destruct (Z.compare_spec x y)
    end;
  symmetry;
  first [ apply Z.compare_eq_iff; lia
        | apply Z.compare_lt_iff; lia
        | apply Z.compare_gt_iff; lia ].

(** Texts of two, and of four, decimal digits compare as their values. *)
Lemma text_compare_2 a1 a2 b1 b2 :
  isdecimal a1 = true -> isdecimal a2 = true ->
  isdecimal b1 = true -> isdecimal b2 = true ->
  Sqlite.text_compare (String a1 (String a2 "")) (String b1 (String b2 ""))
  = (int_of_digits (String a1 (String a2 ""))
     ?= int_of_digits (String b1 (String b2 ""))).
Proof.
  intros Ha1%isdecimal_range Ha2%isdecimal_range
         Hb1%isdecimal_range Hb2%isdecimal_range.
  unfold Sqlite.text_compare, int_of_digits.
  cbn [String.compare int_of_digits_acc].
  rewrite !ascii_compare_digits.
  decide_compare.
Qed.

Lemma text_compare_4 a1 a2 a3 a4 b1 b2 b3 b4 :
  isdecimal a1 = true -> isdecimal a2 = true ->
  isdecimal a3 = true -> isdecimal a4 = true ->
  isdecimal b1 = true -> isdecimal b2 = true ->
  isdecimal b3 = true -> isdecimal b4 = true ->
  Sqlite.text_compare (String a1 (String a2 (String a3 (String a4 ""))))
                      (String b1 (String b2 (String b3 (String b4 ""))))
  = (int_of_digits (String a1 (String a2 (String a3 (String a4 ""))))
     ?= int_of_digits (String b1 (String b2 (String b3 (String b4 ""))))).
Proof.
  intros Ha1%isdecimal_range Ha2%isdecimal_range
         Ha3%isdecimal_range Ha4%isdecimal_range
         Hb1%isdecimal_range Hb2%isdecimal_range
         Hb3%isdecimal_range Hb4%isdecimal_range.
  unfold Sqlite.text_compare, int_of_digits.
  cbn [String.compare int_of_digits_acc].
  rewrite !ascii_compare_digits.
  decide_compare.
Qed.

Lemma order_key_compare_parsed (a b : string) :
  valid_date_string a = true -> valid_date_string b = true ->
  parse_then_compare a b = Some (DatabaseManager.order_key_compare a b).
Proof.
  intros [Ha Hpa]%andb_prop [Hb Hpb]%andb_prop.
  apply is_DDMMYYYY_inv in Ha
    as (d1 & d2 & m1 & m2 & y1 & y2 & y3 & y4 & -> & ? & ? & ? & ? & ? & ? & ? & ?).
  apply is_DDMMYYYY_inv in Hb
    as (e1 & e2 & n1 & n2 & z1 & z2 & z3 & z4 & -> & ? & ? & ? & ? & ? & ? & ? & ?).
  unfold parse_then_compare.
  rewrite strptime_DDMMYYYY in Hpa |- * by assumption.
  rewrite strptime_DDMMYYYY in Hpb |- * by assumption.
  cbv zeta in Hpa, Hpb |- *.
  destruct (valid_fields _ _ _); [|discriminate Hpa].
  destruct (valid_fields _ _ _); [|discriminate Hpb].
  unfold DatabaseManager.order_key_compare, Sqlite.substr, date_compare.
  cbn [String.substring Nat.sub year month day].
  rewrite text_compare_4, !text_compare_2 by assumption.
  reflexivity.
Qed.

Lemma insert_sorted_In {A} (f : A -> A -> bool) x l y :
  In y (Sqlite.insert_sorted f x l) -> y = x \/ In y l.
Proof.
  induction l as [|z l IH]; simpl.
  - intros [->|[]]. auto.
  - destruct (f z x); simpl; intros [->|H]; auto.
    destruct (IH H); auto.
Qed.

Lemma order_by_In {A} (f : A -> A -> bool) l y :
  In y (Sqlite.order_by f l) -> In y l.
Proof.
  induction l as [|x l IH]; simpl; [auto|].
  intros H. apply insert_sorted_In in H as [->|H]; auto.
Qed.

Lemma insert_sorted_ext {A} (f g : A -> A -> bool) x r :
  (forall z, In z r -> f z x = g z x) ->
  Sqlite.insert_sorted f x r = Sqlite.insert_sorted g x r.
Proof.
  induction r as [|z r IH]; intros H; [reflexivity|].
  simpl. rewrite (H z) by (left; reflexivity).
  destruct (g z x); [|reflexivity].
  f_equal. apply IH. intros y Hy. apply H. right. exact Hy.
Qed.

(** Two orderings that agree on the rows of a table sort it alike. *)
Lemma order_by_ext {A} (f g : A -> A -> bool) l :
  (forall x y, In x l -> In y l -> f x y = g x y) ->
  Sqlite.order_by f l = Sqlite.order_by g l.
Proof.
  induction l as [|x l IH]; intros H; [reflexivity|].
  cbn [Sqlite.order_by fold_right].
  change (fold_right (Sqlite.insert_sorted f) [] l) with (Sqlite.order_by f l).
  change (fold_right (Sqlite.insert_sorted g) [] l) with (Sqlite.order_by g l).
  rewrite <- IH by (intros; apply H; right; assumption).
  apply insert_sorted_ext. intros z Hz.
  apply H; [right; exact (order_by_In f l z Hz) | left; reflexivity].
Qed.

(** The rows [search_eventos] returns are in descending order of their
    dates whenever the stored dates are valid DD/MM/YYYY strings. *)
Lemma search_eventos_by_date (m : DatabaseManager.manager) (only_active : bool) :
  (forall e, In e (Sqlite.eventos (DatabaseManager.file m)) ->
             valid_date_string (Sqlite.data_evento e) = true) ->
  EventoService.search_eventos m only_active
  = Sqlite.order_by evento_before_by_date
      (List.filter (fun e => if only_active then Sqlite.ev_ativo e else true)
                   (Sqlite.eventos (DatabaseManager.file m))).
Proof.
  intros Hvalid.
  unfold EventoService.search_eventos, DatabaseManager.search_eventos.
  apply order_by_ext. intros x y Hx Hy.
  apply filter_In in Hx as [Hx _]. apply filter_In in Hy as [Hy _].
  unfold DatabaseManager.evento_before, evento_before_by_date.
  rewrite order_key_compare_parsed by auto.
  reflexivity.
Qed.

(** C8.  On two valid DD/MM/YYYY date strings the comparison of the
    ORDER BY keys of [search_eventos] (year text, then month text, then day
    text, each descending) is the comparison of the parsed dates, which is
    the comparison of their day counts: a row sorts before another exactly
    when its date is the later one. *)
Theorem order_key_compare_chronological (a b : string) :
  valid_date_string a = true -> valid_date_string b = true ->
  parse_then_compare a b = Some (DatabaseManager.order_key_compare a b)
  /\ (forall da db,
        strptime a = Some da -> strptime b = Some db ->
        DatabaseManager.order_key_compare a b = (toordinal da ?= toordinal db))
  /\ (forall ea eb,
        Sqlite.data_evento ea = a -> Sqlite.data_evento eb = b ->
        DatabaseManager.evento_before ea eb = evento_before_by_date ea eb).
Proof.
  intros Ha Hb.
  pose proof (order_key_compare_parsed a b Ha Hb) as Hcmp.
  split; [exact Hcmp|]. split.
  - intros da db Hda Hdb. unfold parse_then_compare in Hcmp.
    rewrite Hda, Hdb in Hcmp. injection Hcmp as <-.
    apply date_compare_toordinal; eapply strptime_valid; eassumption.
  - intros ea eb <- <-.
    unfold DatabaseManager.evento_before, evento_before_by_date.
    rewrite Hcmp. reflexivity.
Qed.

Lemma order_key_compare_chronological_witness :
  parse_then_compare "05/03/2024" "10/03/2024"
  = Some (DatabaseManager.order_key_compare "05/03/2024" "10/03/2024").
Proof.
  apply order_key_compare_chronological; reflexivity.
Defined.

End DateOrder.

(* ================================================================== *)
(** * The person records: uniqueness of the document number *)
(* ================================================================== *)

Section PessoaInvariant.

Import Py Sqlite Writes.

Lemma existsb_false {A} (f : A -> bool) l x :
  existsb f l = false -> In x l -> f x = false.
Proof.
  intros H Hx. destruct (f x) eqn:E; [|reflexivity].
  rewrite <- H. symmetry. apply existsb_exists. eauto.
Qed.

Lemma opt_eqb_Some a c : opt_eqb a (Some c) = true <-> a = Some c.
Proof.
  destruct a as [x|]; simpl; [|split; discriminate].
  rewrite String.eqb_eq. split; congruence.
Qed.

Lemma cpf_clashes_false rows self c :
  cpf_clashes rows self (Some c) = false ->
  forall r, r ∈ rows -> cpf r = Some c ->
            match self with Some i => id r = i | None => False end.
Proof.
  unfold cpf_clashes. intros H r Hr Hc.
  apply list_elem_of_In in Hr.
  pose proof (existsb_false _ _ _ H Hr) as E. cbv beta in E.
  rewrite (proj2 (opt_eqb_Some _ _) Hc) in E. cbn in E.
  destruct self as [i|]; [|discriminate E].
  apply negb_false_iff, Z.eqb_eq in E. exact E.
Qed.

Lemma cpf_clashes_true rows self c r :
  r ∈ rows -> cpf r = Some c ->
  match self with Some i => id r <> i | None => True end ->
  cpf_clashes rows self (Some c) = true.
Proof.
  intros Hr Hc Hself. unfold cpf_clashes. apply existsb_exists.
  exists r. split; [apply list_elem_of_In, Hr|].
  rewrite (proj2 (opt_eqb_Some _ _) Hc). cbn.
  destruct self; [apply negb_true_iff, Z.eqb_neq, Hself | reflexivity].
Qed.

Lemma elem_of_omap_cpf (c : string) (rows : list pessoa_row) :
  c ∈ omap cpf rows <-> exists r, r ∈ rows /\ cpf r = Some c.
Proof. apply list_elem_of_omap. Qed.

Lemma table_ok_empty : table_ok empty_schema.
Proof. repeat split; constructor. Qed.

(** INSERT keeps the invariant. *)
Lemma insert_pessoa_ok t v1 v2 v3 v4 v5 v6 v7 v8 v9 v10 :
  table_ok t -> table_ok (snd (insert_pessoa t v1 v2 v3 v4 v5 v6 v7 v8 v9 v10)).
Proof.
  intros (Hcpf & Hid & Hseq). unfold insert_pessoa.
  destruct v1 as [n|]; [|repeat split; assumption].
  destruct v10 as [dc|]; [|repeat split; assumption].
  destruct (cpf_clashes (pessoas t) None v2) eqn:Hclash; [repeat split; assumption|].
  unfold table_ok, set_pessoas. cbn [snd pessoas pessoas_seq]. repeat split.
  - rewrite omap_app. cbn [omap list_omap cpf].
    destruct v2 as [c|]; cbn; [|rewrite app_nil_r; exact Hcpf].
    apply NoDup_app. split; [exact Hcpf|]. split; [|apply NoDup_singleton].
    intros x Hx ->%list_elem_of_singleton.
    apply elem_of_omap_cpf in Hx as (r & Hr & Hc).
    exact (cpf_clashes_false _ _ _ Hclash r Hr Hc).
  - rewrite fmap_app. cbn [fmap list_fmap id].
    apply NoDup_app. split; [exact Hid|]. split; [|apply NoDup_singleton].
    intros x Hx ->%list_elem_of_singleton.
    apply list_elem_of_fmap in Hx as (r & Hr & Hin). cbn [id] in Hr.
    rewrite Forall_forall in Hseq. specialize (Hseq r Hin). lia.
  - apply Forall_app. split.
    + eapply Forall_impl; [exact Hseq|]. cbv beta. intros; lia.
    + constructor; [cbn; lia | constructor].
Qed.

Lemma map_same_ids (f : pessoa_row -> pessoa_row) (rows : list pessoa_row) :
  (forall r, id (f r) = id r) -> id <$> map f rows = id <$> rows.
Proof.
  intros Hf. induction rows as [|r rows IH]; [reflexivity|].
  cbn. rewrite Hf. f_equal. exact IH.
Qed.

Lemma map_same_cpfs (f : pessoa_row -> pessoa_row) (rows : list pessoa_row) :
  (forall r, cpf (f r) = cpf r) -> omap cpf (map f rows) = omap cpf rows.
Proof.
  intros Hf. induction rows as [|r rows IH]; [reflexivity|].
  cbn. rewrite Hf, IH. reflexivity.
Qed.

Lemma map_ids_bounded (f : pessoa_row -> pessoa_row) (rows : list pessoa_row) seq :
  (forall r, id (f r) = id r) ->
  Forall (fun r => id r <= seq) rows -> Forall (fun r => id r <= seq) (map f rows).
Proof.
  intros Hf H. induction H as [|r rows Hr _ IH]; cbn; constructor; auto.
  rewrite Hf. exact Hr.
Qed.

(** The document numbers after an UPDATE of the row [pid] come from the
    table before it, or are the new value. *)
Lemma elem_of_cpfs_updated (f : pessoa_row -> pessoa_row) pid v
  (rows : list pessoa_row) (x : string) :
  (forall r, cpf (f r) = if id r =? pid then v else cpf r) ->
  x ∈ omap cpf (map f rows) ->
  x ∈ omap cpf rows \/ (v = Some x /\ pid ∈ id <$> rows).
Proof.
  intros Hf Hx. apply elem_of_omap_cpf in Hx as (r' & Hr' & Hc).
  apply list_elem_of_In, in_map_iff in Hr' as (r & <- & Hr).
  apply list_elem_of_In in Hr. rewrite Hf in Hc.
  destruct (Z.eqb_spec (id r) pid) as [E|E].
  - right. split; [exact Hc|]. rewrite <- E. apply list_elem_of_fmap_2, Hr.
  - left. apply elem_of_omap_cpf. eauto.
Qed.

Lemma omap_cpf_cons (r : pessoa_row) (rows : list pessoa_row) :
  omap cpf (r :: rows)
  = match cpf r with Some c => c :: omap cpf rows | None => omap cpf rows end.
Proof. reflexivity. Qed.

Lemma NoDup_cpfs_updated (f : pessoa_row -> pessoa_row) pid v
  (rows : list pessoa_row) :
  (forall r, cpf (f r) = if id r =? pid then v else cpf r) ->
  NoDup (id <$> rows) -> NoDup (omap cpf rows) ->
  (forall r c, r ∈ rows -> v = Some c -> cpf r = Some c -> id r = pid) ->
  NoDup (omap cpf (map f rows)).
Proof.
  intros Hf. induction rows as [|r rows IH]; intros Hid Hcpf Hfree; [constructor|].
  cbn [map]. rewrite omap_cpf_cons.
  rewrite fmap_cons in Hid. rewrite omap_cpf_cons in Hcpf.
  apply NoDup_cons in Hid as [Hid_r Hid].
  assert (Htail : NoDup (omap cpf (map f rows))).
  { apply IH; [exact Hid | | intros r' c Hr'; apply Hfree; right; exact Hr'].
    destruct (cpf r); [apply NoDup_cons in Hcpf as [_ Hcpf]|]; exact Hcpf. }
  destruct (cpf (f r)) as [c|] eqn:Hc; [|exact Htail].
  apply NoDup_cons. split; [|exact Htail].
  intros Hin. rewrite Hf in Hc.
  apply (elem_of_cpfs_updated f pid v rows c Hf) in Hin.
  destruct (Z.eqb_spec (id r) pid) as [E|E].
  - apply Hid_r. rewrite E.
    destruct Hin as [Hin|[_ Hin]]; [|exact Hin].
    apply elem_of_omap_cpf in Hin as (r' & Hr' & Hc').
    rewrite <- (Hfree r' c (list_elem_of_further _ _ _ Hr') Hc Hc').
    apply list_elem_of_fmap_2, Hr'.
  - destruct Hin as [Hin|[Hv _]].
    + rewrite Hc in Hcpf. apply NoDup_cons in Hcpf as [Hnot _]. exact (Hnot Hin).
    + apply E. exact (Hfree r c (list_elem_of_here _ _) Hv Hc).
Qed.

Lemma filter_cpfs_NoDup (p : pessoa_row -> bool) (rows : list pessoa_row) :
  NoDup (omap cpf rows) -> NoDup (omap cpf (List.filter p rows)).
Proof.
  intros H. eapply sublist_NoDup; [exact H|].
  clear H. induction rows as [|r rows IH]; [constructor|].
  cbn [List.filter].
  destruct (p r); rewrite ?omap_cpf_cons;
    destruct (cpf r); try (constructor; exact IH); exact IH.
Qed.

Lemma filter_ids_NoDup (p : pessoa_row -> bool) (rows : list pessoa_row) :
  NoDup (id <$> rows) -> NoDup (id <$> List.filter p rows).
Proof.
  intros H. eapply sublist_NoDup; [exact H|].
  clear H. induction rows as [|r rows IH]; [constructor|].
  cbn [List.filter]. destruct (p r); cbn; constructor; exact IH.
Qed.

Lemma filter_ids_bounded (p : pessoa_row -> bool) (rows : list pessoa_row) seq :
  Forall (fun r => id r <= seq) rows ->
  Forall (fun r => id r <= seq) (List.filter p rows).
Proof.
  intros H. induction H as [|r rows Hr _ IH]; cbn; [constructor|].
  destruct (p r); [constructor|]; assumption.
Qed.

(** UPDATE keeps the invariant. *)
Lemma update_pessoa_stmt_ok t pid v1 v2 v3 v4 v5 v6 v7 v8 v9 v10 :
  table_ok t ->
  table_ok (snd (update_pessoa_stmt t pid v1 v2 v3 v4 v5 v6 v7 v8 v9 v10)).
Proof.
  intros Hok. pose proof Hok as (Hcpf & Hid & Hseq). unfold update_pessoa_stmt.
  destruct (List.filter _ (pessoas t)); [exact Hok|].
  destruct v1 as [n|]; [|exact Hok].
  destruct (cpf_clashes (pessoas t) (Some pid) v2) eqn:Hclash; [exact Hok|].
  unfold table_ok, set_pessoas. cbn [snd pessoas pessoas_seq].
  match goal with |- context [map ?f (pessoas t)] => set (upd := f) end.
  assert (Hupd_id : forall r, id (upd r) = id r)
    by (intros r; unfold upd; destruct (id r =? pid); reflexivity).
  assert (Hupd_cpf : forall r, cpf (upd r) = if id r =? pid then v2 else cpf r)
    by (intros r; unfold upd; destruct (id r =? pid); reflexivity).
  repeat split.
  - apply (NoDup_cpfs_updated upd pid v2); try assumption.
    intros r c Hr -> Hc. exact (cpf_clashes_false _ _ _ Hclash r Hr Hc).
  - rewrite map_same_ids by exact Hupd_id. exact Hid.
  - apply map_ids_bounded; assumption.
Qed.

(** The soft and the hard delete keep the invariant. *)
Lemma deactivate_pessoa_stmt_ok t pid :
  table_ok t -> table_ok (snd (deactivate_pessoa_stmt t pid)).
Proof.
  intros (Hcpf & Hid & Hseq).
  unfold deactivate_pessoa_stmt, table_ok, set_pessoas. cbn [snd pessoas pessoas_seq].
  match goal with |- context [map ?f (pessoas t)] => set (upd := f) end.
  assert (Hupd_id : forall r, id (upd r) = id r)
    by (intros r; unfold upd; destruct (id r =? pid); reflexivity).
  assert (Hupd_cpf : forall r, cpf (upd r) = cpf r)
    by (intros r; unfold upd; destruct (id r =? pid); reflexivity).
  repeat split.
  - rewrite map_same_cpfs by exact Hupd_cpf. exact Hcpf.
  - rewrite map_same_ids by exact Hupd_id. exact Hid.
  - apply map_ids_bounded; assumption.
Qed.

Lemma delete_pessoa_stmt_ok t pid :
  table_ok t -> table_ok (snd (delete_pessoa_stmt t pid)).
Proof.
  intros (Hcpf & Hid & Hseq).
  unfold delete_pessoa_stmt, table_ok, set_pessoas. cbn [snd pessoas pessoas_seq].
  repeat split;
    [apply filter_cpfs_NoDup | apply filter_ids_NoDup | apply filter_ids_bounded];
    assumption.
Qed.

(** Every method of the manager, of the service and of the controller
    keeps the invariant, whether it returns or raises. *)
Lemma manager_add_pessoa_ok m pessoa :
  table_ok (DatabaseManager.file m) ->
  table_ok (DatabaseManager.file (snd (DatabaseManager.add_pessoa m pessoa))).
Proof.
  intros H. unfold DatabaseManager.add_pessoa.
  match goal with |- context [insert_pessoa ?t ?a ?b ?c ?d ?e ?f ?g ?h ?i ?j] =>
    pose proof (insert_pessoa_ok t a b c d e f g h i j H) as Hok;
    destruct (insert_pessoa t a b c d e f g h i j) as [r t'] end.
  exact Hok.
Qed.

Lemma manager_add_pessoa_models_ok m pessoa now :
  table_ok (DatabaseManager.file m) ->
  table_ok (DatabaseManager.file (snd (DatabaseManager.add_pessoa_models m pessoa now))).
Proof.
  intros H. unfold DatabaseManager.add_pessoa_models.
  match goal with |- context [DatabaseManager.add_pessoa m ?p] =>
    pose proof (manager_add_pessoa_ok m p H) as Hok;
    destruct (DatabaseManager.add_pessoa m p) as [[pessoa_id|e] m'] end;
    exact Hok.
Qed.

Lemma manager_update_pessoa_ok m pessoa_id pessoa :
  table_ok (DatabaseManager.file m) ->
  table_ok (DatabaseManager.file
              (snd (DatabaseManager.update_pessoa m pessoa_id pessoa))).
Proof.
  intros H. unfold DatabaseManager.update_pessoa.
  match goal with |- context [update_pessoa_stmt ?t ?p ?a ?b ?c ?d ?e ?f ?g ?h ?i ?j] =>
    pose proof (update_pessoa_stmt_ok t p a b c d e f g h i j H) as Hok;
    destruct (update_pessoa_stmt t p a b c d e f g h i j) as [[affected|e'] t'] end;
    exact Hok.
Qed.

Lemma manager_delete_pessoa_ok m pessoa_id soft :
  table_ok (DatabaseManager.file m) ->
  table_ok (DatabaseManager.file
              (snd (DatabaseManager.delete_pessoa m pessoa_id soft))).
Proof.
  intros H. unfold DatabaseManager.delete_pessoa.
  destruct soft.
  - pose proof (deactivate_pessoa_stmt_ok _ pessoa_id H) as Hok.
    destruct (deactivate_pessoa_stmt _ pessoa_id). exact Hok.
  - pose proof (delete_pessoa_stmt_ok _ pessoa_id H) as Hok.
    destruct (delete_pessoa_stmt _ pessoa_id). exact Hok.
Qed.

Lemma step_ok s o :
  table_ok (DatabaseManager.file (PessoaService.db s)) ->
  table_ok (DatabaseManager.file (PessoaService.db (step s o))).
Proof.
  intros H. destruct o as [p now|pid p|pid soft|p pid now|pid|p|pid p|pid soft];
    cbn [step].
  - unfold PessoaService.add_pessoa.
    repeat match goal with |- context [if ?b then _ else _] => destruct b end;
      try exact H.
    pose proof (manager_add_pessoa_models_ok (PessoaService.db s) p now H) as Hok.
    destruct (DatabaseManager.add_pessoa_models _ _ _). exact Hok.
  - unfold PessoaService.update_pessoa.
    repeat match goal with |- context [if ?b then _ else _] => destruct b end;
      try exact H.
    pose proof (manager_update_pessoa_ok (PessoaService.db s) pid p H) as Hok.
    destruct (DatabaseManager.update_pessoa _ _ _). exact Hok.
  - unfold PessoaService.delete_pessoa.
    pose proof (manager_delete_pessoa_ok (PessoaService.db s) pid soft H) as Hok.
    destruct (DatabaseManager.delete_pessoa _ _ _). exact Hok.
  - unfold AppController.salvar_pessoa.
    destruct (_ && _); [exact H|].
    destruct (DatabaseManager.truthy_id pid) as [i|].
    + match goal with |- context [DatabaseManager.update_pessoa ?m ?i ?q] =>
        pose proof (manager_update_pessoa_ok m i q H) as Hok;
        destruct (DatabaseManager.update_pessoa m i q) as [[[]|e] m'] end;
        exact Hok.
    + match goal with |- context [DatabaseManager.add_pessoa ?m ?q] =>
        pose proof (manager_add_pessoa_ok m q H) as Hok;
        destruct (DatabaseManager.add_pessoa m q) as [[new_id|e] m'] end;
        exact Hok.
  - unfold AppController.excluir_pessoa.
    pose proof (manager_delete_pessoa_ok (PessoaService.db s) pid true H) as Hok.
    destruct (DatabaseManager.delete_pessoa _ _ _) as [[[]|e] m']; exact Hok.
  - apply manager_add_pessoa_ok, H.
  - apply manager_update_pessoa_ok, H.
  - apply manager_delete_pessoa_ok, H.
Qed.

Lemma reachable_ok s :
  reachable s -> table_ok (DatabaseManager.file (PessoaService.db s)).
Proof.
  induction 1 as [|s o _ IH]; [apply table_ok_empty | apply step_ok, IH].
Qed.

(** In a list without repeated keys, two positions with the same key are
    the same position. *)
Lemma NoDup_omap_lookup {A B} (f : A -> option B) (l : list A) i j x y k :
  NoDup (omap f l) -> l !! i = Some x -> l !! j = Some y ->
  f x = Some k -> f y = Some k -> i = j.
Proof.
  revert i j. induction l as [|a l IH]; intros i j Hnd Hi Hj Hx Hy;
    [discriminate Hi|].
  assert (Htl : NoDup (omap f l)).
  { cbn in Hnd. destruct (f a); [apply NoDup_cons in Hnd as [_ Hnd]|]; exact Hnd. }
  assert (Hhd : forall z, z ∈ l -> f a = Some k -> f z = Some k -> False).
  { intros z Hz Ha Hfz. cbn in Hnd. rewrite Ha in Hnd.
    apply NoDup_cons in Hnd as [Hnot _]. apply Hnot.
    apply list_elem_of_omap. eauto. }
  destruct i as [|i], j as [|j]; cbn in Hi, Hj.
  - reflexivity.
  - injection Hi as ->. exfalso.
    exact (Hhd y (list_elem_of_lookup_2 _ _ _ Hj) Hx Hy).
  - injection Hj as ->. exfalso.
    exact (Hhd x (list_elem_of_lookup_2 _ _ _ Hi) Hy Hx).
  - f_equal. exact (IH i j Htl Hi Hj Hx Hy).
Qed.

(** What the UNIQUE column keeps.  In every state reached from the empty
    schema by a sequence of add, update and delete calls (soft or hard;
    through the service, the controller or the manager), two different
    person records never hold the same text in [cpf]. *)
Lemma active_documents_unique (s : PessoaService.service) (i j : nat)
  (r1 r2 : pessoa_row) (c : string) :
  reachable s ->
  rows s !! i = Some r1 -> rows s !! j = Some r2 -> i <> j ->
  ativo r1 = true -> ativo r2 = true ->
  cpf r1 = Some c -> c <> ""%string ->
  cpf r2 <> Some c.
Proof.
  intros Hreach Hi Hj Hij _ _ H1 _ H2.
  apply reachable_ok in Hreach as (Hcpf & _ & _).
  apply Hij. exact (NoDup_omap_lookup cpf _ i j r1 r2 c Hcpf Hi Hj H1 H2).
Qed.

(** Ana (111.444.777-35) and Bia (529.982.247-25), both active. *)
Lemma active_documents_unique_witness :
  exists s r2,
    reachable s /\ rows s !! 1%nat = Some r2 /\ cpf r2 <> Some "11144477735"%string.
Proof.
  set (ana := <["nome" := "Ana Silva"%string]>
                (<["cpf" := "111.444.777-35"%string]> (∅ : gmap string string))).
  set (bia := <["nome" := "Bia Souza"%string]>
                (<["cpf" := "529.982.247-25"%string]> (∅ : gmap string string))).
  set (s := step (step initial (ServiceAdd ana "01/01/2024 10:00:00"))
                 (ServiceAdd bia "02/01/2024 10:00:00")).
  assert (Hreach : reachable s) by (do 2 apply reachable_step; apply reachable_initial).
  eexists s, _. split; [exact Hreach|]. split; [vm_compute; reflexivity|].
  eapply (active_documents_unique s 0 1 _ _ "11144477735" Hreach).
  - vm_compute; reflexivity.
  - vm_compute; reflexivity.
  - discriminate.
  - reflexivity.
  - reflexivity.
  - reflexivity.
  - discriminate.
Defined.

Lemma count_occ_str_NoDup (l : list string) (x : string) :
  NoDup l -> (count_occ_str l x <= 1)%nat.
Proof.
  induction 1 as [|y l Hnot _ IH]; cbn; [lia|].
  destruct (String.eqb_spec y x) as [->|_]; [|exact IH].
  assert (count_occ_str l x = 0%nat); [|lia].
  clear IH. induction l as [|z l IHl]; [reflexivity|]. cbn.
  destruct (String.eqb_spec z x) as [->|_].
  - exfalso. apply Hnot. left.
  - apply IHl. intros Hin. apply Hnot. right. exact Hin.
Qed.

Lemma active_cpfs_sublist t : active_cpfs t `sublist_of` omap cpf (pessoas t).
Proof.
  unfold active_cpfs. induction (pessoas t) as [|r l IH]; [constructor|].
  rewrite omap_cpf_cons. cbn [omap list_omap].
  destruct (cpf r) as [c|]; [|exact IH].
  destruct (ativo r && truthy c); constructor; exact IH.
Qed.

(** The integrity check of the code itself, [get_duplicate_cpfs], finds
    nothing in a reachable state. *)
Lemma get_duplicate_cpfs_empty (s : PessoaService.service) :
  reachable s -> PessoaService.get_duplicate_cpfs s = [].
Proof.
  intros Hreach. apply reachable_ok in Hreach as (Hcpf & _ & _).
  unfold PessoaService.get_duplicate_cpfs, select_duplicate_cpfs.
  set (t := DatabaseManager.file (PessoaService.db s)) in *.
  assert (Hnd : NoDup (active_cpfs t))
    by (eapply sublist_NoDup; [exact Hcpf | apply active_cpfs_sublist]).
  induction (dedup_str (active_cpfs t)) as [|c l IH]; [reflexivity|].
  cbn [List.filter].
  pose proof (count_occ_str_NoDup _ c Hnd) as Hc.
  destruct (Nat.ltb_spec 1 (count_occ_str (active_cpfs t) c)); [lia|exact IH].
Qed.

End PessoaInvariant.

(* ================================================================== *)
(** * The person records: stored document numbers are normalised *)
(* ================================================================== *)

Section StoredNormalised.

Import Py Sqlite Writes.

Lemma insert_pessoa_cpfs t v1 v2 v3 v4 v5 v6 v7 v8 v9 v10 :
  Forall normal (omap cpf (pessoas t)) ->
  (forall c, v2 = Some c -> normal c) ->
  Forall normal (omap cpf (pessoas (snd (insert_pessoa t v1 v2 v3 v4 v5 v6 v7 v8 v9 v10)))).
Proof.
  intros H Hv. unfold insert_pessoa.
  destruct v1; [|exact H]. destruct v10; [|exact H].
  destruct (cpf_clashes _ _ _); [exact H|].
  unfold set_pessoas. cbn [snd pessoas].
  rewrite omap_app. apply Forall_app. split; [exact H|].
  cbn. destruct v2 as [c|]; constructor; [auto|constructor].
Qed.

Lemma update_pessoa_stmt_cpfs t pid v1 v2 v3 v4 v5 v6 v7 v8 v9 v10 :
  Forall normal (omap cpf (pessoas t)) ->
  (forall c, v2 = Some c -> normal c) ->
  Forall normal
    (omap cpf (pessoas (snd (update_pessoa_stmt t pid v1 v2 v3 v4 v5 v6 v7 v8 v9 v10)))).
Proof.
  intros H Hv. unfold update_pessoa_stmt.
  destruct (List.filter _ _); [exact H|].
  destruct v1; [|exact H].
  destruct (cpf_clashes _ _ _); [exact H|].
  unfold set_pessoas. cbn [snd pessoas].
  match goal with |- context [map ?f (pessoas t)] => set (upd := f) end.
  apply Forall_forall. intros c Hc.
  apply (elem_of_cpfs_updated upd pid v2) in Hc as [Hc|[Hc _]].
  - rewrite Forall_forall in H. exact (H c Hc).
  - exact (Hv c Hc).
  - intros r. unfold upd. destruct (id r =? pid); reflexivity.
Qed.

Lemma filter_cpfs_sublist (p : pessoa_row -> bool) (l : list pessoa_row) :
  omap cpf (List.filter p l) `sublist_of` omap cpf l.
Proof.
  induction l as [|r l IH]; [constructor|].
  cbn [List.filter].
  destruct (p r); rewrite ?omap_cpf_cons;
    destruct (cpf r); try (constructor; exact IH); exact IH.
Qed.

Lemma delete_pessoa_cpfs m pessoa_id soft :
  Forall normal (omap cpf (pessoas (DatabaseManager.file m))) ->
  Forall normal
    (omap cpf (pessoas (DatabaseManager.file
                          (snd (DatabaseManager.delete_pessoa m pessoa_id soft))))).
Proof.
  intros H. unfold DatabaseManager.delete_pessoa. destruct soft.
  - unfold deactivate_pessoa_stmt, set_pessoas. cbn [snd DatabaseManager.file DatabaseManager.with_file pessoas].
    rewrite map_same_cpfs; [exact H|].
    intros r. destruct (id r =? pessoa_id); reflexivity.
  - unfold delete_pessoa_stmt, set_pessoas. cbn [snd DatabaseManager.file DatabaseManager.with_file pessoas].
    apply Forall_forall. intros c Hc. rewrite Forall_forall in H. apply H.
    exact (elem_of_sublist _ _ c Hc (filter_cpfs_sublist _ _)).
Qed.

Lemma normal_normalize x : normal (Utils.normalize_cpf x).
Proof. apply normalize_cpf_idempotent. Qed.

(** The add of the service, the save of the controller and the deletes
    keep the stored document numbers normalised. *)
Lemma step_stored_normalised s o :
  normalises o = true -> stored_normalised s -> stored_normalised (step s o).
Proof.
  unfold stored_normalised, rows.
  destruct o as [p now|pid p|pid soft|p pid now|pid|p|pid p|pid soft];
    try discriminate; intros _ H; cbn [step].
  - unfold PessoaService.add_pessoa.
    repeat match goal with |- context [if ?b then _ else _] => destruct b end;
      try exact H.
    unfold DatabaseManager.add_pessoa_models.
    match goal with |- context [DatabaseManager.add_pessoa _ ?q] => set (prepared := q) end.
    assert (Hcpf : forall c, prepared !! "cpf" = Some c -> normal c).
    { unfold prepared. rewrite !lookup_insert_ne by discriminate.
      rewrite lookup_insert_eq. intros c [= <-]. apply normal_normalize. }
    unfold DatabaseManager.add_pessoa.
    match goal with |- context [insert_pessoa ?t ?a ?b ?c ?d ?e ?f ?g ?h ?i ?j] =>
      pose proof (insert_pessoa_cpfs t a b c d e f g h i j H Hcpf) as Hok;
      destruct (insert_pessoa t a b c d e f g h i j) as [[new_id|e'] t'] end;
      exact Hok.
  - unfold PessoaService.delete_pessoa.
    pose proof (delete_pessoa_cpfs (PessoaService.db s) pid soft H) as Hok.
    destruct (DatabaseManager.delete_pessoa _ _ _). exact Hok.
  - unfold AppController.salvar_pessoa.
    destruct (_ && _); [exact H|].
    destruct (DatabaseManager.truthy_id pid) as [i|].
    + match goal with |- context [DatabaseManager.update_pessoa _ _ ?q] => set (prepared := q) end.
      assert (Hcpf : forall c, prepared !! "cpf" = Some c -> normal c).
      { unfold prepared. rewrite !lookup_insert_ne by discriminate.
        rewrite lookup_insert_eq. intros c [= <-]. apply normal_normalize. }
      unfold DatabaseManager.update_pessoa.
      match goal with |- context [update_pessoa_stmt ?t ?k ?a ?b ?c ?d ?e ?f ?g ?h ?i ?j] =>
        pose proof (update_pessoa_stmt_cpfs t k a b c d e f g h i j H Hcpf) as Hok;
        destruct (update_pessoa_stmt t k a b c d e f g h i j) as [[affected|e'] t'] end;
        [destruct (0 <? affected)|]; exact Hok.
    + match goal with |- context [DatabaseManager.add_pessoa _ ?q] => set (prepared := q) end.
      assert (Hcpf : forall c, prepared !! "cpf" = Some c -> normal c).
      { unfold prepared. rewrite !lookup_insert_ne by discriminate.
        rewrite lookup_insert_eq. intros c [= <-]. apply normal_normalize. }
      unfold DatabaseManager.add_pessoa.
      match goal with |- context [insert_pessoa ?t ?a ?b ?c ?d ?e ?f ?g ?h ?i ?j] =>
        pose proof (insert_pessoa_cpfs t a b c d e f g h i j H Hcpf) as Hok;
        destruct (insert_pessoa t a b c d e f g h i j) as [[new_id|e'] t'] end;
        exact Hok.
  - unfold AppController.excluir_pessoa.
    pose proof (delete_pessoa_cpfs (PessoaService.db s) pid true H) as Hok.
    destruct (DatabaseManager.delete_pessoa _ _ _) as [[[]|e] m']; exact Hok.
  - apply delete_pessoa_cpfs, H.
Qed.

(** Where the stored numbers are normalised, two different active records
    do not even agree after normalisation. *)
Lemma active_normalised_documents_unique (s : PessoaService.service) (i j : nat)
  (r1 r2 : pessoa_row) (c1 c2 : string) :
  reachable s -> stored_normalised s ->
  rows s !! i = Some r1 -> rows s !! j = Some r2 -> i <> j ->
  cpf r1 = Some c1 -> cpf r2 = Some c2 ->
  Utils.normalize_cpf c1 <> Utils.normalize_cpf c2.
Proof.
  intros Hreach Hnorm Hi Hj Hij H1 H2 Heq.
  unfold stored_normalised in Hnorm. rewrite Forall_forall in Hnorm.
  assert (Hc1 : normal c1)
    by (apply Hnorm, elem_of_omap_cpf; eauto using list_elem_of_lookup_2).
  assert (Hc2 : normal c2)
    by (apply Hnorm, elem_of_omap_cpf; eauto using list_elem_of_lookup_2).
  unfold normal in Hc1, Hc2. rewrite Hc1, Hc2 in Heq. subst c2.
  apply reachable_ok in Hreach as (Hcpf & _ & _).
  apply Hij. exact (NoDup_omap_lookup cpf _ i j r1 r2 c1 Hcpf Hi Hj H1 H2).
Qed.


End StoredNormalised.

(* ================================================================== *)
(** * Adding records: the checks of the service layer *)
(* ================================================================== *)

Section AddChecks.

Import Py Sqlite Writes.

Lemma truthy_nonempty s : truthy s = true <-> s <> ""%string.
Proof. destruct s; cbn; split; congruence. Qed.

(** The duplicate check on a normalised, non-empty document number looks
    at every row, active or not. *)
Lemma service_cpf_exists_spec (s : PessoaService.service) (c : string) :
  Utils.normalize_cpf c = c -> c <> ""%string ->
  PessoaService.cpf_exists s c None = cpf_clashes (rows s) None (Some c).
Proof.
  intros Hnorm Hc. unfold PessoaService.cpf_exists. rewrite Hnorm.
  apply truthy_nonempty in Hc. rewrite Hc. reflexivity.
Qed.




Lemma add_pessoa_duplicate_document s pessoa now :
  let c := Utils.normalize_cpf (default ""%string (pessoa !! "cpf")) in
  truthy_opt (pessoa !! "nome") = true ->
  c <> ""%string -> Utils.validate_cpf c = true ->
  (exists r, r ∈ rows s /\ cpf r = Some c) ->
  PessoaService.add_pessoa s pessoa now = (Raise (ValueError CpfJaCadastrado), s).
Proof.
  intros c Hn Hc Hv (r & Hr & Hrc). unfold PessoaService.add_pessoa.
  rewrite Hn. cbn [negb]. fold c.
  rewrite (service_cpf_exists_spec s c (normalize_cpf_idempotent _) Hc).
  apply truthy_nonempty in Hc. rewrite Hc, Hv. cbn [negb andb].
  rewrite (cpf_clashes_true (rows s) None c r Hr Hrc I). reflexivity.
Qed.

Lemma cpf_clashes_fresh (l : list pessoa_row) (c : string) :
  (forall r, r ∈ l -> cpf r <> Some c) -> cpf_clashes l None (Some c) = false.
Proof.
  intros H. unfold cpf_clashes.
  destruct (existsb _ l) eqn:E; [exfalso|reflexivity].
  apply existsb_exists in E as (r & Hr & Hb).
  apply andb_prop in Hb as [Hb _]. apply opt_eqb_Some in Hb.
  exact (H r (proj2 (list_elem_of_In _ _) Hr) Hb).
Qed.

(** With a name, a valid non-empty document number and no row that holds
    it, the add inserts an active row with the normalised number under the
    next key. *)
Lemma add_pessoa_fresh_document s pessoa now :
  let c := Utils.normalize_cpf (default ""%string (pessoa !! "cpf")) in
  truthy_opt (pessoa !! "nome") = true ->
  c <> ""%string -> Utils.validate_cpf c = true ->
  (forall r, r ∈ rows s -> cpf r <> Some c) ->
  exists s' row,
    PessoaService.add_pessoa s pessoa now
    = (Return (pessoas_seq (DatabaseManager.file (PessoaService.db s)) + 1), s')
    /\ rows s' = (rows s ++ [row])%list
    /\ id row = pessoas_seq (DatabaseManager.file (PessoaService.db s)) + 1
    /\ cpf row = Some c /\ ativo row = true.
Proof.
  intros c Hn Hc Hv Hfresh. unfold PessoaService.add_pessoa.
  rewrite Hn. cbn [negb]. fold c.
  rewrite (service_cpf_exists_spec s c (normalize_cpf_idempotent _) Hc).
  rewrite (cpf_clashes_fresh _ _ Hfresh).
  apply truthy_nonempty in Hc. rewrite Hc, Hv. cbn [negb andb].
  unfold DatabaseManager.add_pessoa_models. fold c.
  match goal with |- context [DatabaseManager.add_pessoa _ ?p] => set (prepared := p) end.
  assert (Hp_nome : prepared !! "nome" = pessoa !! "nome")
    by (unfold prepared; rewrite !lookup_insert_ne by discriminate; reflexivity).
  assert (Hp_cpf : prepared !! "cpf" = Some c).
  { unfold prepared. rewrite !lookup_insert_ne by discriminate.
    apply lookup_insert_eq. }
  assert (Hp_cad : prepared !! "data_cadastro" = Some now)
    by (unfold prepared; apply lookup_insert_eq).
  unfold DatabaseManager.add_pessoa, insert_pessoa.
  rewrite Hp_nome, Hp_cpf, Hp_cad.
  destruct (pessoa !! "nome") as [n|] eqn:En; [|discriminate Hn].
  change (pessoas (DatabaseManager.file (PessoaService.db s))) with (rows s).
  rewrite (cpf_clashes_fresh _ _ Hfresh).
  eexists _, _. split; [reflexivity|]. cbn. auto.
Qed.

(** C2, as the code has it.  Called with a name and a valid, non-empty
    document number, [add_pessoa] raises the duplicate-document error, and
    leaves the database as it was, when some record stores that number,
    be the record active or soft-deleted; when no record stores it, the add
    returns a new key and the record is stored active. *)
Theorem add_pessoa_document_taken_or_free (s : PessoaService.service)
  (pessoa : gmap string string) (now : string) :
  let c := Utils.normalize_cpf (default ""%string (pessoa !! "cpf")) in
  truthy_opt (pessoa !! "nome") = true ->
  c <> ""%string -> Utils.validate_cpf c = true ->
  ((exists r, r ∈ rows s /\ cpf r = Some c) ->
   PessoaService.add_pessoa s pessoa now = (Raise (ValueError CpfJaCadastrado), s))
  /\ ((forall r, r ∈ rows s -> cpf r <> Some c) ->
      exists s' row,
        PessoaService.add_pessoa s pessoa now
        = (Return (pessoas_seq (DatabaseManager.file (PessoaService.db s)) + 1), s')
        /\ rows s' = (rows s ++ [row])%list
        /\ id row = pessoas_seq (DatabaseManager.file (PessoaService.db s)) + 1
        /\ cpf row = Some c /\ ativo row = true).
Proof.
  intros c Hn Hc Hv. split.
  - apply add_pessoa_duplicate_document; assumption.
  - apply add_pessoa_fresh_document; assumption.
Qed.

(** Ana re-registered beside herself: the first branch at a stored
    document number. *)
Lemma add_pessoa_document_taken_or_free_witness :
  exists s,
    PessoaService.add_pessoa s
      (<["nome" := "Ana Silva"%string]>
         (<["cpf" := "111.444.777-35"%string]> (∅ : gmap string string)))
      "02/01/2024 10:00:00"
    = (Raise (ValueError CpfJaCadastrado), s).
Proof.
  set (ana := <["nome" := "Ana Silva"%string]>
                (<["cpf" := "111.444.777-35"%string]> (∅ : gmap string string))).
  set (s := step initial (ServiceAdd ana "01/01/2024 10:00:00")).
  exists s.
  refine (proj1 (add_pessoa_document_taken_or_free s ana "02/01/2024 10:00:00"
                   _ _ _) _).
  - reflexivity.
  - vm_compute. discriminate.
  - vm_compute. reflexivity.
  - eexists. split.
    + apply list_elem_of_lookup. exists 0%nat. vm_compute. reflexivity.
    + vm_compute. reflexivity.
Defined.

(** C2 as stated fails: after Ana is added and soft-deleted, hers is the
    only record with the number 111.444.777-35 and it is inactive, yet
    adding a person with that number raises the duplicate-document
    error. *)
Lemma soft_deleted_document_blocks_add :
  exists s,
    reachable s
    /\ map (fun r => (cpf r, ativo r)) (rows s) = [(Some "11144477735"%string, false)]
    /\ fst (PessoaService.add_pessoa s
              (<["nome" := "Bia Souza"%string]>
                 (<["cpf" := "111.444.777-35"%string]> (∅ : gmap string string)))
              "02/01/2024 10:00:00")
       = Raise (ValueError CpfJaCadastrado).
Proof.
  set (ana := <["nome" := "Ana Silva"%string]>
                (<["cpf" := "111.444.777-35"%string]> (∅ : gmap string string))).
  exists (step (step initial (ServiceAdd ana "01/01/2024 10:00:00"))
               (ServiceDelete 1 true)).
  split; [do 2 apply reachable_step; apply reachable_initial|].
  split; vm_compute; reflexivity.
Qed.

(** The UNIQUE column counts the empty text as a value: once a person
    without a document number is stored, the add of a second one fails in
    the database. *)
Example second_person_without_document :
  fst (PessoaService.add_pessoa
         (step initial
            (ServiceAdd (<["nome" := "Ana Silva"%string]> (∅ : gmap string string))
                        "01/01/2024 10:00:00"))
         (<["nome" := "Bia Souza"%string]> (∅ : gmap string string))
         "02/01/2024 10:00:00")
  = Raise (IntegrityError (Unique "pessoas.cpf")).
Proof. vm_compute. reflexivity. Qed.






End AddChecks.

(* ================================================================== *)
(** * The cache of [search_pessoas] *)
(* ================================================================== *)

Section SearchCache.

Import Py Sqlite Writes.

(** An unhashable argument stops the call in the wrapper: the wrapped
    function is not run and the cache is left as it was. *)
Lemma cached_call_unhashable {K V} `{EqDecision K} maxsize (hashable : K -> bool)
  (body : K -> V) (c : Functools.lru) (k : K) :
  hashable k = false ->
  Functools.cached_call maxsize hashable body c k = (Raise TypeError, c).
Proof. intros H. unfold Functools.cached_call. rewrite H. reflexivity. Qed.

Lemma cached_call_returns {K V} `{EqDecision K} maxsize (hashable : K -> bool)
  (body : K -> V) (c : Functools.lru) (k : K) :
  hashable k = true ->
  exists v c', Functools.cached_call maxsize hashable body c k = (Return v, c').
Proof.
  intros H. unfold Functools.cached_call. rewrite H. cbn [negb].
  destruct (Functools.cache_get k c); eauto.
Qed.

Lemma cache_get_after_call {K V} `{EqDecision K} maxsize (hashable : K -> bool)
  (body : K -> V) (c : Functools.lru) (k : K) v c' :
  (0 < maxsize)%nat ->
  Functools.cached_call maxsize hashable body c k = (Return v, c') ->
  Functools.cache_get k c' = Some v.
Proof.
  intros Hmax. unfold Functools.cached_call.
  destruct (negb (hashable k)); [discriminate|].
  destruct (Functools.cache_get k c) as [v0|].
  - intros [= <- <-]. cbn. destruct (decide (k = k)); congruence.
  - intros [= <- <-]. destruct maxsize; [lia|].
    cbn. destruct (decide (k = k)); congruence.
Qed.

(** No write to the person records touches the cache of
    [search_pessoas]. *)
Lemma step_keeps_search_cache s o :
  PessoaService.search_pessoas_cache (step s o) = PessoaService.search_pessoas_cache s.
Proof.
  destruct o; cbn [step]; try reflexivity.
  - unfold PessoaService.add_pessoa.
    repeat match goal with |- context [if ?b then _ else _] => destruct b end;
      try reflexivity.
    destruct (DatabaseManager.add_pessoa_models _ _ _); reflexivity.
  - unfold PessoaService.update_pessoa.
    repeat match goal with |- context [if ?b then _ else _] => destruct b end;
      try reflexivity.
    destruct (DatabaseManager.update_pessoa _ _ _); reflexivity.
  - unfold PessoaService.delete_pessoa.
    destruct (DatabaseManager.delete_pessoa _ _ _); reflexivity.
Qed.

(** A search, any write, the same search again: the second call answers
    from the cache with the rows of the first. *)
Lemma search_pessoas_repeats_first_answer s only_active o :
  fst (PessoaService.search_pessoas
         (step (snd (PessoaService.search_pessoas s PessoaService.FNone only_active)) o)
         PessoaService.FNone only_active)
  = fst (PessoaService.search_pessoas s PessoaService.FNone only_active).
Proof.
  unfold PessoaService.search_pessoas at 2 3.
  destruct (Functools.cached_call 128 PessoaService.hashable
              (PessoaService.search_pessoas_body (PessoaService.db s))
              (PessoaService.search_pessoas_cache s)
              (PessoaService.FNone, only_active)) as [r c] eqn:E.
  cbn [fst snd].
  destruct (cached_call_returns 128 PessoaService.hashable
              (PessoaService.search_pessoas_body (PessoaService.db s))
              (PessoaService.search_pessoas_cache s)
              (PessoaService.FNone, only_active) eq_refl) as (v & c' & E').
  rewrite E in E'. injection E' as -> ->.
  apply cache_get_after_call in E; [|lia].
  unfold PessoaService.search_pessoas.
  rewrite step_keeps_search_cache. cbn [PessoaService.search_pessoas_cache].
  unfold Functools.cached_call. cbn [negb PessoaService.hashable fst].
  rewrite E. reflexivity.
Qed.

(** C3 fails on the code.  Ana is added and a search without filters
    returns her row; she is soft-deleted; the same search still returns her
    row, while the query run on the database now returns nothing. *)
Theorem search_pessoas_stale_after_delete :
  let ana := <["nome" := "Ana Silva"%string]>
               (<["cpf" := "111.444.777-35"%string]> (∅ : gmap string string)) in
  let s1 := step initial (ServiceAdd ana "01/01/2024 10:00:00") in
  let first := PessoaService.search_pessoas s1 PessoaService.FNone true in
  let s3 := step (snd first) (ServiceDelete 1 true) in
  let second := PessoaService.search_pessoas s3 PessoaService.FNone true in
  fst second = fst first
  /\ (exists row, fst second = Return [row] /\ id row = 1 /\ ativo row = true)
  /\ rows s3 <> []
  /\ PessoaService.search_pessoas_body (PessoaService.db s3) (PessoaService.FNone, true)
     = [].
Proof.
  cbv zeta. split; [vm_compute; reflexivity|].
  split; [eexists; split; [vm_compute; reflexivity|split; reflexivity]|].
  split; [vm_compute; discriminate | vm_compute; reflexivity].
Qed.

(** C10.  Called with a dictionary for [filters], empty or not,
    [search_pessoas] raises [TypeError] in the cache wrapper: whatever the
    wrapped function is, it is not run, and the service is left as it was.
    A call that returns rows was made with [filters=None], and every call
    with [filters=None] returns. *)
Theorem search_pessoas_dict_raises_TypeError (s : PessoaService.service)
  (d : gmap string string) (only_active : bool) :
  PessoaService.search_pessoas s (PessoaService.FDict d) only_active
  = (Raise TypeError, s)
  /\ (forall body : PessoaService.filters_arg * bool -> list pessoa_row,
        Functools.cached_call 128 PessoaService.hashable body
          (PessoaService.search_pessoas_cache s) (PessoaService.FDict d, only_active)
        = (Raise TypeError, PessoaService.search_pessoas_cache s))
  /\ (forall filters found s',
        PessoaService.search_pessoas s filters only_active = (Return found, s') ->
        filters = PessoaService.FNone)
  /\ (exists found s',
        PessoaService.search_pessoas s PessoaService.FNone only_active
        = (Return found, s')).
Proof.
  split; [|split; [|split]].
  - unfold PessoaService.search_pessoas.
    rewrite cached_call_unhashable by reflexivity. destruct s; reflexivity.
  - intros body. apply cached_call_unhashable. reflexivity.
  - intros [|d'] found s' H; [reflexivity|exfalso].
    unfold PessoaService.search_pessoas in H.
    rewrite cached_call_unhashable in H by reflexivity. discriminate H.
  - unfold PessoaService.search_pessoas.
    destruct (cached_call_returns 128 PessoaService.hashable
                (PessoaService.search_pessoas_body (PessoaService.db s))
                (PessoaService.search_pessoas_cache s)
                (PessoaService.FNone, only_active) eq_refl) as (v & c' & ->).
    eauto.
Qed.

(** A search by name on the new service. *)
Lemma search_pessoas_dict_raises_TypeError_witness :
  PessoaService.search_pessoas initial
    (PessoaService.FDict (<["nome" := "Ana"%string]> ∅)) true
  = (Raise TypeError, initial).
Proof.
  exact (proj1 (search_pessoas_dict_raises_TypeError initial
                  (<["nome" := "Ana"%string]> ∅) true)).
Defined.

End SearchCache.

(* ================================================================== *)
(** * Backups *)
(* ================================================================== *)

Section Backup.

Import DatabaseManager.

(** [should_backup] is true exactly when the instance has no time of a
    last backup, or at least the configured hours have passed since. *)
Lemma should_backup_spec m now :
  should_backup m now = true
  <-> _last_backup m = None
      \/ exists t, _last_backup m = Some t
                   /\ Config.AUTO_BACKUP_INTERVAL * 3600 * 1000000 <= now - t.
Proof.
  unfold should_backup. destruct (_last_backup m) as [t|].
  - rewrite Z.leb_le. split; [eauto|].
    intros [H|(t' & [= <-] & H)]; [discriminate H | exact H].
  - split; auto.
Qed.

(** [create_backup] writes the time into [config] but leaves the
    attribute [should_backup] reads as it was. *)
Lemma create_backup_keeps_last_backup m now :
  _last_backup (snd (create_backup m now)) = _last_backup m
  /\ _get_last_backup_time (snd (create_backup m now)) = Some now.
Proof.
  split; [reflexivity|].
  unfold _get_last_backup_time, _get_config, create_backup, _set_config.
  cbn. rewrite lookup_insert_eq. reflexivity.
Qed.

Lemma should_backup_after_create_backup m now now' :
  should_backup (snd (create_backup m now)) now' = should_backup m now'.
Proof. reflexivity. Qed.

(** C4 fails on the code.  On a manager opened on a new database,
    [create_backup] followed at once by [should_backup] gives true, though
    the time just written to [config] is the present one; a manager opened
    anew on the same file answers false. *)
Theorem should_backup_true_after_create_backup :
  let now := 1762250000000000 in
  let m0 := init Sqlite.empty_schema [] in
  let m1 := snd (create_backup m0 now) in
  should_backup m1 now = true
  /\ _get_last_backup_time m1 = Some now
  /\ should_backup (init (file m1) (backup_dir m1)) now = false.
Proof. cbv zeta. repeat split; vm_compute; reflexivity. Qed.

End Backup.

(* ================================================================== *)
(** * The ledger *)
(* ================================================================== *)

Section LedgerInvariant.

Import Py Datetime Spec Finance.

(** A binary64 value that is neither below or equal to zero nor a NaN is
    above zero. *)
Lemma float_positive (a : float) :
  PrimFloat.leb a 0%float = false -> PrimFloat.is_nan a = false ->
  PrimFloat.ltb 0%float a = true.
Proof.
  unfold PrimFloat.is_nan.
  rewrite (FloatAxioms.leb_spec a 0%float), (FloatAxioms.ltb_spec 0%float a),
    (FloatAxioms.eqb_spec a a).
  change (Prim2SF 0%float) with (S754_zero false).
  destruct (Prim2SF a) as [ [] | [] | | [] m e ]; simpl;
    try discriminate; try reflexivity.
Qed.

Lemma char_of_int_of_char c : isdecimal c = true -> char_of_digit (int_of_char c) = c.
Proof.
  intros H.
  destruct (isdecimal_cases c H) as [->|[->|[->|[->|[->|[->|[->|[->|[->| ->]]]]]]]]];
    reflexivity.
Qed.

Lemma div_mod_10 q d : 0 <= d <= 9 -> (10 * q + d) / 10 = q /\ (10 * q + d) mod 10 = d.
Proof.
  intros H. split.
  - symmetry. apply (Z.div_unique (10 * q + d) 10 q d); lia.
  - symmetry. apply (Z.mod_unique (10 * q + d) 10 q d); lia.
Qed.

Lemma zero_padded_2 c1 c2 :
  isdecimal c1 = true -> isdecimal c2 = true ->
  zero_padded 2 (int_of_digits (String c1 (String c2 ""))) = String c1 (String c2 "").
Proof.
  intros H1 H2.
  pose proof (isdecimal_range c1 H1). pose proof (isdecimal_range c2 H2).
  unfold int_of_digits. cbn [int_of_digits_acc zero_padded].
  destruct (div_mod_10 (10 * 0 + int_of_char c1) (int_of_char c2)) as [-> ->]; [lia|].
  destruct (div_mod_10 0 (int_of_char c1)) as [_ ->]; [lia|].
  rewrite !char_of_int_of_char by assumption. reflexivity.
Qed.

Lemma zero_padded_4 c1 c2 c3 c4 :
  isdecimal c1 = true -> isdecimal c2 = true ->
  isdecimal c3 = true -> isdecimal c4 = true ->
  zero_padded 4 (int_of_digits (String c1 (String c2 (String c3 (String c4 "")))))
  = String c1 (String c2 (String c3 (String c4 ""))).
Proof.
  intros H1 H2 H3 H4.
  pose proof (isdecimal_range c1 H1). pose proof (isdecimal_range c2 H2).
  pose proof (isdecimal_range c3 H3). pose proof (isdecimal_range c4 H4).
  unfold int_of_digits. cbn [int_of_digits_acc zero_padded].
  destruct (div_mod_10 (10 * (10 * (10 * 0 + int_of_char c1) + int_of_char c2)
                        + int_of_char c3) (int_of_char c4)) as [-> ->]; [lia|].
  destruct (div_mod_10 (10 * (10 * 0 + int_of_char c1) + int_of_char c2)
                       (int_of_char c3)) as [-> ->]; [lia|].
  destruct (div_mod_10 (10 * 0 + int_of_char c1) (int_of_char c2)) as [-> ->]; [lia|].
  destruct (div_mod_10 0 (int_of_char c1)) as [_ ->]; [lia|].
  rewrite !char_of_int_of_char by assumption. reflexivity.
Qed.

(** From the year 1000 on, and on a C library that pads, [%Y] is the
    year in four digits. *)
Lemma strftime_Y_four_digits pad y :
  pad = Padded \/ 1000 <= y -> strftime_Y pad y = zero_padded 4 y.
Proof.
  intros [->|Hy]; [reflexivity|].
  destruct pad; [|reflexivity]. unfold strftime_Y.
  destruct (Z.ltb_spec y 10); [lia|].
  destruct (Z.ltb_spec y 100); [lia|].
  destruct (Z.ltb_spec y 1000); [lia|reflexivity].
Qed.

(** On a date of the form DD/MM/YYYY, printing the month and year of the
    parsed date gives back characters 4 to 10 of the text, where the year
    is printed in four digits. *)
Lemma strftime_strptime_component pad s dt :
  is_DDMMYYYY s = true -> strptime s = Some dt ->
  pad = Padded \/ 1000 <= year dt ->
  strftime_mY pad dt = month_year_component s.
Proof.
  intros Hs Hdt Hpad. unfold strftime_mY.
  rewrite strftime_Y_four_digits by exact Hpad. clear Hpad.
  apply is_DDMMYYYY_inv in Hs
    as (d1 & d2 & m1 & m2 & y1 & y2 & y3 & y4 & -> & ? & ? & ? & ? & ? & ? & ? & ?).
  rewrite strptime_DDMMYYYY in Hdt by assumption. cbv zeta in Hdt.
  destruct (valid_fields _ _ _); [|discriminate Hdt].
  injection Hdt as <-. cbn [year month].
  rewrite zero_padded_2, zero_padded_4 by assumption. reflexivity.
Qed.

Section WithFloat.

Variable py_float : string -> option float.
Variable pad : year_padding.

(** What passes the checks of [add_expense] and [add_contribution]. *)
Lemma checked_entry_ok category amount_entry date_entry description_entry
  date_str cat desc amount my :
  checked_entry py_float pad category amount_entry date_entry description_entry
  = inr (date_str, cat, desc, amount, my) ->
  PrimFloat.leb amount 0%float = false
  /\ exists dt, strptime date_str = Some dt /\ my = strftime_mY pad dt.
Proof.
  unfold checked_entry, Finance.validate_date, get_month_year.
  destruct (truthy category); cbn [negb]; [|discriminate].
  destruct (truthy (strip amount_entry)); cbn [negb]; [|discriminate].
  destruct (truthy (strip date_entry)); cbn [negb]; [|discriminate].
  destruct (strptime (strip date_entry)) as [dt|] eqn:Edt; cbn [negb]; [|discriminate].
  destruct (parse_value py_float (strip amount_entry)) as [a|]; [|discriminate].
  destruct (PrimFloat.leb a 0%float) eqn:Ea; [discriminate|].
  cbn. intros [= <- <- <- <- <-]. eauto.
Qed.

Lemma insert_entry_ok rows seq v_date v_cat v_desc v_amount v_my now :
  Forall (FinanceDates.row_kept pad) rows ->
  PrimFloat.leb v_amount 0%float = false ->
  (exists dt, strptime v_date = Some dt /\ v_my = strftime_mY pad dt) ->
  Forall (FinanceDates.row_kept pad)
    (fst (snd (insert_entry rows seq v_date v_cat v_desc v_amount v_my now))).
Proof.
  intros Hrows Hpos Hdt. unfold insert_entry.
  destruct (PrimFloat.is_nan v_amount) eqn:Hnan; [exact Hrows|].
  cbn [fst snd]. apply Forall_app. split; [exact Hrows|].
  constructor; [|constructor].
  unfold FinanceDates.row_kept. cbn [amount date month_year].
  split; [apply float_positive; assumption|exact Hdt].
Qed.

Lemma filter_entries_ok (p : entry_row -> bool) rows :
  Forall (FinanceDates.row_kept pad) rows ->
  Forall (FinanceDates.row_kept pad) (List.filter p rows).
Proof.
  induction 1 as [|r rows Hr _ IH]; cbn; [constructor|].
  destruct (p r); [constructor|]; assumption.
Qed.

Lemma perform_ok l a :
  Forall (FinanceDates.row_kept pad) (expenses l)
  /\ Forall (FinanceDates.row_kept pad) (contributions l) ->
  Forall (FinanceDates.row_kept pad) (expenses (perform py_float pad l a))
  /\ Forall (FinanceDates.row_kept pad) (contributions (perform py_float pad l a)).
Proof.
  intros [He Hc]. destruct a as [c a d n now|c a d n now|sel ok|sel ok]; cbn [perform].
  - unfold add_expense.
    destruct (checked_entry py_float pad c a d n) as [o|[[[[ds cat] desc] amt] my]] eqn:E;
      [split; assumption|].
    apply checked_entry_ok in E as [Hpos Hdt].
    pose proof (insert_entry_ok (expenses l) (expenses_seq l) ds cat desc amt my now
                  He Hpos Hdt) as Hok.
    destruct (insert_entry _ _ _ _ _ _ _ _) as [[new_id|e] [rows seq]];
      cbn [fst snd expenses contributions] in *; split; assumption.
  - unfold add_contribution.
    destruct (checked_entry py_float pad c a d n) as [o|[[[[ds cat] desc] amt] my]] eqn:E;
      [split; assumption|].
    apply checked_entry_ok in E as [Hpos Hdt].
    pose proof (insert_entry_ok (contributions l) (contributions_seq l) ds cat desc
                  amt my now Hc Hpos Hdt) as Hok.
    destruct (insert_entry _ _ _ _ _ _ _ _) as [[new_id|e] [rows seq]];
      cbn [fst snd expenses contributions] in *; split; assumption.
  - unfold delete_expense. destruct sel as [i|]; [|split; assumption].
    destruct ok; cbn [negb snd expenses contributions]; [|split; assumption].
    split; [apply filter_entries_ok|]; assumption.
  - unfold delete_contribution. destruct sel as [i|]; [|split; assumption].
    destruct ok; cbn [negb snd expenses contributions]; [|split; assumption].
    split; [|apply filter_entries_ok]; assumption.
Qed.

Lemma run_ok_from actions l :
  Forall (FinanceDates.row_kept pad) (expenses l)
  /\ Forall (FinanceDates.row_kept pad) (contributions l) ->
  Forall (FinanceDates.row_kept pad)
         (expenses (fold_left (perform py_float pad) actions l))
  /\ Forall (FinanceDates.row_kept pad)
            (contributions (fold_left (perform py_float pad) actions l)).
Proof.
  revert l. induction actions as [|a actions IH]; intros l H; [exact H|].
  cbn [fold_left]. apply IH, perform_ok, H.
Qed.

End WithFloat.

(** After any sequence of ledger adds and deletes from the empty ledger,
    on every platform, every expense and every contribution has an amount
    above zero, a date that parses, and the [month_year] that [strftime]
    prints for that date. *)
Lemma ledger_rows_kept (py_float : string -> option float) (pad : year_padding)
  (actions : list action) (r : entry_row) :
  In r (expenses (run py_float pad actions))
  \/ In r (contributions (run py_float pad actions)) ->
  FinanceDates.row_kept pad r.
Proof.
  intros Hin.
  destruct (run_ok_from py_float pad actions empty_ledger) as [He Hc];
    [split; constructor|].
  fold (run py_float pad actions) in He, Hc.
  rewrite List.Forall_forall in He, Hc.
  destruct Hin as [Hin|Hin]; [apply (He r Hin) | apply (Hc r Hin)].
Qed.

(** Such a row is as the specification asks when its year is printed in
    four digits: on a C library that pads, and for every date from the
    year 1000 on. *)
Lemma ledger_rows_ok (py_float : string -> option float) (pad : year_padding)
  (actions : list action) (r : entry_row) :
  In r (expenses (run py_float pad actions))
  \/ In r (contributions (run py_float pad actions)) ->
  pad = Padded
  \/ (forall dt, strptime (date r) = Some dt -> 1000 <= year dt) ->
  entry_ok r.
Proof.
  intros Hin Hpad.
  destruct (ledger_rows_kept py_float pad actions r Hin) as (Hpos & dt & Hdt & Hmy).
  split; [exact Hpos|].
  intros Hshape. rewrite Hmy. apply strftime_strptime_component; [assumption..|].
  destruct Hpad as [->|Hy]; [left; reflexivity|right; apply Hy, Hdt].
Qed.

(** C9 fails on the code where [strftime] does not pad the year (glibc).
    The date 05/03/0999 passes [validate_date]; [add_expense] stores the
    row with the [month_year] 03/999, which is not the MM/YYYY component
    03/0999 of its date. *)
Theorem month_year_of_year_below_1000 :
  let py_float := fun s => if String.eqb s "150.00" then Some 150%float else None in
  let l := run py_float Unpadded
             [AddExpense "Luz" "150,00" "05/03/0999" "" "2024-03-05 12:00:00"] in
  Finance.validate_date "05/03/0999" = true
  /\ is_DDMMYYYY "05/03/0999" = true
  /\ map (fun r => (date r, month_year r)) (expenses l)
     = [("05/03/0999", "03/999")]%string
  /\ month_year_component "05/03/0999" = "03/0999"%string
  /\ Forall (fun r => ~ entry_ok r) (expenses l).
Proof.
  cbv zeta. split; [reflexivity|]. split; [reflexivity|].
  split; [vm_compute; reflexivity|]. split; [reflexivity|].
  match goal with |- Forall _ (expenses ?l) =>
    let rows := eval vm_compute in (expenses l) in
    change (expenses l) with rows
  end.
  constructor; [|constructor].
  intros [_ H]. specialize (H eq_refl). discriminate H.
Qed.

End LedgerInvariant.

(* ================================================================== *)
(** * Formatting and validation helpers: further properties *)
(* ================================================================== *)

Section FormatFacts.

Import Py Utils UtilsFormat Datetime Spec.

Lemma filter_chars_length p s :
  (String.length (filter_chars p s) <= String.length s)%nat.
Proof.
  induction s as [|c s IH]; cbn; [lia|].
  destruct (p c); cbn; lia.
Qed.

(** X1.  [normalize_cpf] and [normalize_phone] return digits only, never
    more characters than they were given, and applying them again changes
    nothing. *)
Theorem normalize_digits_only_idempotent (x : string) :
  all_chars isdigit (normalize_cpf x) = true
  /\ (String.length (normalize_cpf x) <= String.length x)%nat
  /\ normalize_cpf (normalize_cpf x) = normalize_cpf x
  /\ all_chars isdigit (normalize_phone x) = true
  /\ (String.length (normalize_phone x) <= String.length x)%nat
  /\ normalize_phone (normalize_phone x) = normalize_phone x.
Proof.
  assert (Hsame : normalize_phone = normalize_cpf) by reflexivity.
  rewrite Hsame.
  assert (H : all_chars isdigit (normalize_cpf x) = true
              /\ (String.length (normalize_cpf x) <= String.length x)%nat
              /\ normalize_cpf (normalize_cpf x) = normalize_cpf x).
  { split; [apply normalize_cpf_digits|]. split; [|apply normalize_cpf_idempotent].
    rewrite normalize_cpf_filter. apply filter_chars_length. }
  destruct H as (H1 & H2 & H3). auto 10.
Qed.

Lemma format_cpf_of_normalized x :
  String.length (normalize_cpf x) = 11%nat ->
  format_cpf x = format_cpf (normalize_cpf x).
Proof.
  intros Hlen. unfold format_cpf. rewrite normalize_cpf_idempotent, Hlen. reflexivity.
Qed.

Lemma normalize_format_cpf x : normalize_cpf (format_cpf x) = normalize_cpf x.
Proof.
  destruct (Nat.eq_dec (String.length (normalize_cpf x)) 11%nat) as [Hlen|Hlen].
  - rewrite format_cpf_of_normalized by exact Hlen.
    apply format_then_normalize; [apply normalize_cpf_digits | exact Hlen].
  - unfold format_cpf. apply Nat.eqb_neq in Hlen. rewrite Hlen. reflexivity.
Qed.

(** X2.  Formatting a document number never changes its digits, whatever
    the input: the formatted text normalises to the same digits, validates
    the same, and formatting it again gives the same text. *)
Theorem format_cpf_keeps_digits (x : string) :
  normalize_cpf (format_cpf x) = normalize_cpf x
  /\ validate_cpf (format_cpf x) = validate_cpf x
  /\ format_cpf (format_cpf x) = format_cpf x.
Proof.
  split; [apply normalize_format_cpf|]. split.
  - unfold validate_cpf. rewrite normalize_format_cpf. reflexivity.
  - unfold format_cpf at 1. rewrite normalize_format_cpf.
    unfold format_cpf.
    destruct (String.length (normalize_cpf x) =? 11)%nat; reflexivity.
Qed.

Lemma length_10_inv (d : string) :
  String.length d = 10%nat ->
  exists c0 c1 c2 c3 c4 c5 c6 c7 c8 c9,
    d = String c0 (String c1 (String c2 (String c3 (String c4 (String c5
       (String c6 (String c7 (String c8 (String c9 ""))))))))).
Proof.
  intros H.
  do 10 (destruct d as [|? d]; [discriminate H|]).
  destruct d; [|discriminate H].
  repeat eexists.
Qed.

Lemma normalize_phone_filter s : normalize_phone s = filter_chars isdigit s.
Proof. destruct s; reflexivity. Qed.

Lemma normalize_format_phone x : normalize_phone (format_phone x) = normalize_phone x.
Proof.
  unfold format_phone.
  pose proof (normalize_cpf_digits x) as Hd.
  change (normalize_cpf x) with (normalize_phone x) in Hd.
  destruct (Nat.eq_dec (String.length (normalize_phone x)) 10%nat) as [H10|H10].
  - rewrite H10. cbn [Nat.eqb].
    destruct (length_10_inv _ H10)
      as (c0 & c1 & c2 & c3 & c4 & c5 & c6 & c7 & c8 & c9 & E).
    rewrite E in Hd |- *. rewrite normalize_phone_filter.
    cbn in Hd. repeat (apply andb_prop in Hd; destruct Hd as [?H Hd]).
    cbv -[isdigit].
    repeat match goal with H : isdigit _ = true |- _ => rewrite H; clear H end.
    reflexivity.
  - apply Nat.eqb_neq in H10. rewrite H10.
    destruct (Nat.eq_dec (String.length (normalize_phone x)) 11%nat) as [H11|H11].
    + rewrite H11. cbn [Nat.eqb].
      destruct (length_11_inv _ H11)
        as (c0 & c1 & c2 & c3 & c4 & c5 & c6 & c7 & c8 & c9 & c10 & E).
      rewrite E in Hd |- *. rewrite normalize_phone_filter.
      cbn in Hd. repeat (apply andb_prop in Hd; destruct Hd as [?H Hd]).
      cbv -[isdigit].
      repeat match goal with H : isdigit _ = true |- _ => rewrite H; clear H end.
      reflexivity.
    + apply Nat.eqb_neq in H11. rewrite H11. reflexivity.
Qed.

(** X3.  Formatting a telephone number never changes its digits, and
    formatting the formatted text again gives the same text; a text whose
    digits are neither ten nor eleven is returned as it is. *)
Theorem format_phone_keeps_digits (x : string) :
  normalize_phone (format_phone x) = normalize_phone x
  /\ format_phone (format_phone x) = format_phone x
  /\ (String.length (normalize_phone x) = 10%nat
      \/ String.length (normalize_phone x) = 11%nat
      \/ format_phone x = x).
Proof.
  split; [apply normalize_format_phone|]. split.
  - unfold format_phone at 1. rewrite normalize_format_phone.
    unfold format_phone.
    destruct (String.length (normalize_phone x) =? 10)%nat; [reflexivity|].
    destruct (String.length (normalize_phone x) =? 11)%nat; reflexivity.
  - unfold format_phone.
    destruct (Nat.eqb_spec (String.length (normalize_phone x)) 10); [auto|].
    destruct (Nat.eqb_spec (String.length (normalize_phone x)) 11); auto.
Qed.

End FormatFacts.

Section DateFacts.

Import Py Utils UtilsFormat Datetime Spec FinanceDates.

(** X4.  Eleven identical decimal digits satisfy both check digits that
    [validate_cpf] computes; it is the rule on identical digits alone that
    makes it refuse them. *)
Theorem identical_digits_pass_the_check_digits (c : ascii) :
  isdecimal c = true ->
  let nums := nums_of (repeat_char c 11) in
  nth 9 nums 0 = calc_digit (take 9 nums) (range_down 10 1)
  /\ nth 10 nums 0 = calc_digit (take 10 nums) (range_down 11 1)
  /\ validate_cpf (repeat_char c 11) = false.
Proof.
  intros H. cbv zeta.
  destruct (isdecimal_cases c H) as [->|[->|[->|[->|[->|[->|[->|[->|[->| ->]]]]]]]]];
    repeat split; vm_compute; reflexivity.
Qed.

Lemma identical_digits_pass_the_check_digits_witness :
  validate_cpf "11111111111" = false.
Proof.
  exact (proj2 (proj2 (identical_digits_pass_the_check_digits "1" eq_refl))).
Defined.

(** X5.  On a text of the form DD/MM/YYYY, [validate_date] is true exactly
    when the three groups of digits are a date of the calendar: a year
    from 1, a month from 1 to 12 and a day the month has in that year. *)
Theorem validate_date_DDMMYYYY (s : string) :
  is_DDMMYYYY s = true ->
  validate_date s
  = valid_fields (int_of_digits (String.substring 6 4 s))
                 (int_of_digits (String.substring 3 2 s))
                 (int_of_digits (String.substring 0 2 s)).
Proof.
  intros Hs.
  apply is_DDMMYYYY_inv in Hs
    as (d1 & d2 & m1 & m2 & y1 & y2 & y3 & y4 & -> & ? & ? & ? & ? & ? & ? & ? & ?).
  unfold validate_date. cbn [truthy negb String.substring].
  rewrite strptime_DDMMYYYY by assumption. cbv zeta.
  destruct (valid_fields _ _ _); reflexivity.
Qed.

(** 29/02/1900 is no date: 1900 is not a leap year. *)
Lemma validate_date_DDMMYYYY_witness : validate_date "29/02/1900" = false.
Proof.
  rewrite validate_date_DDMMYYYY by reflexivity. vm_compute. reflexivity.
Defined.

Lemma date_compare_Lt a b :
  date_compare a b = Lt
  <-> year a < year b
      \/ (year a = year b
          /\ (month a < month b \/ (month a = month b /\ day a < day b))).
Proof.
  unfold date_compare.
  destruct (Z.compare_spec (year a) (year b));
    destruct (Z.compare_spec (month a) (month b));
    destruct (Z.compare_spec (day a) (day b));
    split; intros; try discriminate; try reflexivity; lia.
Qed.

Lemma date_compare_not_Gt a b :
  date_compare a b <> Gt
  <-> year a < year b
      \/ (year a = year b
          /\ (month a < month b \/ (month a = month b /\ day a <= day b))).
Proof.
  unfold date_compare.
  destruct (Z.compare_spec (year a) (year b));
    destruct (Z.compare_spec (month a) (month b));
    destruct (Z.compare_spec (day a) (day b));
    split; intros; try discriminate; try congruence; lia.
Qed.

(** X6.  For a date of birth that parses, [calculate_age] is the number of
    birthdays up to today: the birthday of that many years after birth is
    not after today, and the next one is. *)
Theorem calculate_age_counts_birthdays (birth_date : string) (today dt : date) :
  strptime birth_date = Some dt ->
  exists age,
    calculate_age birth_date today = Some age
    /\ date_compare (mkDate (year dt + age) (month dt) (day dt)) today <> Gt
    /\ date_compare today (mkDate (year dt + age + 1) (month dt) (day dt)) = Lt.
Proof.
  intros Hdt. unfold calculate_age. rewrite Hdt. cbv zeta.
  eexists. split; [reflexivity|].
  rewrite date_compare_not_Gt, date_compare_Lt. cbn [year month day].
  destruct (Z.compare_spec (month today) (month dt)) as [Hm|Hm|Hm];
    [destruct (Z.ltb_spec (day today) (day dt)) as [Hd|Hd]| |]; lia.
Qed.

(** Born on 29/02/2000, 23 years old on 28/02/2024. *)
Lemma calculate_age_counts_birthdays_witness :
  exists age, calculate_age "29/02/2000" (mkDate 2024 2 28) = Some age
              /\ date_compare (mkDate (2000 + age) 2 29) (mkDate 2024 2 28) <> Gt
              /\ date_compare (mkDate 2024 2 28) (mkDate (2000 + age + 1) 2 29) = Lt.
Proof.
  exact (calculate_age_counts_birthdays "29/02/2000" (mkDate 2024 2 28)
           (mkDate 2000 2 29) eq_refl).
Defined.

Lemma digit_char k :
  0 <= k <= 9 ->
  isdecimal (char_of_digit k) = true /\ int_of_char (char_of_digit k) = k.
Proof.
  intros H.
  assert (k = 0 \/ k = 1 \/ k = 2 \/ k = 3 \/ k = 4 \/ k = 5 \/ k = 6
          \/ k = 7 \/ k = 8 \/ k = 9) as Hk by lia.
  destruct Hk as [->|[->|[->|[->|[->|[->|[->|[->|[->| ->]]]]]]]]];
    split; reflexivity.
Qed.

(** The two digits of a value below 100, and the four of a value below
    10000. *)
Lemma zero_padded_2_spec n :
  0 <= n < 100 ->
  exists c1 c2,
    zero_padded 2 n = String c1 (String c2 "")
    /\ isdecimal c1 = true /\ isdecimal c2 = true
    /\ int_of_digits (String c1 (String c2 "")) = n.
Proof.
  intros Hn.
  exists (char_of_digit (n / 10 mod 10)), (char_of_digit (n mod 10)).
  destruct (digit_char (n / 10 mod 10)) as [H1 H1']; [Z.to_euclidean_division_equations; lia|].
  destruct (digit_char (n mod 10)) as [H2 H2']; [Z.to_euclidean_division_equations; lia|].
  split; [reflexivity|]. split; [assumption|]. split; [assumption|].
  unfold int_of_digits. cbn [int_of_digits_acc]. rewrite H1', H2'.
  Z.to_euclidean_division_equations; lia.
Qed.

Lemma zero_padded_4_spec n :
  0 <= n < 10000 ->
  exists c1 c2 c3 c4,
    zero_padded 4 n = String c1 (String c2 (String c3 (String c4 "")))
    /\ isdecimal c1 = true /\ isdecimal c2 = true
    /\ isdecimal c3 = true /\ isdecimal c4 = true
    /\ int_of_digits (String c1 (String c2 (String c3 (String c4 "")))) = n.
Proof.
  intros Hn.
  exists (char_of_digit (n / 10 / 10 / 10 mod 10)), (char_of_digit (n / 10 / 10 mod 10)),
         (char_of_digit (n / 10 mod 10)), (char_of_digit (n mod 10)).
  destruct (digit_char (n / 10 / 10 / 10 mod 10)) as [H1 H1'];
    [Z.to_euclidean_division_equations; lia|].
  destruct (digit_char (n / 10 / 10 mod 10)) as [H2 H2'];
    [Z.to_euclidean_division_equations; lia|].
  destruct (digit_char (n / 10 mod 10)) as [H3 H3'];
    [Z.to_euclidean_division_equations; lia|].
  destruct (digit_char (n mod 10)) as [H4 H4'];
    [Z.to_euclidean_division_equations; lia|].
  split; [reflexivity|]. do 4 (split; [assumption|]).
  unfold int_of_digits. cbn [int_of_digits_acc]. rewrite H1', H2', H3', H4'.
  Z.to_euclidean_division_equations; lia.
Qed.

Lemma format_date_shape pad dt :
  valid_fields (year dt) (month dt) (day dt) = true ->
  1000 <= year dt ->
  exists d1 d2 m1 m2 y1 y2 y3 y4,
    format_date pad dt
    = String d1 (String d2 (String "/" (String m1 (String m2 (String "/"
        (String y1 (String y2 (String y3 (String y4 "")))))))))
    /\ isdecimal d1 = true /\ isdecimal d2 = true
    /\ isdecimal m1 = true /\ isdecimal m2 = true
    /\ isdecimal y1 = true /\ isdecimal y2 = true
    /\ isdecimal y3 = true /\ isdecimal y4 = true
    /\ int_of_digits (String d1 (String d2 "")) = day dt
    /\ int_of_digits (String m1 (String m2 "")) = month dt
    /\ int_of_digits (String y1 (String y2 (String y3 (String y4 "")))) = year dt.
Proof.
  intros (Hy & Hm & Hd)%valid_fields_bounds Hyear.
  destruct (zero_padded_2_spec (day dt)) as (d1 & d2 & Ed & ? & ? & ?); [lia|].
  destruct (zero_padded_2_spec (month dt)) as (m1 & m2 & Em & ? & ? & ?); [lia|].
  destruct (zero_padded_4_spec (year dt)) as (y1 & y2 & y3 & y4 & Ey & ? & ? & ? & ? & ?);
    [lia|].
  exists d1, d2, m1, m2, y1, y2, y3, y4.
  unfold format_date. rewrite strftime_Y_four_digits by (right; exact Hyear).
  rewrite Ed, Em, Ey. auto 15.
Qed.

(** X7.  Printing a date of the calendar (of a year from 1000 on, which
    every platform prints with four digits) and parsing the text gives the
    date back; the text has the form DD/MM/YYYY. *)
Theorem parse_date_format_date (pad : year_padding) (dt : date) :
  valid_fields (year dt) (month dt) (day dt) = true ->
  1000 <= year dt ->
  parse_date (format_date pad dt) = Some dt
  /\ is_DDMMYYYY (format_date pad dt) = true.
Proof.
  intros Hv Hyear.
  destruct (format_date_shape pad dt Hv Hyear)
    as (d1 & d2 & m1 & m2 & y1 & y2 & y3 & y4 & -> & Hd1 & Hd2 & Hm1 & Hm2
        & Hy1 & Hy2 & Hy3 & Hy4 & Ed & Em & Ey).
  split.
  - unfold parse_date. rewrite strptime_DDMMYYYY by assumption. cbv zeta.
    rewrite Ed, Em, Ey, Hv. destruct dt; reflexivity.
  - unfold is_DDMMYYYY. cbn [match_prefix].
    rewrite Hd1, Hd2, Hm1, Hm2, Hy1, Hy2, Hy3, Hy4. reflexivity.
Qed.

Lemma parse_date_format_date_witness :
  parse_date (format_date Unpadded (mkDate 2024 2 29)) = Some (mkDate 2024 2 29).
Proof.
  apply (parse_date_format_date Unpadded (mkDate 2024 2 29)); [reflexivity|cbn; lia].
Defined.

(** X8.  Parsing a text (to a year from 1000 on) and printing the date
    gives the text in the form DD/MM/YYYY: the same text when it had that
    form, and in every case a text that parses to the same date. *)
Theorem format_date_parse_date (pad : year_padding) (s : string) (dt : date) :
  parse_date s = Some dt ->
  1000 <= year dt ->
  parse_date (format_date pad dt) = Some dt
  /\ is_DDMMYYYY (format_date pad dt) = true
  /\ (is_DDMMYYYY s = true -> format_date pad dt = s).
Proof.
  intros Hs Hyear. pose proof (strptime_valid s dt Hs) as Hv.
  destruct (format_date_shape pad dt Hv Hyear)
    as (d1 & d2 & m1 & m2 & y1 & y2 & y3 & y4 & E & Hd1 & Hd2 & Hm1 & Hm2
        & Hy1 & Hy2 & Hy3 & Hy4 & Ed & Em & Ey).
  split; [|split].
  - rewrite E. unfold parse_date. rewrite strptime_DDMMYYYY by assumption. cbv zeta.
    rewrite Ed, Em, Ey, Hv. destruct dt; reflexivity.
  - rewrite E. unfold is_DDMMYYYY. cbn [match_prefix].
    rewrite Hd1, Hd2, Hm1, Hm2, Hy1, Hy2, Hy3, Hy4. reflexivity.
  - intros Hshape. clear E.
    unfold format_date. rewrite strftime_Y_four_digits by (right; exact Hyear).
    apply is_DDMMYYYY_inv in Hshape
      as (e1 & e2 & n1 & n2 & z1 & z2 & z3 & z4 & -> & ? & ? & ? & ? & ? & ? & ? & ?).
    unfold parse_date in Hs. rewrite strptime_DDMMYYYY in Hs by assumption.
    cbv zeta in Hs. destruct (valid_fields _ _ _); [|discriminate Hs].
    injection Hs as <-. cbn [year month day].
    rewrite !zero_padded_2, zero_padded_4 by assumption. reflexivity.
Qed.

(** 5/3/2024 is accepted and printed as 05/03/2024. *)
Lemma format_date_parse_date_witness :
  parse_date "5/3/2024" = Some (mkDate 2024 3 5)
  /\ format_date Unpadded (mkDate 2024 3 5) = "05/03/2024"%string
  /\ parse_date (format_date Unpadded (mkDate 2024 3 5)) = Some (mkDate 2024 3 5).
Proof.
  split; [reflexivity|]. split; [reflexivity|].
  apply (format_date_parse_date Unpadded "5/3/2024" (mkDate 2024 3 5));
    [reflexivity|cbn; lia].
Defined.

(** X9.  For every text [strptime] parses (to a year from 1000 on)
    [get_month_year] returns two digits, a slash and four digits: the
    month and the year of the parsed date. *)
Theorem get_month_year_canonical (pad : year_padding) (s : string) (dt : date) :
  strptime s = Some dt ->
  1000 <= year dt ->
  exists m1 m2 y1 y2 y3 y4,
    Finance.get_month_year pad s
    = Some (String m1 (String m2 (String "/"
              (String y1 (String y2 (String y3 (String y4 "")))))))
    /\ isdecimal m1 = true /\ isdecimal m2 = true
    /\ isdecimal y1 = true /\ isdecimal y2 = true
    /\ isdecimal y3 = true /\ isdecimal y4 = true
    /\ int_of_digits (String m1 (String m2 "")) = month dt
    /\ int_of_digits (String y1 (String y2 (String y3 (String y4 "")))) = year dt.
Proof.
  intros Hs Hyear. unfold Finance.get_month_year. rewrite Hs.
  pose proof (strptime_valid s dt Hs) as (Hy & Hm & Hd)%valid_fields_bounds.
  destruct (zero_padded_2_spec (month dt)) as (m1 & m2 & Em & ? & ? & ?); [lia|].
  destruct (zero_padded_4_spec (year dt)) as (y1 & y2 & y3 & y4 & Ey & ? & ? & ? & ? & ?);
    [lia|].
  exists m1, m2, y1, y2, y3, y4.
  cbn [fmap option_fmap option_map]. unfold strftime_mY.
  rewrite strftime_Y_four_digits by (right; exact Hyear).
  rewrite Em, Ey. auto 15.
Qed.

Lemma get_month_year_canonical_witness :
  exists m1 m2 y1 y2 y3 y4,
    Finance.get_month_year Unpadded "5/3/2024"
    = Some (String m1 (String m2 (String "/"
              (String y1 (String y2 (String y3 (String y4 "")))))))
    /\ isdecimal m1 = true /\ isdecimal m2 = true
    /\ isdecimal y1 = true /\ isdecimal y2 = true
    /\ isdecimal y3 = true /\ isdecimal y4 = true
    /\ int_of_digits (String m1 (String m2 "")) = 3
    /\ int_of_digits (String y1 (String y2 (String y3 (String y4 "")))) = 2024.
Proof.
  apply (get_month_year_canonical Unpadded "5/3/2024" (mkDate 2024 3 5));
    [reflexivity|cbn; lia].
Defined.

End DateFacts.

(* ================================================================== *)
(** * Lookups, deletes and the key of a new row *)
(* ================================================================== *)

Section LookupFacts.

Import Py Sqlite Writes.

Lemma with_file_same (m : DatabaseManager.manager) :
  DatabaseManager.with_file m (DatabaseManager.file m) = m.
Proof. destruct m; reflexivity. Qed.

Lemma set_pessoas_same (t : tables) : set_pessoas t (pessoas t) (pessoas_seq t) = t.
Proof. destruct t; reflexivity. Qed.

Lemma find_none_filter (rows : list pessoa_row) (q : Z) :
  List.find (fun r => id r =? q) rows = None ->
  List.filter (fun r => id r =? q) rows = []
  /\ List.filter (fun r => negb (id r =? q)) rows = rows
  /\ forall f, map (fun r => if id r =? q then f r else r) rows = rows.
Proof.
  induction rows as [|a rows IH]; cbn; [auto|].
  destruct (id a =? q); [discriminate|].
  intros H. destruct (IH H) as (-> & -> & Hmap).
  repeat split. intros f. rewrite Hmap. reflexivity.
Qed.

Lemma find_some_filter (rows : list pessoa_row) (q : Z) r :
  List.find (fun r => id r =? q) rows = Some r ->
  exists n, length (List.filter (fun r => id r =? q) rows) = S n.
Proof.
  induction rows as [|a rows IH]; cbn; [discriminate|].
  destruct (id a =? q); [intros _; eexists; reflexivity|exact IH].
Qed.

(** A lookup after an update of the rows with key [pid] that keeps their
    keys. *)
Lemma find_map_update (f : pessoa_row -> pessoa_row) (rows : list pessoa_row) (pid q : Z) :
  (forall r, id (f r) = id r) ->
  List.find (fun r => id r =? q) (map (fun r => if id r =? pid then f r else r) rows)
  = (fun r => if id r =? pid then f r else r) <$> List.find (fun r => id r =? q) rows.
Proof.
  intros Hf. induction rows as [|a rows IH]; [reflexivity|].
  cbn [map List.find].
  assert (Hid : id (if id a =? pid then f a else a) = id a)
    by (destruct (id a =? pid); [apply Hf|reflexivity]).
  rewrite Hid. destruct (id a =? q); [reflexivity|exact IH].
Qed.

Lemma find_filter_other (rows : list pessoa_row) (pid q : Z) :
  List.find (fun r => id r =? q) (List.filter (fun r => negb (id r =? pid)) rows)
  = if q =? pid then None else List.find (fun r => id r =? q) rows.
Proof.
  induction rows as [|a rows IH]; cbn [List.filter List.find].
  - destruct (q =? pid); reflexivity.
  - destruct (Z.eqb_spec (id a) pid) as [Ea|Ea]; cbn [negb].
    + rewrite IH. destruct (Z.eqb_spec q pid) as [Hq|Hq]; [reflexivity|].
      destruct (Z.eqb_spec (id a) q); [congruence|reflexivity].
    + cbn [List.find]. destruct (Z.eqb_spec (id a) q) as [Eq|Eq].
      * destruct (Z.eqb_spec q pid); [congruence|reflexivity].
      * exact IH.
Qed.

Lemma find_id (rows : list pessoa_row) (q : Z) r :
  List.find (fun r => id r =? q) rows = Some r -> id r = q /\ In r rows.
Proof.
  intros H. apply find_some in H as [Hin Hq]. split; [lia|exact Hin].
Qed.

Lemma update_unknown_id (m : DatabaseManager.manager) (pessoa_id : Z)
  (pessoa : gmap string string) :
  Queries.get_pessoa_by_id m pessoa_id = None ->
  DatabaseManager.update_pessoa m pessoa_id pessoa = (Return false, m).
Proof.
  unfold Queries.get_pessoa_by_id. intros H.
  destruct (find_none_filter _ _ H) as (Hhit & _ & _).
  unfold DatabaseManager.update_pessoa, update_pessoa_stmt. rewrite Hhit.
  rewrite with_file_same. reflexivity.
Qed.

Lemma delete_unknown_id (m : DatabaseManager.manager) (pessoa_id : Z) (soft : bool) :
  Queries.get_pessoa_by_id m pessoa_id = None ->
  DatabaseManager.delete_pessoa m pessoa_id soft = (Return false, m).
Proof.
  unfold Queries.get_pessoa_by_id. intros H.
  destruct (find_none_filter _ _ H) as (Hhit & Hrest & Hmap).
  destruct soft; unfold DatabaseManager.delete_pessoa, deactivate_pessoa_stmt,
    delete_pessoa_stmt; rewrite Hhit, ?Hmap, ?Hrest, set_pessoas_same, with_file_same;
    reflexivity.
Qed.

(** X10.  Updating or deleting a key no row has returns False and leaves
    the database and the manager as they were. The controller's delete
    does the same, and the controller's save of such a key raises (the
    duplicate-document error, or the failed-update exception) without
    changing anything. *)
Theorem unknown_id_changes_nothing (m : DatabaseManager.manager) (pessoa_id : Z)
  (pessoa : gmap string string) (soft : bool) (now : string) :
  Queries.get_pessoa_by_id m pessoa_id = None ->
  DatabaseManager.update_pessoa m pessoa_id pessoa = (Return false, m)
  /\ DatabaseManager.delete_pessoa m pessoa_id soft = (Return false, m)
  /\ AppController.excluir_pessoa m pessoa_id = (Return false, m)
  /\ (pessoa_id <> 0 ->
      AppController.salvar_pessoa m pessoa (Some pessoa_id) now
      = (Raise (ValueError CpfJaCadastradoOutra), m)
      \/ AppController.salvar_pessoa m pessoa (Some pessoa_id) now
         = (Raise (Exception FalhaAtualizar), m)).
Proof.
  intros H. split; [|split; [|split]].
  - apply update_unknown_id, H.
  - apply delete_unknown_id, H.
  - unfold AppController.excluir_pessoa. rewrite delete_unknown_id by exact H.
    reflexivity.
  - intros Hpid. unfold AppController.salvar_pessoa.
    destruct (_ && _); [left; reflexivity|right].
    unfold DatabaseManager.truthy_id.
    destruct (Z.eqb_spec pessoa_id 0); [contradiction|].
    rewrite update_unknown_id by exact H. reflexivity.
Qed.

Lemma unknown_id_changes_nothing_witness :
  DatabaseManager.update_pessoa (DatabaseManager.init empty_schema []) 7
    (<["nome" := "Ana Silva"%string]> (∅ : gmap string string))
  = (Return false, DatabaseManager.init empty_schema []).
Proof.
  exact (proj1 (unknown_id_changes_nothing (DatabaseManager.init empty_schema []) 7
                  (<["nome" := "Ana Silva"%string]> ∅) true "01/01/2024 10:00:00"
                  eq_refl)).
Defined.

(** X11.  A soft delete leaves the row in the table with [ativo] cleared,
    a hard delete removes it; both return True and neither changes what a
    lookup of another key finds. *)
Theorem delete_pessoa_soft_and_hard (m : DatabaseManager.manager) (pessoa_id : Z)
  (r : pessoa_row) :
  Queries.get_pessoa_by_id m pessoa_id = Some r ->
  let soft := DatabaseManager.delete_pessoa m pessoa_id true in
  let hard := DatabaseManager.delete_pessoa m pessoa_id false in
  fst soft = Return true
  /\ Queries.get_pessoa_by_id (snd soft) pessoa_id
     = Some (mkPessoa (id r) (nome r) (cpf r) (telefone r) (cidade r) (bairro r)
                      (data_nascimento r) (email r) (rede_social r) (observacoes r)
                      false (data_cadastro r) (data_atualizacao r))
  /\ fst hard = Return true
  /\ Queries.get_pessoa_by_id (snd hard) pessoa_id = None
  /\ forall q, q <> pessoa_id ->
       Queries.get_pessoa_by_id (snd soft) q = Queries.get_pessoa_by_id m q
       /\ Queries.get_pessoa_by_id (snd hard) q = Queries.get_pessoa_by_id m q.
Proof.
  unfold Queries.get_pessoa_by_id. intros H.
  destruct (find_some_filter _ _ _ H) as [n Hn].
  destruct (find_id _ _ _ H) as [Hid _].
  cbv zeta.
  unfold DatabaseManager.delete_pessoa, deactivate_pessoa_stmt, delete_pessoa_stmt.
  cbn [fst snd DatabaseManager.file DatabaseManager.with_file set_pessoas pessoas].
  rewrite Hn.
  split; [reflexivity|]. split.
  { rewrite find_map_update by reflexivity. rewrite H. cbn [fmap option_fmap option_map].
    rewrite Hid, Z.eqb_refl. reflexivity. }
  split; [reflexivity|]. split.
  { rewrite find_filter_other, Z.eqb_refl. reflexivity. }
  intros q Hq. split.
  - rewrite find_map_update by reflexivity.
    destruct (List.find (fun r => id r =? q) _) as [r'|] eqn:E; [|reflexivity].
    cbn [fmap option_fmap option_map].
    apply find_id in E as [E _].
    destruct (Z.eqb_spec (id r') pessoa_id); [congruence|reflexivity].
  - rewrite find_filter_other. destruct (Z.eqb_spec q pessoa_id); [contradiction|reflexivity].
Qed.

(** Ana is stored under the key 1. *)
Lemma delete_pessoa_soft_and_hard_witness :
  exists m,
    Queries.get_pessoa_by_id m 1 <> None
    /\ Queries.get_pessoa_by_id (snd (DatabaseManager.delete_pessoa m 1 false)) 1 = None.
Proof.
  set (ana := <["nome" := "Ana Silva"%string]>
                (<["data_cadastro" := "01/01/2024 10:00:00"%string]>
                   (∅ : gmap string string))).
  set (m := snd (DatabaseManager.add_pessoa (DatabaseManager.init empty_schema []) ana)).
  exists m. split; [vm_compute; discriminate|].
  refine (proj1 (proj2 (proj2 (proj2 (delete_pessoa_soft_and_hard m 1 _ _))))).
  vm_compute. reflexivity.
Defined.

Lemma find_app_last (p : pessoa_row -> bool) (l : list pessoa_row) (x : pessoa_row) :
  List.find p (l ++ [x])%list
  = match List.find p l with
    | Some y => Some y
    | None => if p x then Some x else None
    end.
Proof.
  induction l as [|a l IH]; cbn; [reflexivity|].
  destruct (p a); [reflexivity|exact IH].
Qed.

Lemma find_above_sequence (rows : list pessoa_row) (seq q : Z) :
  Forall (fun r => id r <= seq) rows -> seq < q ->
  List.find (fun r => id r =? q) rows = None.
Proof.
  intros Hall Hq. induction Hall as [|a rows Ha _ IH]; [reflexivity|].
  cbn. destruct (Z.eqb_spec (id a) q); [lia|exact IH].
Qed.

(** X12.  A person added to the table is found under the returned key with
    the values of the dictionary, active and never updated. The key was
    not in use and exceeds every key of the table, and what a lookup of
    another key finds does not change. *)
Theorem add_pessoa_then_get (m m' : DatabaseManager.manager)
  (pessoa : gmap string string) (k : Z) :
  table_ok (DatabaseManager.file m) ->
  DatabaseManager.add_pessoa m pessoa = (Return k, m') ->
  Queries.get_pessoa_by_id m k = None
  /\ Forall (fun r => id r < k) (pessoas (DatabaseManager.file m))
  /\ (exists n dc,
        pessoa !! "nome" = Some n /\ pessoa !! "data_cadastro" = Some dc
        /\ Queries.get_pessoa_by_id m' k
           = Some (mkPessoa k n (pessoa !! "cpf") (pessoa !! "telefone")
                            (pessoa !! "cidade") (pessoa !! "bairro")
                            (pessoa !! "data_nascimento") (pessoa !! "email")
                            (pessoa !! "rede_social") (pessoa !! "observacoes")
                            true dc None))
  /\ forall q, q <> k -> Queries.get_pessoa_by_id m' q = Queries.get_pessoa_by_id m q.
Proof.
  intros (_ & _ & Hseq).
  unfold DatabaseManager.add_pessoa, insert_pessoa, Queries.get_pessoa_by_id.
  destruct (pessoa !! "nome") as [n|]; [|discriminate].
  destruct (pessoa !! "data_cadastro") as [dc|]; [|discriminate].
  destruct (cpf_clashes _ _ _); [discriminate|].
  intros [= <- <-].
  cbn [DatabaseManager.file DatabaseManager.with_file set_pessoas pessoas].
  assert (Hnone : List.find (fun r => id r =? pessoas_seq (DatabaseManager.file m) + 1)
                            (pessoas (DatabaseManager.file m)) = None)
    by (eapply find_above_sequence; [exact Hseq|lia]).
  split; [exact Hnone|]. split.
  { eapply Forall_impl; [exact Hseq|]. cbn. intros; lia. }
  split.
  { exists n, dc. split; [reflexivity|]. split; [reflexivity|].
    rewrite find_app_last, Hnone. cbn [id]. rewrite Z.eqb_refl. reflexivity. }
  intros q Hq. rewrite find_app_last.
  destruct (List.find (fun r => id r =? q) _); [reflexivity|]. cbn [id].
  destruct (Z.eqb_spec (pessoas_seq (DatabaseManager.file m) + 1) q); [congruence|reflexivity].
Qed.

Lemma add_pessoa_then_get_witness :
  Queries.get_pessoa_by_id (DatabaseManager.init empty_schema []) 1 = None.
Proof.
  refine (proj1 (add_pessoa_then_get (DatabaseManager.init empty_schema []) _
                   (<["nome" := "Ana Silva"%string]>
                      (<["data_cadastro" := "01/01/2024 10:00:00"%string]>
                         (∅ : gmap string string))) 1 table_ok_empty _)).
  vm_compute. reflexivity.
Defined.

Lemma cpf_clashes_map_update (f : pessoa_row -> pessoa_row) (rows : list pessoa_row)
  (pid : Z) self c :
  (forall r, id (f r) = id r) -> (forall r, cpf (f r) = cpf r) ->
  cpf_clashes (map (fun r => if id r =? pid then f r else r) rows) self c
  = cpf_clashes rows self c.
Proof.
  intros Hid Hcpf. unfold cpf_clashes.
  induction rows as [|a rows IH]; [reflexivity|].
  cbn [map existsb]. rewrite IH. f_equal.
  destruct (id a =? pid); [|reflexivity]. rewrite Hid, Hcpf. reflexivity.
Qed.

(** X13.  A soft delete keeps the document number of the row taken, for
    every check of [cpf_exists]; a hard delete frees it. *)
Theorem delete_pessoa_document_number (m : DatabaseManager.manager) (pessoa_id : Z)
  (r : pessoa_row) (c : string) :
  table_ok (DatabaseManager.file m) ->
  Queries.get_pessoa_by_id m pessoa_id = Some r ->
  cpf r = Some c -> truthy c = true ->
  DatabaseManager.cpf_exists m c None = true
  /\ (forall c' exclude_id,
        DatabaseManager.cpf_exists
          (snd (DatabaseManager.delete_pessoa m pessoa_id true)) c' exclude_id
        = DatabaseManager.cpf_exists m c' exclude_id)
  /\ (forall exclude_id,
        DatabaseManager.cpf_exists
          (snd (DatabaseManager.delete_pessoa m pessoa_id false)) c exclude_id
        = false).
Proof.
  intros (Hcpf & _ & _) Hget Hc Htruthy.
  unfold Queries.get_pessoa_by_id in Hget.
  destruct (find_id _ _ _ Hget) as [Hid Hin].
  unfold DatabaseManager.cpf_exists, select_id_by_cpf.
  split; [|split].
  - rewrite Htruthy. cbn [negb DatabaseManager.truthy_id].
    unfold cpf_clashes. apply existsb_exists. exists r. split; [exact Hin|].
    rewrite Hc. cbn [opt_eqb]. rewrite String.eqb_refl. reflexivity.
  - intros c' ex. destruct (negb (truthy c')); [reflexivity|].
    unfold DatabaseManager.delete_pessoa, deactivate_pessoa_stmt.
    cbn [snd DatabaseManager.file DatabaseManager.with_file set_pessoas pessoas].
    apply cpf_clashes_map_update; reflexivity.
  - intros ex. rewrite Htruthy. cbn [negb].
    unfold DatabaseManager.delete_pessoa, delete_pessoa_stmt.
    cbn [snd DatabaseManager.file DatabaseManager.with_file set_pessoas pessoas].
    unfold cpf_clashes. apply not_true_is_false. intros Hex.
    apply existsb_exists in Hex as (r' & Hin' & Hr').
    apply filter_In in Hin' as [Hin' Hother].
    apply andb_prop in Hr' as [Hr' _]. apply opt_eqb_Some in Hr'.
    apply list_elem_of_In, list_elem_of_lookup in Hin as [i Hi].
    apply list_elem_of_In, list_elem_of_lookup in Hin' as [j Hj].
    pose proof (NoDup_omap_lookup cpf _ i j r r' c Hcpf Hi Hj Hc Hr') as ->.
    assert (r' = r) by congruence. subst r'.
    rewrite Hid, Z.eqb_refl in Hother. discriminate.
Qed.

(** Ana (111.444.777-35) is stored under the key 1. *)
Lemma delete_pessoa_document_number_witness :
  exists m,
    DatabaseManager.cpf_exists m "11144477735" None = true
    /\ DatabaseManager.cpf_exists
         (snd (DatabaseManager.delete_pessoa m 1 true)) "11144477735" None = true
    /\ DatabaseManager.cpf_exists
         (snd (DatabaseManager.delete_pessoa m 1 false)) "11144477735" None = false.
Proof.
  set (ana := <["nome" := "Ana Silva"%string]>
                (<["cpf" := "111.444.777-35"%string]> (∅ : gmap string string))).
  set (s := step initial (ServiceAdd ana "01/01/2024 10:00:00")).
  assert (Hok : table_ok (DatabaseManager.file (PessoaService.db s)))
    by (apply reachable_ok, reachable_step, reachable_initial).
  exists (PessoaService.db s).
  assert (Hget : exists r, Queries.get_pessoa_by_id (PessoaService.db s) 1 = Some r
                           /\ cpf r = Some "11144477735"%string)
    by (eexists; split; vm_compute; reflexivity).
  destruct Hget as (r & Hget & Hc).
  destruct (delete_pessoa_document_number (PessoaService.db s) 1 r "11144477735"
              Hok Hget Hc eq_refl) as (H1 & H2 & H3).
  split; [exact H1|]. split; [rewrite H2; exact H1|apply H3].
Defined.

End LookupFacts.

(* ================================================================== *)
(** * Searches: what they return and in which order *)
(* ================================================================== *)

Section SearchFacts.

Import Py Datetime Sqlite Spec Writes.

Lemma string_compare_le_trans (a b c : string) :
  String.compare a b <> Gt -> String.compare b c <> Gt -> String.compare a c <> Gt.
Proof.
  revert b c. induction a as [|x a IH]; intros [|y b] [|z c]; cbn; try congruence.
  unfold Ascii.compare.
  destruct (N.compare_spec (N_of_ascii x) (N_of_ascii y)),
           (N.compare_spec (N_of_ascii y) (N_of_ascii z)),
           (N.compare_spec (N_of_ascii x) (N_of_ascii z));
    try congruence; try lia.
  apply IH.
Qed.

Lemma insert_sorted_perm {A} (before : A -> A -> bool) x l :
  insert_sorted before x l ≡ₚ x :: l.
Proof.
  induction l as [|y l IH]; cbn; [reflexivity|].
  destruct (before y x); [|reflexivity].
  rewrite IH. apply Permutation_swap.
Qed.

(** ORDER BY returns the rows it is given, each as often as it occurs. *)
Lemma order_by_perm {A} (before : A -> A -> bool) l : order_by before l ≡ₚ l.
Proof.
  induction l as [|x l IH]; [reflexivity|].
  cbn [order_by fold_right].
  change (fold_right (insert_sorted before) [] l) with (order_by before l).
  rewrite insert_sorted_perm, IH. reflexivity.
Qed.

Lemma insert_sorted_sorted {A} (before : A -> A -> bool) (le : A -> A -> Prop)
  (P : A -> Prop) x l :
  (forall a b, P a -> P b -> before a b = true -> le a b) ->
  (forall a b, P a -> P b -> before a b = false -> le b a) ->
  (forall a b c, P a -> P b -> P c -> le a b -> le b c -> le a c) ->
  P x -> Forall P l ->
  StronglySorted le l -> StronglySorted le (insert_sorted before x l).
Proof.
  intros Hlt Hge Htrans Px. induction l as [|y l IH]; intros Pl Hs; cbn.
  - repeat constructor.
  - apply Forall_cons in Pl as [Py Pl].
    apply StronglySorted_inv in Hs as [Hs Hy].
    destruct (before y x) eqn:E.
    + constructor; [apply IH; assumption|].
      rewrite (insert_sorted_perm before x l). constructor; [|exact Hy].
      apply Hlt; assumption.
    + pose proof (Hge y x Py Px E) as Hxy.
      constructor; [constructor; assumption|].
      constructor; [exact Hxy|].
      rewrite Forall_forall in Hy, Pl |- *.
      intros z Hz. apply (Htrans x y z); auto.
Qed.

(** ORDER BY sorts: under an ordering that is total and transitive on the
    rows, every row is at most each row after it. *)
Lemma order_by_sorted {A} (before : A -> A -> bool) (le : A -> A -> Prop)
  (P : A -> Prop) l :
  (forall a b, P a -> P b -> before a b = true -> le a b) ->
  (forall a b, P a -> P b -> before a b = false -> le b a) ->
  (forall a b c, P a -> P b -> P c -> le a b -> le b c -> le a c) ->
  Forall P l -> StronglySorted le (order_by before l).
Proof.
  intros Hlt Hge Htrans. induction l as [|x l IH]; intros Pl; [constructor|].
  apply Forall_cons in Pl as [Px Pl].
  cbn [order_by fold_right].
  change (fold_right (insert_sorted before) [] l) with (order_by before l).
  apply (insert_sorted_sorted before le P); auto.
  rewrite (order_by_perm before l). exact Pl.
Qed.

(** X14.  [search_pessoas] of the manager returns exactly the rows of the
    table that satisfy the WHERE clause, each once per row, in ascending
    order of the names under the BINARY collation. *)
Theorem search_pessoas_matching_sorted (m : DatabaseManager.manager)
  (filters : PessoaService.filters_arg) (only_active : bool) :
  Queries.search_pessoas m filters only_active
    ≡ₚ List.filter (PessoaService.where_clause filters only_active)
                   (pessoas (DatabaseManager.file m))
  /\ StronglySorted (fun a b => text_compare (nome a) (nome b) <> Gt)
                    (Queries.search_pessoas m filters only_active)
  /\ (only_active = true ->
      Forall (fun r => ativo r = true) (Queries.search_pessoas m filters only_active)).
Proof.
  unfold Queries.search_pessoas. split; [apply order_by_perm|]. split.
  - apply (order_by_sorted _ _ (fun _ => True)).
    + unfold PessoaService.nome_before. intros a b _ _ H.
      destruct (text_compare (nome a) (nome b)); congruence.
    + unfold PessoaService.nome_before, text_compare. intros a b _ _ H.
      rewrite String.compare_antisym.
      destruct (String.compare (nome a) (nome b)); cbn; congruence.
    + intros a b c _ _ _. apply string_compare_le_trans.
    + apply Forall_forall. auto.
  - intros ->. rewrite (order_by_perm _ _).
    apply Forall_forall. intros r Hr. apply list_elem_of_In, filter_In in Hr as [_ Hr].
    unfold PessoaService.where_clause in Hr. apply andb_prop in Hr as [Hr _]. exact Hr.
Qed.

(** X15.  After the controller's delete of a key the default search of the
    manager (active rows only) returns no row with that key, whatever the
    filters; the search over all rows returns as many rows as before. *)
Theorem excluir_pessoa_leaves_default_search (m : DatabaseManager.manager)
  (pessoa_id : Z) (filters : PessoaService.filters_arg) :
  let m' := snd (AppController.excluir_pessoa m pessoa_id) in
  Forall (fun r => id r <> pessoa_id) (Queries.search_pessoas m' filters true)
  /\ length (Queries.search_pessoas m' PessoaService.FNone false)
     = length (Queries.search_pessoas m PessoaService.FNone false).
Proof.
  cbv zeta.
  assert (Hrows : pessoas (DatabaseManager.file (snd (AppController.excluir_pessoa m pessoa_id)))
                  = map (fun r => if id r =? pessoa_id
                                  then mkPessoa (id r) (nome r) (cpf r) (telefone r)
                                         (cidade r) (bairro r) (data_nascimento r)
                                         (email r) (rede_social r) (observacoes r)
                                         false (data_cadastro r) (data_atualizacao r)
                                  else r)
                        (pessoas (DatabaseManager.file m))).
  { unfold AppController.excluir_pessoa, DatabaseManager.delete_pessoa,
      deactivate_pessoa_stmt.
    destruct (0 <? _); reflexivity. }
  unfold Queries.search_pessoas. rewrite Hrows. split.
  - rewrite (order_by_perm _ _). apply Forall_forall. intros r Hr.
    apply list_elem_of_In, filter_In in Hr as [Hin Hr].
    apply in_map_iff in Hin as (r0 & <- & _).
    unfold PessoaService.where_clause in Hr. apply andb_prop in Hr as [Hr _].
    destruct (Z.eqb_spec (id r0) pessoa_id) as [E|E]; [discriminate Hr|exact E].
  - rewrite !(Permutation_length (order_by_perm _ _)).
    clear Hrows.
    induction (pessoas (DatabaseManager.file m)) as [|a l IH]; [reflexivity|].
    cbn [map List.filter PessoaService.where_clause andb length] in IH |- *.
    rewrite IH. reflexivity.
Qed.

Lemma substring_length_le (s : string) (n k : nat) :
  (String.length (String.substring n k s) <= k)%nat.
Proof.
  revert n k. induction s as [|c s IH]; intros [|n] [|k]; cbn; try lia.
  - specialize (IH 0%nat k). lia.
  - apply IH.
  - apply IH.
Qed.

(** X16.  [get_aniversariantes] returns the active rows whose birth date
    is not empty and has the asked month, zero-filled to two characters,
    at its characters 4 and 5, in ascending order of the day text. A month
    of more than two characters matches no row. *)
Theorem get_aniversariantes_of_month (m : DatabaseManager.manager)
  (mes : option string) (now_month : string) :
  let asked := PessoaService.zfill2 (if truthy_opt mes then default "" mes else now_month) in
  let found := Queries.get_aniversariantes m mes now_month in
  (forall r, In r found
             <-> In r (pessoas (DatabaseManager.file m))
                 /\ ativo r = true
                 /\ exists dn, data_nascimento r = Some dn /\ dn <> ""%string
                               /\ substr dn 4 2 = asked)
  /\ StronglySorted
       (fun a b => text_compare (substr (default "" (data_nascimento a)) 1 2)
                                (substr (default "" (data_nascimento b)) 1 2) <> Gt)
       found
  /\ ((2 < String.length asked)%nat -> found = []).
Proof.
  cbv zeta. unfold Queries.get_aniversariantes.
  set (asked := PessoaService.zfill2 _).
  assert (Hin : forall r,
             In r (List.filter (Queries.born_in_month asked)
                               (pessoas (DatabaseManager.file m)))
             <-> In r (pessoas (DatabaseManager.file m))
                 /\ ativo r = true
                 /\ exists dn, data_nascimento r = Some dn /\ dn <> ""%string
                               /\ substr dn 4 2 = asked).
  { intros r. rewrite filter_In. unfold Queries.born_in_month.
    split.
    - intros [Hr H]. split; [exact Hr|].
      apply andb_prop in H as [Ha H]. split; [exact Ha|].
      destruct (data_nascimento r) as [dn|]; [|discriminate].
      apply andb_prop in H as [Ht He]. exists dn.
      split; [reflexivity|]. split; [destruct dn; [discriminate|congruence]|].
      apply String.eqb_eq, He.
    - intros (Hr & Ha & dn & -> & Hne & He). split; [exact Hr|].
      rewrite Ha, He, String.eqb_refl. destruct dn; [contradiction|reflexivity]. }
  split; [|split].
  - intros r. rewrite <- Hin. split; intros H.
    + apply list_elem_of_In. rewrite <- (order_by_perm Queries.birthday_before).
      apply list_elem_of_In, H.
    + apply list_elem_of_In. rewrite (order_by_perm Queries.birthday_before).
      apply list_elem_of_In, H.
  - apply (order_by_sorted _ _ (fun _ => True)).
    + unfold Queries.birthday_before. intros a b _ _ H.
      destruct (text_compare (substr _ 1 2) (substr _ 1 2)); congruence.
    + unfold Queries.birthday_before, text_compare. intros a b _ _ H.
      rewrite String.compare_antisym.
      destruct (String.compare (substr _ 1 2) (substr _ 1 2)); cbn; congruence.
    + intros a b c _ _ _. apply string_compare_le_trans.
    + apply Forall_forall. auto.
  - intros Hlong.
    assert (Hnone : List.filter (Queries.born_in_month asked)
                                (pessoas (DatabaseManager.file m)) = []).
    { destruct (List.filter _ _) as [|r l]; [reflexivity|].
      destruct (proj1 (Hin r) (or_introl eq_refl)) as (_ & _ & dn & _ & _ & He).
      pose proof (substring_length_le dn 3 2) as Hle.
      unfold substr in He. cbn [Nat.sub] in He. rewrite He in Hle. lia. }
    rewrite Hnone. reflexivity.
Qed.

Lemma date_compare_not_Lt_flip (a b : date) :
  date_compare a b <> Gt -> date_compare b a <> Lt.
Proof.
  intros H%date_compare_not_Gt Hlt%date_compare_Lt. lia.
Qed.

Lemma date_compare_not_Lt_trans (a b c : date) :
  date_compare a b <> Lt -> date_compare b c <> Lt -> date_compare a c <> Lt.
Proof.
  rewrite !date_compare_Lt. intros Hab Hbc Hac. lia.
Qed.

(** X17.  [search_eventos] without filters returns the events of the table
    (the active ones when asked so), newest first: where the stored dates
    are valid DD/MM/YYYY texts, the date of a row is not before the date
    of any row after it. *)
Theorem search_eventos_newest_first (m : DatabaseManager.manager) (only_active : bool) :
  (forall e, In e (eventos (DatabaseManager.file m)) ->
             valid_date_string (data_evento e) = true) ->
  DatabaseManager.search_eventos m only_active
    ≡ₚ List.filter (fun e => if only_active then ev_ativo e else true)
                   (eventos (DatabaseManager.file m))
  /\ StronglySorted
       (fun a b => exists da db,
            strptime (data_evento a) = Some da /\ strptime (data_evento b) = Some db
            /\ date_compare da db <> Lt)
       (DatabaseManager.search_eventos m only_active).
Proof.
  intros Hvalid. unfold DatabaseManager.search_eventos.
  split; [apply order_by_perm|].
  assert (Hcmp : forall a b,
             valid_date_string (data_evento a) = true ->
             valid_date_string (data_evento b) = true ->
             exists da db,
               strptime (data_evento a) = Some da /\ strptime (data_evento b) = Some db
               /\ DatabaseManager.order_key_compare (data_evento a) (data_evento b)
                  = date_compare da db).
  { intros a b Ha Hb.
    pose proof (order_key_compare_parsed _ _ Ha Hb) as H.
    unfold parse_then_compare in H.
    destruct (strptime (data_evento a)) as [da|] eqn:Ea; [|discriminate].
    destruct (strptime (data_evento b)) as [db|] eqn:Eb; [|discriminate].
    exists da, db. split; [reflexivity|]. split; [reflexivity|].
    injection H as <-. reflexivity. }
  apply (order_by_sorted _ _ (fun e => valid_date_string (data_evento e) = true)).
  - intros a b Ha Hb H. destruct (Hcmp a b Ha Hb) as (da & db & Ea & Eb & E).
    exists da, db. split; [exact Ea|]. split; [exact Eb|].
    unfold DatabaseManager.evento_before in H. rewrite E in H.
    destruct (date_compare da db); discriminate.
  - intros a b Ha Hb H. destruct (Hcmp a b Ha Hb) as (da & db & Ea & Eb & E).
    exists db, da. split; [exact Eb|]. split; [exact Ea|].
    unfold DatabaseManager.evento_before in H. rewrite E in H.
    apply date_compare_not_Lt_flip. destruct (date_compare da db); congruence.
  - intros a b c _ _ _ (da & db & Ea & Eb & Hab) (db' & dc & Eb' & Ec & Hbc).
    rewrite Eb in Eb'. injection Eb' as <-.
    exists da, dc. split; [exact Ea|]. split; [exact Ec|].
    eapply date_compare_not_Lt_trans; eassumption.
  - apply Forall_forall. intros e He.
    apply list_elem_of_In, filter_In in He as [He _]. apply Hvalid, He.
Qed.

(** The events of 31/12/2023 and of 02/01/2024, stored in this order. *)
Lemma search_eventos_newest_first_witness :
  exists m,
    map data_evento (eventos (DatabaseManager.file m)) = ["31/12/2023"; "02/01/2024"]%string
    /\ length (DatabaseManager.search_eventos m true) = 2%nat.
Proof.
  set (e1 := <["titulo" := "Culto"%string]>
               (<["data_evento" := "31/12/2023"%string]> (∅ : gmap string string))).
  set (e2 := <["titulo" := "Ceia"%string]>
               (<["data_evento" := "02/01/2024"%string]> (∅ : gmap string string))).
  set (m1 := snd (AppControllerEvents.salvar_evento
                    (DatabaseManager.init empty_schema []) e1 "30/12/2023 10:00:00")).
  set (m := snd (AppControllerEvents.salvar_evento m1 e2 "31/12/2023 10:00:00")).
  exists m. split; [vm_compute; reflexivity|].
  assert (Hvalid : forall e, In e (eventos (DatabaseManager.file m)) ->
                             valid_date_string (data_evento e) = true).
  { intros e He. vm_compute in He. destruct He as [<-|[<-|[]]]; vm_compute; reflexivity. }
  rewrite (Permutation_length (proj1 (search_eventos_newest_first m true Hvalid))).
  vm_compute. reflexivity.
Defined.

Lemma select_duplicate_cpfs_empty (t : tables) :
  NoDup (omap cpf (pessoas t)) -> select_duplicate_cpfs t = [].
Proof.
  intros Hcpf. unfold select_duplicate_cpfs.
  assert (Hnd : NoDup (active_cpfs t))
    by (eapply sublist_NoDup; [exact Hcpf | apply active_cpfs_sublist]).
  induction (dedup_str (active_cpfs t)) as [|c l IH]; [reflexivity|].
  cbn [List.filter].
  pose proof (count_occ_str_NoDup _ c Hnd) as Hc.
  destruct (Nat.ltb_spec 1 (count_occ_str (active_cpfs t) c)); [lia|exact IH].
Qed.

(** X18.  On a table that satisfies its constraints
    [verificar_integridade] reports no duplicated document number, and its
    totals are the numbers of rows of the two tables, inactive rows
    included. *)
Theorem verificar_integridade_totals (m : DatabaseManager.manager) :
  table_ok (DatabaseManager.file m) ->
  AppControllerEvents.verificar_integridade m
  = (length (pessoas (DatabaseManager.file m)),
     length (eventos (DatabaseManager.file m)), []).
Proof.
  intros (Hcpf & _ & _). unfold AppControllerEvents.verificar_integridade.
  unfold DatabaseManager.get_duplicate_cpfs.
  rewrite select_duplicate_cpfs_empty by exact Hcpf.
  unfold Queries.search_pessoas, DatabaseManager.search_eventos.
  rewrite !(Permutation_length (order_by_perm _ _)).
  clear Hcpf. f_equal. f_equal.
  - induction (pessoas (DatabaseManager.file m)) as [|a l IH]; [reflexivity|].
    cbn [List.filter PessoaService.where_clause andb length] in IH |- *.
    rewrite IH. reflexivity.
  - induction (eventos (DatabaseManager.file m)) as [|a l IH]; [reflexivity|].
    cbn [List.filter length] in IH |- *. rewrite IH. reflexivity.
Qed.

(** Two people, one of them soft-deleted. *)
Lemma verificar_integridade_totals_witness :
  exists s,
    AppControllerEvents.verificar_integridade (PessoaService.db s) = (2%nat, 0%nat, []).
Proof.
  set (ana := <["nome" := "Ana Silva"%string]>
                (<["cpf" := "111.444.777-35"%string]> (∅ : gmap string string))).
  set (bia := <["nome" := "Bia Souza"%string]>
                (<["cpf" := "529.982.247-25"%string]> (∅ : gmap string string))).
  set (s := step (step (step initial (ServiceAdd ana "01/01/2024 10:00:00"))
                       (ServiceAdd bia "02/01/2024 10:00:00"))
                 (ControllerDelete 1)).
  exists s.
  rewrite (verificar_integridade_totals (PessoaService.db s)).
  - vm_compute. reflexivity.
  - apply reachable_ok. do 3 apply reachable_step. apply reachable_initial.
Defined.

End SearchFacts.

(* ================================================================== *)
(** * Backups: which files are kept, and the time read back *)
(* ================================================================== *)

Section BackupFacts.

Import DatabaseManager.

Lemma drop_oldest_skipn (fuel : nat) (l : list Z) :
  (length l - Config.MAX_BACKUPS <= fuel)%nat ->
  drop_oldest fuel l = skipn (length l - Config.MAX_BACKUPS) l.
Proof.
  unfold Config.MAX_BACKUPS. revert l.
  induction fuel as [|fuel IH]; intros l Hl; cbn [drop_oldest].
  - replace (length l - 10)%nat with 0%nat by lia. reflexivity.
  - unfold Config.MAX_BACKUPS. destruct (Nat.ltb_spec 10 (length l)) as [Hlt|Hge].
    + destruct l as [|a l]; [cbn in Hlt; lia|]. cbn [tail length] in *.
      rewrite IH by lia.
      replace (S (length l) - 10)%nat with (S (length l - 10)) by lia.
      reflexivity.
    + replace (length l - 10)%nat with 0%nat by lia. reflexivity.
Qed.

Lemma cleanup_skipn (l : list Z) :
  _cleanup_old_backups l = skipn (length l - Config.MAX_BACKUPS) l.
Proof. apply drop_oldest_skipn. lia. Qed.

Lemma add_backup_file_In (s : Z) (l : list Z) (b : Z) :
  In b (add_backup_file s l) <-> b = s \/ In b l.
Proof.
  induction l as [|a l IH]; cbn; [intuition|].
  destruct (Z.ltb_spec s a); [cbn; intuition|].
  destruct (Z.eqb_spec s a); cbn; [intuition congruence|].
  rewrite IH. intuition.
Qed.

Lemma add_backup_file_sorted (s : Z) (l : list Z) :
  StronglySorted Z.lt l -> StronglySorted Z.lt (add_backup_file s l).
Proof.
  induction 1 as [|a l Hs IH Ha]; cbn; [repeat constructor|].
  destruct (Z.ltb_spec s a).
  - constructor; [constructor; assumption|].
    constructor; [assumption|].
    eapply Forall_impl; [exact Ha|]. cbn. intros; lia.
  - destruct (Z.eqb_spec s a); [constructor; assumption|].
    constructor; [exact IH|].
    apply Forall_forall. intros b Hb.
    apply list_elem_of_In, add_backup_file_In in Hb as [->|Hb]; [lia|].
    rewrite Forall_forall in Ha. apply Ha, list_elem_of_In, Hb.
Qed.

Lemma skipn_sorted (n : nat) (l : list Z) :
  StronglySorted Z.lt l -> StronglySorted Z.lt (skipn n l).
Proof.
  revert l. induction n as [|n IH]; intros l Hs; [exact Hs|].
  destruct l as [|a l]; [constructor|].
  apply StronglySorted_inv in Hs as [Hs _]. apply IH, Hs.
Qed.

Lemma skipn_In (n : nat) (l : list Z) (b : Z) : In b (skipn n l) -> In b l.
Proof.
  revert l. induction n as [|n IH]; intros l; [auto|].
  destruct l as [|a l]; [auto|]. cbn. auto.
Qed.

Lemma skipn_keeps_greatest (n : nat) (l : list Z) (x : Z) :
  StronglySorted Z.lt l -> In x l -> Forall (fun b => b <= x) l ->
  (n < length l)%nat -> In x (skipn n l).
Proof.
  revert l. induction n as [|n IH]; intros l Hs Hx Hmax Hn; [exact Hx|].
  destruct l as [|a l]; [contradiction|].
  apply StronglySorted_inv in Hs as [Hs Ha].
  apply Forall_cons in Hmax as [_ Hmax].
  cbn [skipn length] in *. apply IH; [assumption| |assumption|lia].
  destruct Hx as [->|Hx]; [|exact Hx].
  destruct l as [|b l]; [cbn in Hn; lia|].
  apply Forall_cons in Ha as [Hab _]. apply Forall_cons in Hmax as [Hbx _]. lia.
Qed.

(** X19.  [create_backup] leaves at most [MAX_BACKUPS] files in the
    directory, all of them files that were there or the new one. On a
    sorted directory the files stay sorted; the new file is kept when no
    file there is named after a later second, and it is the one removed
    when the directory is full of files named after later seconds. *)
Theorem create_backup_retention (m : manager) (now : Sqlite.timestamp) :
  let second := now / 1000000 in
  let dir' := backup_dir (snd (create_backup m now)) in
  (length dir' <= Config.MAX_BACKUPS)%nat
  /\ (forall b, In b dir' -> b = second \/ In b (backup_dir m))
  /\ (StronglySorted Z.lt (backup_dir m) ->
      StronglySorted Z.lt dir'
      /\ (Forall (fun b => b <= second) (backup_dir m) -> In second dir')
      /\ (length (backup_dir m) = Config.MAX_BACKUPS ->
          Forall (fun b => second < b) (backup_dir m) -> dir' = backup_dir m)).
Proof.
  cbv zeta. unfold create_backup, _set_config.
  cbn [snd backup_dir with_file]. rewrite cleanup_skipn.
  set (second := now / 1000000). set (dir := backup_dir m).
  split; [|split].
  - rewrite length_skipn. unfold Config.MAX_BACKUPS. lia.
  - intros b Hb. apply skipn_In in Hb. apply add_backup_file_In, Hb.
  - intros Hs. split; [|split].
    + apply skipn_sorted, add_backup_file_sorted, Hs.
    + intros Hmax.
      assert (Hin : In second (add_backup_file second dir))
        by (apply add_backup_file_In; left; reflexivity).
      apply skipn_keeps_greatest.
      * apply add_backup_file_sorted, Hs.
      * exact Hin.
      * apply Forall_forall. intros b Hb.
        apply list_elem_of_In, add_backup_file_In in Hb as [->|Hb]; [lia|].
        rewrite Forall_forall in Hmax. apply Hmax, list_elem_of_In, Hb.
      * unfold Config.MAX_BACKUPS.
        destruct (add_backup_file second dir); [contradiction|cbn; lia].
    + intros Hfull Hlater.
      destruct dir as [|a dir]; [discriminate Hfull|].
      apply Forall_cons in Hlater as [Ha _].
      cbn [add_backup_file]. destruct (Z.ltb_spec second a); [|lia].
      cbn [length] in *. rewrite Hfull.
      replace (S Config.MAX_BACKUPS - Config.MAX_BACKUPS)%nat with 1%nat by lia.
      reflexivity.
Qed.

(** Ten files named after the seconds 11 to 20, and a clock that shows
    the second 5: the new file is removed again. *)
Lemma create_backup_retention_witness :
  let m := mkManager Sqlite.empty_schema ∅ None None [11; 12; 13; 14; 15; 16; 17; 18; 19; 20] in
  backup_dir (snd (create_backup m 5000000)) = backup_dir m.
Proof.
  cbv zeta.
  refine (proj2 (proj2 (proj2 (proj2 (create_backup_retention
            (mkManager Sqlite.empty_schema ∅ None None
                       [11; 12; 13; 14; 15; 16; 17; 18; 19; 20]) 5000000)) _)) _ _).
  - repeat constructor.
  - reflexivity.
  - repeat constructor.
Defined.

(** X20.  [create_backup] writes its time into [config], where a manager
    opened afterwards on the same file reads it: for that manager
    [should_backup] is true exactly from 24 hours after the backup on. The
    manager that made the backup keeps the attribute it had. *)
Theorem create_backup_then_reopen (m : manager) (now now' : Sqlite.timestamp) :
  let m' := snd (create_backup m now) in
  _get_last_backup_time m' = Some now
  /\ _last_backup m' = _last_backup m
  /\ _last_backup (init (file m') (backup_dir m')) = Some now
  /\ should_backup (init (file m') (backup_dir m')) now'
     = (24 * 3600 * 1000000 <=? now' - now).
Proof.
  cbv zeta.
  assert (H : _get_last_backup_time (snd (create_backup m now)) = Some now).
  { unfold _get_last_backup_time, _get_config, create_backup, _set_config.
    cbn. rewrite lookup_insert_eq. reflexivity. }
  split; [exact H|]. split; [reflexivity|].
  assert (H' : _last_backup (init (file (snd (create_backup m now)))
                                  (backup_dir (snd (create_backup m now)))) = Some now).
  { unfold init. cbn [_last_backup]. rewrite <- H. reflexivity. }
  split; [exact H'|].
  unfold should_backup. rewrite H'. reflexivity.
Qed.

End BackupFacts.

(* ================================================================== *)
(** * The controller: the cache of the cities, events, and updates that
      keep the document number *)
(* ================================================================== *)

Section ControllerFacts.

Import Py Sqlite Writes.

Lemma filter_nil_map (rows : list pessoa_row) (q : Z) (f : pessoa_row -> pessoa_row) :
  List.filter (fun r => id r =? q) rows = [] ->
  map (fun r => if id r =? q then f r else r) rows = rows.
Proof.
  induction rows as [|a rows IH]; cbn; [reflexivity|].
  destruct (id a =? q); [discriminate|]. intros H. rewrite IH by exact H. reflexivity.
Qed.

Lemma update_pessoa_false_or_raise (m m' : DatabaseManager.manager) pid pessoa r :
  DatabaseManager.update_pessoa m pid pessoa = (r, m') ->
  r <> Return true -> m' = m.
Proof.
  unfold DatabaseManager.update_pessoa, update_pessoa_stmt.
  destruct (List.filter _ _) as [|a hit].
  - intros [= <- <-] _. apply with_file_same.
  - destruct (pessoa !! "nome"); [|intros [= <- <-] _; apply with_file_same].
    destruct (cpf_clashes _ _ _); [intros [= <- <-] _; apply with_file_same|].
    intros [= <- <-] H. exfalso. apply H. reflexivity.
Qed.

Lemma add_pessoa_raise (m m' : DatabaseManager.manager) pessoa e :
  DatabaseManager.add_pessoa m pessoa = (Raise e, m') -> m' = m.
Proof.
  unfold DatabaseManager.add_pessoa, insert_pessoa.
  destruct (pessoa !! "nome"); [|intros [= <- <-]; apply with_file_same].
  destruct (pessoa !! "data_cadastro"); [|intros [= <- <-]; apply with_file_same].
  destruct (cpf_clashes _ _ _); [intros [= <- <-]; apply with_file_same|].
  discriminate.
Qed.

Lemma salvar_pessoa_cache (m : DatabaseManager.manager) pessoa pessoa_id now :
  snd (AppController.salvar_pessoa m pessoa pessoa_id now) = m
  \/ DatabaseManager.get_cidades_cache
       (snd (AppController.salvar_pessoa m pessoa pessoa_id now)) = None.
Proof.
  unfold AppController.salvar_pessoa.
  destruct (_ && _); [left; reflexivity|].
  destruct (DatabaseManager.truthy_id pessoa_id) as [pid|].
  - destruct (DatabaseManager.update_pessoa _ _ _) as [[[|]|e] m'] eqn:E;
      [right; reflexivity|left|left];
      cbn [snd]; eapply update_pessoa_false_or_raise; try exact E; discriminate.
  - destruct (DatabaseManager.add_pessoa _ _) as [[k|e] m'] eqn:E;
      [right; reflexivity|left].
    cbn [snd]. eapply add_pessoa_raise, E.
Qed.

Lemma excluir_pessoa_cache (m : DatabaseManager.manager) pessoa_id :
  snd (AppController.excluir_pessoa m pessoa_id) = m
  \/ DatabaseManager.get_cidades_cache
       (snd (AppController.excluir_pessoa m pessoa_id)) = None.
Proof.
  unfold AppController.excluir_pessoa, DatabaseManager.delete_pessoa,
    deactivate_pessoa_stmt.
  destruct (List.filter _ _) as [|a hit] eqn:E; [left|right; reflexivity].
  cbn [snd length Z.of_nat Z.ltb Z.compare].
  rewrite filter_nil_map by exact E.
  rewrite set_pessoas_same. apply with_file_same.
Qed.

Lemma step_cidades_current (m : DatabaseManager.manager) (c : Session.call) :
  Session.cidades_current m -> Session.cidades_current (Session.step m c).
Proof.
  intros H. destruct c as [p pid now|pid|e now| | |now]; cbn [Session.step].
  - destruct (salvar_pessoa_cache m p pid now) as [E|E];
      [rewrite E; exact H|left; exact E].
  - destruct (excluir_pessoa_cache m pid) as [E|E];
      [rewrite E; exact H|left; exact E].
  - unfold AppControllerEvents.salvar_evento, DatabaseManager.add_evento, insert_evento.
    repeat match goal with
      | |- context [match ?x with Some _ => _ | None => _ end] => destruct x
      end; cbn [snd]; try (rewrite with_file_same; exact H); exact H.
  - unfold Queries.get_cidades.
    destruct (DatabaseManager.get_cidades_cache m) eqn:E; cbn [snd];
      [exact H|right; reflexivity].
  - left. reflexivity.
  - exact H.
Qed.

(** X21.  Through any calls of the controller, of [get_cidades], of
    [clear_cache] and of [create_backup] on a manager just opened,
    [get_cidades] returns what its query returns on the table as it is:
    the cached list is never out of date. *)
Theorem get_cidades_current_under_controller (calls : list Session.call)
  (t : tables) (dir : list Z) :
  let m := Session.run calls (DatabaseManager.init t dir) in
  fst (Queries.get_cidades m) = Queries.select_cidades (DatabaseManager.file m).
Proof.
  cbv zeta.
  assert (H : Session.cidades_current (Session.run calls (DatabaseManager.init t dir))).
  { unfold Session.run.
    assert (H0 : Session.cidades_current (DatabaseManager.init t dir)) by (left; reflexivity).
    revert H0. generalize (DatabaseManager.init t dir).
    induction calls as [|c calls IH]; intros m H0; [exact H0|].
    cbn [fold_left]. apply IH, step_cidades_current, H0. }
  unfold Queries.get_cidades.
  destruct H as [-> | ->]; reflexivity.
Qed.

(** X22.  [salvar_evento] stores an event whenever the dictionary has the
    keys [titulo] and [data_evento], whatever their values: the row gets
    the next key, the clock as [criado_em] and [tipo] 'geral' unless
    given. Otherwise the insert fails on the missing NOT NULL column and
    nothing changes. *)
Theorem salvar_evento_result (m : DatabaseManager.manager)
  (evento : gmap string string) (now : string) :
  let result := AppControllerEvents.salvar_evento m evento now in
  (exists ti da,
      evento !! "titulo" = Some ti /\ evento !! "data_evento" = Some da
      /\ fst result = Return (eventos_seq (DatabaseManager.file m) + 1)
      /\ eventos (DatabaseManager.file (snd result))
         = (eventos (DatabaseManager.file m)
            ++ [mkEvento (eventos_seq (DatabaseManager.file m) + 1) ti
                         (evento !! "descricao") da
                         (Some (default "geral" (evento !! "tipo")))
                         (evento !! "local") (evento !! "responsavel")
                         true now None])%list
      /\ pessoas (DatabaseManager.file (snd result)) = pessoas (DatabaseManager.file m))
  \/ (evento !! "titulo" = None
      /\ result = (Raise (IntegrityError (NotNull "eventos.titulo")), m))
  \/ (evento !! "titulo" <> None /\ evento !! "data_evento" = None
      /\ result = (Raise (IntegrityError (NotNull "eventos.data_evento")), m)).
Proof.
  cbv zeta.
  unfold AppControllerEvents.salvar_evento, DatabaseManager.add_evento, insert_evento.
  rewrite lookup_insert_eq, !lookup_insert_ne by discriminate.
  destruct (evento !! "titulo") as [ti|].
  - destruct (evento !! "data_evento") as [da|].
    + left. exists ti, da. repeat split.
    + right. right. rewrite with_file_same. repeat split. discriminate.
  - right. left. rewrite with_file_same. split; reflexivity.
Qed.

Lemma validate_cpf_truthy (c : string) : Utils.validate_cpf c = true -> truthy c = true.
Proof. destruct c; [vm_compute; discriminate|reflexivity]. Qed.

(** X23.  The update of the service accepts a record that keeps its own
    document number: with a name, the valid normalised number the row
    already holds and a key other than 0 it returns True, and the row is
    found under its key with the new name and the same number. *)
Theorem update_pessoa_keeps_own_document (s : PessoaService.service) (pessoa_id : Z)
  (pessoa : gmap string string) (r : pessoa_row) (n c : string) :
  table_ok (DatabaseManager.file (PessoaService.db s)) ->
  Queries.get_pessoa_by_id (PessoaService.db s) pessoa_id = Some r ->
  pessoa_id <> 0 ->
  cpf r = Some c -> Utils.normalize_cpf c = c -> Utils.validate_cpf c = true ->
  pessoa !! "nome" = Some n -> truthy n = true ->
  pessoa !! "cpf" = Some c ->
  exists s' r',
    PessoaService.update_pessoa s pessoa_id pessoa = (Return true, s')
    /\ Queries.get_pessoa_by_id (PessoaService.db s') pessoa_id = Some r'
    /\ nome r' = n /\ cpf r' = Some c /\ ativo r' = ativo r
    /\ data_cadastro r' = data_cadastro r.
Proof.
  intros (Hcpf & _ & _) Hget Hpid Hc Hnorm Hvalid Hn Htn Hpc.
  unfold Queries.get_pessoa_by_id in Hget.
  destruct (find_id _ _ _ Hget) as [Hid Hin].
  destruct (find_some_filter _ _ _ Hget) as [k Hk].
  assert (Hfree : cpf_clashes (pessoas (DatabaseManager.file (PessoaService.db s)))
                              (Some pessoa_id) (Some c) = false).
  { unfold cpf_clashes. apply not_true_is_false. intros Hex.
    apply existsb_exists in Hex as (r' & Hin' & Hr').
    apply andb_prop in Hr' as [Hr' Hother]. apply opt_eqb_Some in Hr'.
    apply list_elem_of_In, list_elem_of_lookup in Hin as [i Hi].
    apply list_elem_of_In, list_elem_of_lookup in Hin' as [j Hj].
    pose proof (NoDup_omap_lookup cpf _ i j r r' c Hcpf Hi Hj Hc Hr') as ->.
    assert (r' = r) by congruence. subst r'.
    rewrite Hid, Z.eqb_refl in Hother. discriminate. }
  unfold PessoaService.update_pessoa.
  rewrite Hn, Hpc. cbn [truthy_opt default from_option Datatypes.id].
  rewrite Htn. cbn [negb].
  rewrite Hnorm, Hvalid, (validate_cpf_truthy c Hvalid). cbn [negb andb].
  unfold PessoaService.cpf_exists. rewrite Hnorm, (validate_cpf_truthy c Hvalid).
  cbn [negb]. unfold select_id_by_cpf, DatabaseManager.truthy_id.
  destruct (Z.eqb_spec pessoa_id 0); [contradiction|].
  rewrite Hfree.
  unfold DatabaseManager.update_pessoa, update_pessoa_stmt.
  rewrite Hn, Hpc, Hfree.
  destruct (List.filter _ _) as [|a hit] eqn:E; [discriminate Hk|].
  eexists _, _. split; [reflexivity|].
  unfold Queries.get_pessoa_by_id.
  cbn [PessoaService.db PessoaService.with_db DatabaseManager.file
       DatabaseManager.with_file set_pessoas pessoas].
  rewrite find_map_update by reflexivity. rewrite Hget.
  cbn [fmap option_fmap option_map]. rewrite Hid, Z.eqb_refl.
  repeat split.
Qed.

(** Ana keeps 111.444.777-35 and changes her name. *)
Lemma update_pessoa_keeps_own_document_witness :
  exists s s',
    PessoaService.update_pessoa s 1
      (<["nome" := "Ana Souza"%string]>
         (<["cpf" := "11144477735"%string]> (∅ : gmap string string)))
    = (Return true, s').
Proof.
  set (ana := <["nome" := "Ana Silva"%string]>
                (<["cpf" := "111.444.777-35"%string]> (∅ : gmap string string))).
  set (s := step initial (ServiceAdd ana "01/01/2024 10:00:00")).
  assert (Hok : table_ok (DatabaseManager.file (PessoaService.db s)))
    by (apply reachable_ok, reachable_step, reachable_initial).
  assert (Hget : exists r, Queries.get_pessoa_by_id (PessoaService.db s) 1 = Some r
                           /\ cpf r = Some "11144477735"%string)
    by (eexists; split; vm_compute; reflexivity).
  destruct Hget as (r & Hget & Hc).
  destruct (update_pessoa_keeps_own_document s 1
              (<["nome" := "Ana Souza"%string]>
                 (<["cpf" := "11144477735"%string]> (∅ : gmap string string)))
              r "Ana Souza" "11144477735" Hok Hget)
    as (s' & r' & H & _); try (vm_compute; reflexivity); try assumption.
  - discriminate.
  - exists s, s'. exact H.
Defined.

Lemma normal_digits (c : string) : normal c -> all_chars isdigit c = true.
Proof. unfold normal. intros <-. apply normalize_cpf_digits. Qed.

(** X24.  Through the add of the service, the save of the controller and
    the deletes, every document number stored in the table consists of
    digits only. *)
Theorem stored_documents_digits_only (ops : list op) :
  forallb normalises ops = true ->
  Forall (fun c => all_chars isdigit c = true)
         (omap cpf (rows (fold_left step ops initial))).
Proof.
  intros Hops.
  assert (H : stored_normalised (fold_left step ops initial)).
  { assert (H0 : stored_normalised initial) by constructor.
    revert H0 Hops. generalize initial.
    induction ops as [|o ops IH]; intros s H0 Hops; [exact H0|].
    cbn [forallb] in Hops. apply andb_prop in Hops as [Ho Hops].
    cbn [fold_left]. apply IH; [|exact Hops].
    apply step_stored_normalised; assumption. }
  unfold stored_normalised in H.
  eapply Forall_impl; [exact H|]. intros c. apply normal_digits.
Qed.

Lemma stored_documents_digits_only_witness :
  Forall (fun c => all_chars isdigit c = true)
         (omap cpf (rows (fold_left step
            [ServiceAdd (<["nome" := "Ana Silva"%string]>
                           (<["cpf" := "111.444.777-35"%string]>
                              (∅ : gmap string string))) "01/01/2024 10:00:00";
             ControllerSave (<["nome" := "Bia Souza"%string]>
                               (<["cpf" := "529.982.247-25"%string]>
                                  (∅ : gmap string string))) None "02/01/2024 10:00:00";
             ControllerDelete 1] initial))).
Proof.
  apply stored_documents_digits_only. reflexivity.
Defined.

End ControllerFacts.

(* ================================================================== *)
(** * Writes that raise *)
(* ================================================================== *)

Section RaisingWrites.

Import Py Sqlite.

(** X25.  A write of a person that raises leaves the database, the manager
    and the service as they were: the adds, the updates and the save of
    the controller change something only when they return. *)
Theorem raising_write_changes_nothing (s : PessoaService.service)
  (pessoa : gmap string string) (pessoa_id : Z) (save_id : option Z) (now : string)
  (e : exn) :
  let m := PessoaService.db s in
  (fst (DatabaseManager.add_pessoa m pessoa) = Raise e ->
   snd (DatabaseManager.add_pessoa m pessoa) = m)
  /\ (fst (DatabaseManager.add_pessoa_models m pessoa now) = Raise e ->
      snd (DatabaseManager.add_pessoa_models m pessoa now) = m)
  /\ (fst (DatabaseManager.update_pessoa m pessoa_id pessoa) = Raise e ->
      snd (DatabaseManager.update_pessoa m pessoa_id pessoa) = m)
  /\ (fst (PessoaService.add_pessoa s pessoa now) = Raise e ->
      snd (PessoaService.add_pessoa s pessoa now) = s)
  /\ (fst (PessoaService.update_pessoa s pessoa_id pessoa) = Raise e ->
      snd (PessoaService.update_pessoa s pessoa_id pessoa) = s)
  /\ (fst (AppController.salvar_pessoa m pessoa save_id now) = Raise e ->
      snd (AppController.salvar_pessoa m pessoa save_id now) = m).
Proof.
  cbv zeta.
  assert (Hadd : forall m p, fst (DatabaseManager.add_pessoa m p) = Raise e ->
                             snd (DatabaseManager.add_pessoa m p) = m).
  { intros m p H. destruct (DatabaseManager.add_pessoa m p) as [r m'] eqn:E.
    cbn [fst snd] in *. subst r. eapply add_pessoa_raise, E. }
  assert (Hupd : forall m k p, fst (DatabaseManager.update_pessoa m k p) = Raise e ->
                               snd (DatabaseManager.update_pessoa m k p) = m).
  { intros m k p H. destruct (DatabaseManager.update_pessoa m k p) as [r m'] eqn:E.
    cbn [fst snd] in *. subst r.
    eapply update_pessoa_false_or_raise; [exact E|discriminate]. }
  assert (Hmodels : forall m p, fst (DatabaseManager.add_pessoa_models m p now) = Raise e ->
                                snd (DatabaseManager.add_pessoa_models m p now) = m).
  { intros m p. unfold DatabaseManager.add_pessoa_models.
    destruct (DatabaseManager.add_pessoa m _) as [[k|e'] m'] eqn:E; [discriminate|].
    intros _. cbn [snd]. eapply add_pessoa_raise, E. }
  assert (Hs : forall s0 : PessoaService.service,
             PessoaService.with_db s0 (PessoaService.db s0) = s0)
    by (intros []; reflexivity).
  split; [apply Hadd|]. split; [apply Hmodels|]. split; [apply Hupd|].
  split; [|split].
  - unfold PessoaService.add_pessoa.
    destruct (negb _); [reflexivity|].
    destruct (_ && _); [reflexivity|].
    destruct (_ && _); [reflexivity|].
    pose proof (Hmodels (PessoaService.db s) pessoa) as H.
    destruct (DatabaseManager.add_pessoa_models _ _ _) as [r m']. cbn [fst snd] in *.
    intros Hr. rewrite (H Hr). apply Hs.
  - unfold PessoaService.update_pessoa.
    destruct (negb _); [reflexivity|].
    destruct (_ && _); [reflexivity|].
    destruct (_ && _); [reflexivity|].
    pose proof (Hupd (PessoaService.db s) pessoa_id pessoa) as H.
    destruct (DatabaseManager.update_pessoa _ _ _) as [r m']. cbn [fst snd] in *.
    intros Hr. rewrite (H Hr). apply Hs.
  - unfold AppController.salvar_pessoa.
    destruct (_ && _); [reflexivity|].
    destruct (DatabaseManager.truthy_id save_id) as [pid|].
    + destruct (DatabaseManager.update_pessoa _ _ _) as [[[|]|e'] m'] eqn:E;
        [discriminate| |]; intros _; cbn [snd];
        eapply update_pessoa_false_or_raise; try exact E; discriminate.
    + destruct (DatabaseManager.add_pessoa _ _) as [[k|e'] m'] eqn:E; [discriminate|].
      intros _. cbn [snd]. eapply add_pessoa_raise, E.
Qed.

(** X26.  The add of the event service either raises and changes nothing,
    or returns the key of a new row, the last of the table: then the
    dictionary had a title that is not empty, a date that is not empty and
    that [validate_date] accepts, and a creation time, which the service
    does not set itself. *)
Theorem service_add_evento_outcome (m : DatabaseManager.manager)
  (evento : gmap string string) :
  match EventoService.add_evento m evento with
  | (Return k, m') =>
      exists ti da cr,
        evento !! "titulo" = Some ti /\ truthy ti = true
        /\ evento !! "data_evento" = Some da /\ truthy da = true
        /\ Utils.validate_date da = true
        /\ evento !! "criado_em" = Some cr
        /\ k = eventos_seq (DatabaseManager.file m) + 1
        /\ eventos (DatabaseManager.file m')
           = (eventos (DatabaseManager.file m)
              ++ [mkEvento k ti (evento !! "descricao") da
                           (Some (default "geral" (evento !! "tipo")))
                           (evento !! "local") (evento !! "responsavel")
                           true cr None])%list
  | (Raise _, m') => m' = m
  end.
Proof.
  unfold EventoService.add_evento.
  destruct (evento !! "titulo") as [ti|] eqn:Eti; cbn [truthy_opt negb];
    [|reflexivity].
  destruct (truthy ti) eqn:Hti; cbn [negb]; [|reflexivity].
  destruct (evento !! "data_evento") as [da|] eqn:Eda;
    cbn [default from_option Datatypes.id truthy negb orb]; [|reflexivity].
  destruct (truthy da) eqn:Hda; cbn [negb orb]; [|reflexivity].
  destruct (Utils.validate_date da) eqn:Hv; cbn [negb]; [|reflexivity].
  unfold DatabaseManager.add_evento, insert_evento. rewrite Eti, Eda.
  destruct (evento !! "criado_em") as [cr|]; [|apply with_file_same].
  exists ti, da, cr. repeat split; assumption.
Qed.

End RaisingWrites.

(* ================================================================== *)
(** * The ledger: outcomes of the adds, keys and deletes, amounts typed
      with a point *)
(* ================================================================== *)

Section LedgerFacts.

Import Py Finance.

Variable py_float : string -> option float.
Variable pad : Datetime.year_padding.

Lemma checked_entry_values category amount_entry date_entry description_entry
  date_str cat desc amount my :
  checked_entry py_float pad category amount_entry date_entry description_entry
  = inr (date_str, cat, desc, amount, my) ->
  date_str = strip date_entry /\ cat = category /\ desc = strip description_entry.
Proof.
  unfold checked_entry.
  destruct (truthy category); cbn [negb]; [|discriminate].
  destruct (truthy (strip amount_entry)); cbn [negb]; [|discriminate].
  destruct (truthy (strip date_entry)); cbn [negb]; [|discriminate].
  destruct (Finance.validate_date (strip date_entry)); cbn [negb]; [|discriminate].
  destruct (parse_value py_float (strip amount_entry)) as [a|]; [|discriminate].
  destruct (PrimFloat.leb a 0%float); [discriminate|].
  destruct (get_month_year pad (strip date_entry)); [|discriminate].
  intros [= <- <- <- <- <-]. auto.
Qed.

Lemma checked_entry_error category amount_entry date_entry description_entry o :
  checked_entry py_float pad category amount_entry date_entry description_entry
  = inl o ->
  o <> ShowInfo.
Proof.
  unfold checked_entry.
  repeat match goal with
    | |- context [if ?b then _ else _] => destruct b
    | |- context [match ?x with Some _ => _ | None => _ end] => destruct x
    end; intros [= <-]; discriminate.
Qed.

(** X27.  An add that does not end in the success message leaves the
    ledger as it was. One that does appends one row to its own table,
    under the next key, with the stripped date and description, the
    category as given and the clock, and leaves the other table alone. *)
Theorem add_entry_outcome (l : ledger)
  (category amount_entry date_entry description_entry now : string) :
  let e := add_expense py_float pad l category amount_entry date_entry
                       description_entry now in
  let c := add_contribution py_float pad l category amount_entry date_entry
                            description_entry now in
  (fst e <> ShowInfo -> snd e = l)
  /\ (fst c <> ShowInfo -> snd c = l)
  /\ (fst e = ShowInfo ->
      contributions (snd e) = contributions l
      /\ contributions_seq (snd e) = contributions_seq l
      /\ expenses_seq (snd e) = expenses_seq l + 1
      /\ exists amount my,
           expenses (snd e)
           = (expenses l ++ [mkEntry (expenses_seq l + 1) (strip date_entry) category
                                     (strip description_entry) amount my now])%list)
  /\ (fst c = ShowInfo ->
      expenses (snd c) = expenses l
      /\ expenses_seq (snd c) = expenses_seq l
      /\ contributions_seq (snd c) = contributions_seq l + 1
      /\ exists amount my,
           contributions (snd c)
           = (contributions l
              ++ [mkEntry (contributions_seq l + 1) (strip date_entry) category
                          (strip description_entry) amount my now])%list).
Proof.
  cbv zeta. unfold add_expense, add_contribution.
  destruct (checked_entry py_float pad category amount_entry date_entry
                          description_entry)
    as [o|[[[[ds cat] desc] amt] my]] eqn:E.
  - apply checked_entry_error in E. cbn [fst snd]. repeat split; try reflexivity;
      intros; contradiction.
  - apply checked_entry_values in E as (-> & -> & ->).
    unfold insert_entry. destruct (PrimFloat.is_nan amt); cbn [fst snd].
    + repeat split; try reflexivity; discriminate.
    + split; [intros H; contradiction H; reflexivity|].
      split; [intros H; contradiction H; reflexivity|].
      split; intros _; cbn [expenses expenses_seq contributions contributions_seq];
        repeat split; eauto.
Qed.

Lemma insert_entry_keys rows seq v_date v_cat v_desc v_amount v_my now :
  FinanceDates.keys_ok rows seq ->
  FinanceDates.keys_ok
    (fst (snd (insert_entry rows seq v_date v_cat v_desc v_amount v_my now)))
    (snd (snd (insert_entry rows seq v_date v_cat v_desc v_amount v_my now))).
Proof.
  intros [Hnd Hle]. unfold insert_entry.
  destruct (PrimFloat.is_nan v_amount); cbn [fst snd]; [split; assumption|].
  split.
  - rewrite map_app. cbn [map id]. apply NoDup_app. split; [exact Hnd|].
    split; [|apply NoDup_singleton].
    intros k Hk ->%list_elem_of_singleton.
    apply list_elem_of_In, in_map_iff in Hk as (r & Hr & Hin).
    rewrite List.Forall_forall in Hle. specialize (Hle r Hin). lia.
  - apply Forall_app. split.
    + eapply Forall_impl; [exact Hle|]. cbn. intros; lia.
    + constructor; [cbn; lia|constructor].
Qed.

Lemma filter_keys (p : entry_row -> bool) rows seq :
  FinanceDates.keys_ok rows seq -> FinanceDates.keys_ok (List.filter p rows) seq.
Proof.
  intros [Hnd Hle]. split.
  - clear Hle. induction rows as [|r rows IH]; [constructor|].
    cbn [map] in Hnd. apply NoDup_cons in Hnd as [Hr Hnd].
    cbn [List.filter]. destruct (p r); [|apply IH, Hnd].
    cbn [map]. apply NoDup_cons. split; [|apply IH, Hnd].
    intros Hin. apply Hr.
    apply list_elem_of_In, in_map_iff in Hin as (r' & E & Hin).
    apply filter_In in Hin as [Hin _].
    apply list_elem_of_In, in_map_iff. eauto.
  - rewrite List.Forall_forall in Hle |- *.
    intros r Hr. apply filter_In in Hr as [Hr _]. apply Hle, Hr.
Qed.

Lemma perform_keys l a :
  FinanceDates.keys_ok (expenses l) (expenses_seq l)
  /\ FinanceDates.keys_ok (contributions l) (contributions_seq l) ->
  FinanceDates.keys_ok (expenses (perform py_float pad l a))
                       (expenses_seq (perform py_float pad l a))
  /\ FinanceDates.keys_ok (contributions (perform py_float pad l a))
                          (contributions_seq (perform py_float pad l a)).
Proof.
  intros [He Hc]. destruct a as [c a d n now|c a d n now|sel ok|sel ok]; cbn [perform].
  - unfold add_expense.
    destruct (checked_entry py_float pad c a d n) as [o|[[[[ds cat] desc] amt] my]];
      [split; assumption|].
    pose proof (insert_entry_keys (expenses l) (expenses_seq l) ds cat desc amt my now He)
      as Hok.
    destruct (insert_entry _ _ _ _ _ _ _ _) as [[new_id|e] [rows seq]];
      cbn [fst snd expenses expenses_seq contributions contributions_seq] in *;
      split; assumption.
  - unfold add_contribution.
    destruct (checked_entry py_float pad c a d n) as [o|[[[[ds cat] desc] amt] my]];
      [split; assumption|].
    pose proof (insert_entry_keys (contributions l) (contributions_seq l) ds cat desc
                  amt my now Hc) as Hok.
    destruct (insert_entry _ _ _ _ _ _ _ _) as [[new_id|e] [rows seq]];
      cbn [fst snd expenses expenses_seq contributions contributions_seq] in *;
      split; assumption.
  - unfold delete_expense. destruct sel as [i|]; [|split; assumption].
    destruct ok; cbn [negb snd expenses expenses_seq contributions contributions_seq];
      [|split; assumption].
    split; [apply filter_keys|]; assumption.
  - unfold delete_contribution. destruct sel as [i|]; [|split; assumption].
    destruct ok; cbn [negb snd expenses expenses_seq contributions contributions_seq];
      [|split; assumption].
    split; [|apply filter_keys]; assumption.
Qed.

Lemma run_keys actions :
  FinanceDates.keys_ok (expenses (run py_float pad actions))
                       (expenses_seq (run py_float pad actions))
  /\ FinanceDates.keys_ok (contributions (run py_float pad actions))
                          (contributions_seq (run py_float pad actions)).
Proof.
  unfold run.
  assert (H0 : FinanceDates.keys_ok (expenses empty_ledger) (expenses_seq empty_ledger)
               /\ FinanceDates.keys_ok (contributions empty_ledger)
                                       (contributions_seq empty_ledger))
    by (repeat split; constructor).
  revert H0. generalize empty_ledger.
  induction actions as [|a actions IH]; intros l H; [exact H|].
  cbn [fold_left]. apply IH, perform_keys, H.
Qed.

Lemma filter_removes_one (rows : list entry_row) (r : entry_row) :
  NoDup (map id rows) -> In r rows ->
  let rest := List.filter (fun x => negb (id x =? id r)) rows in
  (forall x, In x rest <-> In x rows /\ x <> r)
  /\ (length rest + 1 = length rows)%nat.
Proof.
  intros Hnd Hin. cbv zeta.
  assert (Hkey : forall x, In x rows -> id x = id r -> x = r).
  { intros x Hx E.
    apply list_elem_of_In, list_elem_of_lookup in Hx as [i Hi].
    apply list_elem_of_In, list_elem_of_lookup in Hin as [j Hj].
    assert (i = j) as ->; [|congruence].
    eapply NoDup_lookup; [exact Hnd| |].
    - rewrite list_lookup_fmap, Hi. reflexivity.
    - rewrite list_lookup_fmap, Hj. cbn. rewrite E. reflexivity. }
  split.
  - intros x. rewrite filter_In. split.
    + intros [Hx Hne]. split; [exact Hx|]. intros ->.
      rewrite Z.eqb_refl in Hne. discriminate.
    + intros [Hx Hne]. split; [exact Hx|].
      destruct (Z.eqb_spec (id x) (id r)) as [E|E]; [|reflexivity].
      contradiction Hne. apply Hkey; assumption.
  - clear Hkey. induction rows as [|a rows IH]; [contradiction|].
    cbn [map] in Hnd. apply NoDup_cons in Hnd as [Ha Hnd].
    cbn [List.filter length]. destruct Hin as [->|Hin].
    + rewrite Z.eqb_refl. cbn [negb].
      assert (Hsame : List.filter (fun x => negb (id x =? id r)) rows = rows).
      { clear IH Hnd. induction rows as [|b rows IH]; [reflexivity|].
        cbn [List.filter]. destruct (Z.eqb_spec (id b) (id r)) as [E|E]; cbn [negb].
        - exfalso. apply Ha. cbn [map]. rewrite E. left.
        - rewrite IH; [reflexivity|]. intros H. apply Ha. cbn [map]. right. exact H. }
      rewrite Hsame. lia.
    + destruct (Z.eqb_spec (id a) (id r)) as [E|E]; cbn [negb length].
      * exfalso. apply Ha. rewrite E. apply list_elem_of_In, in_map. exact Hin.
      * specialize (IH Hnd Hin). lia.
Qed.

(** X28.  In the ledger any calls have led to, a confirmed delete of a row
    removes that row and no other from its table and leaves the other
    table alone; a delete that is not confirmed, or without a selection,
    changes nothing. *)
Theorem delete_entry_removes_selected (actions : list action) (r : entry_row) :
  let l := run py_float pad actions in
  (In r (expenses l) ->
   let l' := snd (delete_expense l (Some (id r)) true) in
   (forall x, In x (expenses l') <-> In x (expenses l) /\ x <> r)
   /\ (length (expenses l') + 1 = length (expenses l))%nat
   /\ contributions l' = contributions l)
  /\ (In r (contributions l) ->
      let l' := snd (delete_contribution l (Some (id r)) true) in
      (forall x, In x (contributions l') <-> In x (contributions l) /\ x <> r)
      /\ (length (contributions l') + 1 = length (contributions l))%nat
      /\ expenses l' = expenses l)
  /\ (forall sel, delete_expense l sel false = (match sel with
                                                | None => ShowError "selection"
                                                | Some _ => Cancelled
                                                end, l))
  /\ (forall sel, delete_contribution l sel false = (match sel with
                                                     | None => ShowError "selection"
                                                     | Some _ => Cancelled
                                                     end, l)).
Proof.
  cbv zeta. destruct (run_keys actions) as [[He _] [Hc _]].
  split; [|split; [|split]].
  - intros Hin. cbn [delete_expense negb snd expenses contributions].
    destruct (filter_removes_one _ r He Hin) as [H1 H2]. auto.
  - intros Hin. cbn [delete_contribution negb snd expenses contributions].
    destruct (filter_removes_one _ r Hc Hin) as [H1 H2]. auto.
  - intros [k|]; reflexivity.
  - intros [k|]; reflexivity.
Qed.

Lemma separator_cases (c : ascii) :
  isdecimal c || Ascii.eqb c "." = true ->
  c = "."%char \/ isdecimal c = true.
Proof.
  intros H. apply orb_prop in H as [H|H]; [right; exact H|left].
  apply Ascii.eqb_eq, H.
Qed.

Lemma plain_char (c : ascii) :
  isdecimal c || Ascii.eqb c "." = true ->
  Ascii.eqb c "R" = false /\ Ascii.eqb c " " = false /\ isspace c = false
  /\ Ascii.eqb c "," = false.
Proof.
  intros [->|H]%separator_cases; [repeat split|].
  destruct c as [[] [] [] [] [] [] [] []]; try discriminate H; repeat split.
Qed.

Lemma remove_pair_plain (s : string) :
  all_chars (fun c => isdecimal c || Ascii.eqb c ".") s = true ->
  remove_pair "R" "$" s = s.
Proof.
  induction s as [|x s IH]; [reflexivity|].
  cbn [all_chars]. intros [Hx Hs]%andb_prop.
  destruct (plain_char x Hx) as (HR & _).
  cbn [remove_pair]. destruct s as [|y s]; [reflexivity|].
  rewrite HR. cbn [andb]. rewrite IH by exact Hs. reflexivity.
Qed.

Lemma replace_space_plain (s : string) :
  all_chars (fun c => isdecimal c || Ascii.eqb c ".") s = true ->
  replace_char " " "" s = s.
Proof.
  induction s as [|x s IH]; [reflexivity|].
  cbn [all_chars]. intros [Hx Hs]%andb_prop.
  destruct (plain_char x Hx) as (_ & Hsp & _).
  cbn [replace_char]. rewrite Hsp, IH by exact Hs. reflexivity.
Qed.

Lemma strip_plain (s : string) :
  all_chars (fun c => isdecimal c || Ascii.eqb c ".") s = true -> strip s = s.
Proof.
  intros H. unfold strip.
  assert (Hl : lstrip s = s).
  { destruct s as [|x s]; [reflexivity|]. cbn [all_chars] in H.
    apply andb_prop in H as [Hx _]. destruct (plain_char x Hx) as (_ & _ & Hsp & _).
    cbn [lstrip]. rewrite Hsp. reflexivity. }
  rewrite Hl. induction s as [|x s IH]; [reflexivity|].
  cbn [all_chars] in H. apply andb_prop in H as [Hx Hs].
  destruct (plain_char x Hx) as (_ & _ & Hsp & _).
  assert (Hl' : lstrip s = s).
  { destruct s as [|y s]; [reflexivity|]. cbn [all_chars] in Hs.
    apply andb_prop in Hs as [Hy _]. destruct (plain_char y Hy) as (_ & _ & Hsy & _).
    cbn [lstrip]. rewrite Hsy. reflexivity. }
  cbn [rstrip]. rewrite (IH Hs Hl'). rewrite Hsp. destruct s; reflexivity.
Qed.

Lemma remove_points (s : string) :
  all_chars (fun c => isdecimal c || Ascii.eqb c ".") s = true ->
  replace_char "." "" s = filter_chars isdecimal s.
Proof.
  induction s as [|x s IH]; [reflexivity|].
  cbn [all_chars]. intros [Hx Hs]%andb_prop.
  cbn [replace_char filter_chars]. rewrite IH by exact Hs.
  destruct (separator_cases x Hx) as [->|Hd]; [reflexivity|].
  rewrite Hd. destruct (Ascii.eqb_spec x "."); [subst x; discriminate Hd|reflexivity].
Qed.

Lemma replace_comma_digits (s : string) :
  all_chars isdecimal s = true -> replace_char "," "." s = s.
Proof.
  induction s as [|x s IH]; [reflexivity|].
  cbn [all_chars]. intros [Hx Hs]%andb_prop.
  cbn [replace_char]. rewrite IH by exact Hs.
  destruct (Ascii.eqb_spec x ","); [subst x; discriminate Hx|reflexivity].
Qed.

(** X29.  In an amount typed with digits and points only, every point is
    taken as a thousands separator: the value is the one [float] gives for
    the digits alone. *)
Theorem parse_value_drops_points (s : string) :
  all_chars (fun c => isdecimal c || Ascii.eqb c ".") s = true ->
  parse_value py_float s = py_float (filter_chars isdecimal s).
Proof.
  intros H. unfold parse_value.
  rewrite remove_pair_plain, replace_space_plain, strip_plain, remove_points by exact H.
  rewrite replace_comma_digits by apply filter_chars_all. reflexivity.
Qed.

End LedgerFacts.

(** The amount 10.50 is read as 1050. *)
Lemma parse_value_drops_points_witness :
  Finance.parse_value
    (fun s => if String.eqb s "1050" then Some 1050%float else None) "10.50"
  = Some 1050%float.
Proof.
  rewrite (parse_value_drops_points
             (fun s => if String.eqb s "1050" then Some 1050%float else None) "10.50")
    by reflexivity.
  reflexivity.
Defined.

(** An expense of 150,00 on 05/03/2024, then deleted. *)
Lemma delete_entry_removes_selected_witness :
  let py_float := fun s => if String.eqb s "150.00" then Some 150%float else None in
  let l := Finance.run py_float Datetime.Unpadded
             [Finance.AddExpense "Luz" "150,00" "05/03/2024" "" "2024-03-05 12:00:00"] in
  length (Finance.expenses l) = 1%nat
  /\ length (Finance.expenses (snd (Finance.delete_expense l (Some 1) true))) = 0%nat.
Proof.
  cbv zeta. split; [vm_compute; reflexivity|].
  pose proof (proj1 (delete_entry_removes_selected
                (fun s => if String.eqb s "150.00" then Some 150%float else None)
                Datetime.Unpadded
                [Finance.AddExpense "Luz" "150,00" "05/03/2024" "" "2024-03-05 12:00:00"]
                (Finance.mkEntry 1 "05/03/2024" "Luz" "" 150%float "03/2024"
                                 "2024-03-05 12:00:00"))) as H.
  cbv zeta in H.
  assert (Hin : In (Finance.mkEntry 1 "05/03/2024" "Luz" "" 150%float "03/2024"
                                    "2024-03-05 12:00:00")
                   (Finance.expenses
                      (Finance.run
                         (fun s => if String.eqb s "150.00" then Some 150%float else None)
                         Datetime.Unpadded
                         [Finance.AddExpense "Luz" "150,00" "05/03/2024" ""
                                             "2024-03-05 12:00:00"])))
    by (vm_compute; left; reflexivity).
  destruct (H Hin) as (_ & Hlen & _).
  assert (Hone : length (Finance.expenses
                    (Finance.run
                       (fun s => if String.eqb s "150.00" then Some 150%float else None)
                       Datetime.Unpadded
                       [Finance.AddExpense "Luz" "150,00" "05/03/2024" ""
                                           "2024-03-05 12:00:00"])) = 1%nat)
    by (vm_compute; reflexivity).
  cbn [Finance.id] in Hlen. rewrite Hone in Hlen. lia.
Defined.
